(** * Invoice / purchase-order reconciliation (scripts/invoice_po_matcher.py)

    A shallow embedding of the [InvoicePOMatcher] class: the line-item
    comparator, the header comparator, the aggregation loop, the text report
    and the two filters, and of the query handler of backend/api.py that
    calls them, followed by the properties of these functions.

    Modelling conventions.
    - Numbers.  An amount is a Python float, an IEEE 754 binary64 number:
      Rocq's primitive [float], whose operations round as Python's do.  The
      literal [0.01] is the binary64 number nearest to 1/100.  (An amount
      that JSON writes without a fraction is a Python int; below 2^53 it
      computes as its float.)  Quantities and counters are integers ([Z],
      [nat]).
    - A JSON object read with [d[k]] has a plain field.  A member read with
      [d.get(k)] only is an [option], [None] standing for an absent key or a
      null value, which that read cannot tell apart.
    - The header amounts (subtotal, tax, total_amount) are read with
      [d.get(k, 0)] as well, which tells an absent key (read as 0) from a
      null value (read as [None], on which the subtraction raises): their
      members are an [Amount].  The PDF extractor of the repository writes
      null for an amount it could not read.
    - Python dictionaries used as lookup tables are [gmap]s, the set of
      invoice item codes is a [gset].
    - Code that can raise returns a [result]. *)

From Stdlib Require Import ZArith Floats.
From stdpp Require Import gmap strings list fin_maps pretty.

Set Warnings "-inexact-float".

(** ** Python values, exceptions *)

Inductive exn := TypeError | ZeroDivisionError | KeyError | ValueError.

Inductive result (A : Type) :=
| Ok (a : A)
| Raise (e : exn).
Arguments Ok {A} a.
Arguments Raise {A} e.

Definition bind {A B} (m : result A) (k : A → result B) : result B :=
  match m with
  | Ok a => k a
  | Raise e => Raise e
  end.

Notation "'let*' x := m 'in' k" := (bind m (λ x, k))
  (at level 10, x pattern, m at level 100, k at level 200).

(** What a dictionary entry of an issue can hold. *)
Inductive value :=
| VNone
| VStr (s : string)
| VInt (z : Z)
| VNum (x : float).
Arguments VNum x%_float.

Definition of_str (o : option string) : value :=
  match o with Some s => VStr s | None => VNone end.

Definition of_num (o : option float) : value :=
  match o with Some x => VNum x | None => VNone end.

(** ** Floats *)

(** [x > y]; false as soon as one side is NaN. *)
Definition gtb (x y : float) : bool := (y <? x)%float.

Definition tolerance : float := 0.01.

(** [float(z)]: the binary64 number nearest to an integer (the integer
    itself below 2^53). *)
Definition float_of_Z (z : Z) : float :=
  SF2Prim (binary_normalize prec emax z 0 false).

(** [a - b] on two values read from a document: [None] on either side
    raises. *)
Definition subtract (a b : option float) : result float :=
  match a, b with
  | Some x, Some y => Ok (x - y)%float
  | _, _ => Raise TypeError
  end.

(** ** Amount members *)

(** The member of a header amount: the key is absent, or it holds null, or
    it holds a number. *)
Inductive Amount :=
| Absent
| Null
| Number (x : float).
Arguments Number x%_float.

(** [d.get(k, 0)] *)
Definition get_or_zero (m : Amount) : option float :=
  match m with
  | Absent => Some 0%float
  | Null => None
  | Number x => Some x
  end.

(** [d.get(k)] *)
Definition get (m : Amount) : option float :=
  match m with
  | Absent | Null => None
  | Number x => Some x
  end.

Inductive Severity := HIGH | MEDIUM.
Inductive Status := MATCH | MISMATCH | ERROR.

Global Instance Severity_eq_dec : EqDecision Severity.
Proof. solve_decision. Defined.
Global Instance Status_eq_dec : EqDecision Status.
Proof. solve_decision. Defined.

(** ** Records *)

Record LineItem := mkLineItem {
  item_code : string;
  description : string;
  quantity : Z;
  unit_price : float;
  total : float
}.
Arguments mkLineItem item_code description quantity%_Z unit_price%_float
  total%_float.

(** One detected discrepancy.  Header issues carry a ['severity'] and, for
    amounts, a ['difference']; line-item issues carry a ['difference'] only. *)
Record Issue := mkIssue {
  field : string;
  invoice_value : value;
  po_value : value;
  difference : option value;
  severity : option Severity
}.

Inductive Mismatch :=
| ITEM_NOT_IN_PO (code descr : string) (invoice_quantity : Z) (issue : string)
| ITEM_MISMATCH (code descr : string) (issues : list Issue)
| ITEM_NOT_IN_INVOICE (code descr : string) (po_quantity : Z) (issue : string).

Definition mismatch_code (m : Mismatch) : string :=
  match m with
  | ITEM_NOT_IN_PO c _ _ _ | ITEM_MISMATCH c _ _ | ITEM_NOT_IN_INVOICE c _ _ _ => c
  end.

Record LineItemComparison := mkLineItemComparison {
  total_items_in_invoice : nat;
  total_items_in_po : nat;
  matched_items : nat;
  mismatches : list Mismatch;
  has_line_item_issues : bool
}.

Module Invoice.
Record t := mk {
  invoice_number : string;
  invoice_date : option string;
  po_reference : option string;
  vendor_name : option string;
  vendor_id : option string;
  currency : option string;
  subtotal : Amount;
  tax : Amount;
  total_amount : Amount;
  line_items : option (list LineItem)
}.
End Invoice.

Module PurchaseOrder.
Record t := mk {
  po_number : string;
  po_date : option string;
  vendor_name : option string;
  vendor_id : option string;
  currency : option string;
  subtotal : Amount;
  tax : Amount;
  total_amount : Amount;
  line_items : option (list LineItem)
}.
End PurchaseOrder.

(** ** load_data: the index of purchase orders by number

    [{po['po_number']: po for po in self.purchase_orders}]: a later order
    with the same number replaces an earlier one. *)
Definition po_lookup (purchase_orders : list PurchaseOrder.t)
  : gmap string PurchaseOrder.t :=
  foldl (λ m po, <[PurchaseOrder.po_number po := po]> m) ∅ purchase_orders.

(** ** compare_line_items *)

Definition po_items_lookup (po_items : list LineItem) : gmap string LineItem :=
  foldl (λ m item, <[item_code item := item]> m) ∅ po_items.

Definition invoice_item_codes (invoice_items : list LineItem) : gset string :=
  list_to_set (item_code <$> invoice_items).

(** The three field comparisons of an item found on both sides. *)
Definition item_issues (inv_item po_item : LineItem) : list Issue :=
  let item_issues := [] in
  let item_issues :=
    if bool_decide (quantity inv_item ≠ quantity po_item)
    then item_issues ++
      [mkIssue "quantity" (VInt (quantity inv_item)) (VInt (quantity po_item))
         (Some (VInt (quantity inv_item - quantity po_item))) None]
    else item_issues in
  let item_issues :=
    if gtb (abs (unit_price inv_item - unit_price po_item)) 0.01
    then item_issues ++
      [mkIssue "unit_price" (VNum (unit_price inv_item)) (VNum (unit_price po_item))
         (Some (VNum (unit_price inv_item - unit_price po_item))) None]
    else item_issues in
  let item_issues :=
    if gtb (abs (total inv_item - total po_item)) 0.01
    then item_issues ++
      [mkIssue "total" (VNum (total inv_item)) (VNum (total po_item))
         (Some (VNum (total inv_item - total po_item))) None]
    else item_issues in
  item_issues.

(** Body of the loop over the invoice items; the state is
    [(mismatches, matched_items)]. *)
Definition invoice_item_step (lookup : gmap string LineItem)
    (st : list Mismatch * nat) (inv_item : LineItem) : list Mismatch * nat :=
  let '(mismatches, matched_items) := st in
  let code := item_code inv_item in
  match lookup !! code with
  | None =>
      (mismatches ++
         [ITEM_NOT_IN_PO code (description inv_item) (quantity inv_item)
            "Item in invoice but not in referenced PO"],
       matched_items)
  | Some po_item =>
      match item_issues inv_item po_item with
      | [] => (mismatches, S matched_items)
      | issues =>
          (mismatches ++ [ITEM_MISMATCH code (description inv_item) issues],
           matched_items)
      end
  end.

(** Body of the loop over the purchase-order items. *)
Definition po_item_step (codes : gset string)
    (mismatches : list Mismatch) (po_item : LineItem) : list Mismatch :=
  if bool_decide (item_code po_item ∉ codes)
  then mismatches ++
    [ITEM_NOT_IN_INVOICE (item_code po_item) (description po_item)
       (quantity po_item) "Item in PO but not invoiced"]
  else mismatches.

Definition compare_line_items (invoice_items po_items : list LineItem)
  : LineItemComparison :=
  let lookup := po_items_lookup po_items in
  let '(mismatches, matched_items) :=
    foldl (invoice_item_step lookup) ([], 0) invoice_items in
  let codes := invoice_item_codes invoice_items in
  let mismatches := foldl (po_item_step codes) mismatches po_items in
  {| total_items_in_invoice := length invoice_items;
     total_items_in_po := length po_items;
     matched_items := matched_items;
     mismatches := mismatches;
     has_line_item_issues := bool_decide (0 < length mismatches) |}.

(** ** compare_invoice_with_po *)

(** The keys a result has only when the purchase order was found. *)
Record Details := mkDetails {
  invoice_date : option string;
  po_date : option string;
  vendor_name : option string;
  invoice_total : option float;
  po_total : option float;
  header_issues : list Issue;
  line_item_comparison : LineItemComparison;
  total_issues : nat
}.

(** The dictionary [compare_invoice_with_po] returns.  ['invoice_number'] and
    ['status'] are always there; ['error'] only on the two early returns;
    ['po_reference'] on all but the first; the rest ([details]) only after a
    comparison. *)
Record Comparison := mkComparison {
  invoice_number : string;
  po_reference : option string;
  status : Status;
  error : option string;
  details : option Details
}.

(** Python truth value of [invoice.get('po_reference')]: [None] and the empty
    string are false. *)
Definition truthy_reference (o : option string) : option string :=
  match o with
  | Some s => if decide (s = "") then None else Some s
  | None => None
  end.

(** The six header checks.  Each amount check evaluates
    [abs(invoice.get(k, 0) - po.get(k, 0))], which raises on a null amount,
    and evaluates the difference once more when it records the issue. *)
Definition header_comparison (invoice : Invoice.t) (po : PurchaseOrder.t)
  : result (list Issue) :=
  let issues := [] in
  let issues :=
    if bool_decide (Invoice.vendor_name invoice ≠ PurchaseOrder.vendor_name po)
    then issues ++
      [mkIssue "vendor_name" (of_str (Invoice.vendor_name invoice))
         (of_str (PurchaseOrder.vendor_name po)) None (Some HIGH)]
    else issues in
  let issues :=
    if bool_decide (Invoice.vendor_id invoice ≠ PurchaseOrder.vendor_id po)
    then issues ++
      [mkIssue "vendor_id" (of_str (Invoice.vendor_id invoice))
         (of_str (PurchaseOrder.vendor_id po)) None (Some HIGH)]
    else issues in
  let issues :=
    if bool_decide (Invoice.currency invoice ≠ PurchaseOrder.currency po)
    then issues ++
      [mkIssue "currency" (of_str (Invoice.currency invoice))
         (of_str (PurchaseOrder.currency po)) None (Some HIGH)]
    else issues in
  let tolerance := 0.01%float in
  let* subtotal_diff :=
    let* d := subtract (get_or_zero (Invoice.subtotal invoice))
                       (get_or_zero (PurchaseOrder.subtotal po)) in
    Ok (abs d) in
  let* issues :=
    if gtb subtotal_diff tolerance
    then
      let* difference := subtract (get_or_zero (Invoice.subtotal invoice))
                                  (get_or_zero (PurchaseOrder.subtotal po)) in
      Ok (issues ++
            [mkIssue "subtotal" (of_num (get (Invoice.subtotal invoice)))
               (of_num (get (PurchaseOrder.subtotal po)))
               (Some (VNum difference)) (Some HIGH)])
    else Ok issues in
  let* tax_diff :=
    let* d := subtract (get_or_zero (Invoice.tax invoice))
                       (get_or_zero (PurchaseOrder.tax po)) in
    Ok (abs d) in
  let* issues :=
    if gtb tax_diff tolerance
    then
      let* difference := subtract (get_or_zero (Invoice.tax invoice))
                                  (get_or_zero (PurchaseOrder.tax po)) in
      Ok (issues ++
            [mkIssue "tax" (of_num (get (Invoice.tax invoice)))
               (of_num (get (PurchaseOrder.tax po)))
               (Some (VNum difference)) (Some MEDIUM)])
    else Ok issues in
  let* total_diff :=
    let* d := subtract (get_or_zero (Invoice.total_amount invoice))
                       (get_or_zero (PurchaseOrder.total_amount po)) in
    Ok (abs d) in
  let* issues :=
    if gtb total_diff tolerance
    then
      let* difference := subtract (get_or_zero (Invoice.total_amount invoice))
                                  (get_or_zero (PurchaseOrder.total_amount po)) in
      Ok (issues ++
            [mkIssue "total_amount" (of_num (get (Invoice.total_amount invoice)))
               (of_num (get (PurchaseOrder.total_amount po)))
               (Some (VNum difference)) (Some HIGH)])
    else Ok issues in
  Ok issues.

Definition compare_invoice_with_po (lookup : gmap string PurchaseOrder.t)
    (invoice : Invoice.t) : result Comparison :=
  match truthy_reference (Invoice.po_reference invoice) with
  | None =>
      Ok {| invoice_number := Invoice.invoice_number invoice;
            po_reference := None;
            status := ERROR;
            error := Some "Invoice has no PO reference";
            details := None |}
  | Some po_reference =>
      match lookup !! po_reference with
      | None =>
          Ok {| invoice_number := Invoice.invoice_number invoice;
                po_reference := Some po_reference;
                status := ERROR;
                error := Some ("Referenced PO " +:+ po_reference +:+ " not found");
                details := None |}
      | Some po =>
          let* issues := header_comparison invoice po in
          let line_item_comparison :=
            compare_line_items (default [] (Invoice.line_items invoice))
                               (default [] (PurchaseOrder.line_items po)) in
          let has_issues :=
            bool_decide (0 < length issues)
            || has_line_item_issues line_item_comparison in
          let status := if has_issues then MISMATCH else MATCH in
          Ok {| invoice_number := Invoice.invoice_number invoice;
                po_reference := Some po_reference;
                status := status;
                error := None;
                details := Some
                  {| invoice_date := Invoice.invoice_date invoice;
                     po_date := PurchaseOrder.po_date po;
                     vendor_name := Invoice.vendor_name invoice;
                     invoice_total := get (Invoice.total_amount invoice);
                     po_total := get (PurchaseOrder.total_amount po);
                     header_issues := issues;
                     line_item_comparison := line_item_comparison;
                     total_issues :=
                       length issues + length (mismatches line_item_comparison) |}
             |}
      end
  end.

(** ** find_all_mismatches *)

Record Summary := mkSummary {
  total_matched : nat;
  total_mismatched : nat;
  total_errors : nat;
  total_amount_variance : float;
  high_severity_issues : nat;
  medium_severity_issues : nat
}.

Record Results := mkResults {
  total_invoices : nat;
  matched : list Comparison;
  mismatched : list Comparison;
  errors : list Comparison;
  summary : Summary
}.

(** [abs(comparison['invoice_total'] - comparison['po_total'])]: a [None]
    operand raises [TypeError]. *)
Definition amount_variance (d : Details) : result float :=
  let* v := subtract (invoice_total d) (po_total d) in
  Ok (abs v).

(** Body of the loop over the header issues; the state is
    [(high_severity_issues, medium_severity_issues)]. *)
Definition severity_step (st : nat * nat) (issue : Issue) : nat * nat :=
  let '(high, medium) := st in
  if decide (severity issue = Some HIGH) then (S high, medium)
  else if decide (severity issue = Some MEDIUM) then (high, S medium)
  else (high, medium).

(** Body of the loop over the invoices. *)
Definition aggregate_step (lookup : gmap string PurchaseOrder.t)
    (results : Results) (invoice : Invoice.t) : result Results :=
  let* comparison := compare_invoice_with_po lookup invoice in
  let s := summary results in
  match status comparison with
  | MATCH =>
      Ok {| total_invoices := total_invoices results;
            matched := matched results ++ [comparison];
            mismatched := mismatched results;
            errors := errors results;
            summary :=
              {| total_matched := total_matched s + 1;
                 total_mismatched := total_mismatched s;
                 total_errors := total_errors s;
                 total_amount_variance := total_amount_variance s;
                 high_severity_issues := high_severity_issues s;
                 medium_severity_issues := medium_severity_issues s |} |}
  | MISMATCH =>
      let* variance :=
        match details comparison with
        | Some d =>
            let* v := amount_variance d in
            Ok (total_amount_variance s + v)%float
        | None => Ok (total_amount_variance s)
        end in
      let '(high, medium) :=
        foldl severity_step (high_severity_issues s, medium_severity_issues s)
          (from_option header_issues [] (details comparison)) in
      Ok {| total_invoices := total_invoices results;
            matched := matched results;
            mismatched := mismatched results ++ [comparison];
            errors := errors results;
            summary :=
              {| total_matched := total_matched s;
                 total_mismatched := total_mismatched s + 1;
                 total_errors := total_errors s;
                 total_amount_variance := variance;
                 high_severity_issues := high;
                 medium_severity_issues := medium |} |}
  | ERROR =>
      Ok {| total_invoices := total_invoices results;
            matched := matched results;
            mismatched := mismatched results;
            errors := errors results ++ [comparison];
            summary :=
              {| total_matched := total_matched s;
                 total_mismatched := total_mismatched s;
                 total_errors := total_errors s + 1;
                 total_amount_variance := total_amount_variance s;
                 high_severity_issues := high_severity_issues s;
                 medium_severity_issues := medium_severity_issues s |} |}
  end.

Fixpoint aggregate (lookup : gmap string PurchaseOrder.t)
    (results : Results) (invoices : list Invoice.t) : result Results :=
  match invoices with
  | [] => Ok results
  | invoice :: rest =>
      let* results := aggregate_step lookup results invoice in
      aggregate lookup results rest
  end.

Definition initial_results (invoices : list Invoice.t) : Results :=
  {| total_invoices := length invoices;
     matched := [];
     mismatched := [];
     errors := [];
     summary :=
       {| total_matched := 0;
          total_mismatched := 0;
          total_errors := 0;
          total_amount_variance := 0.0;
          high_severity_issues := 0;
          medium_severity_issues := 0 |} |}.

(** The matcher object after [__init__]: the two loaded collections. *)
Definition find_all_mismatches (invoices : list Invoice.t)
    (purchase_orders : list PurchaseOrder.t) : result Results :=
  aggregate (po_lookup purchase_orders) (initial_results invoices) invoices.

(** ** get_mismatch_summary_text *)

Definition nl : string := String (Ascii.ascii_of_nat 10) "".

(** ["=" * 80] *)
Definition rule : string := String.concat "" (replicate 80 "=").

(** [a / b * 100] on two counters: true division raises on a zero divisor.
    The quotient of two integers below 2^53 is the quotient of their
    floats. *)
Definition percentage (a b : nat) : result float :=
  if decide (b = 0) then Raise ZeroDivisionError
  else Ok (float_of_Z (Z.of_nat a) / float_of_Z (Z.of_nat b) * 100)%float.

(** Monadic [for x in l: lines.extend(f x)]. *)
Fixpoint for_lines {A} (f : A → result (list string)) (l : list A)
  : result (list string) :=
  match l with
  | [] => Ok []
  | x :: rest =>
      let* here := f x in
      let* there := for_lines f rest in
      Ok (here ++ there)
  end.

Section Report.
(** How Python prints a float is left open: the format specifications
    [:.1f], [:,.2f], [:+,.2f], [:+] and [str]. *)
Variable fmt_1f : float → string.
Variable fmt_money : float → string.
Variable fmt_money_signed : float → string.
Variable fmt_signed_float : float → string.
Variable str_float : float → string.

Definition str_value (v : value) : string :=
  match v with
  | VNone => "None"
  | VStr s => s
  | VInt z => pretty z
  | VNum x => str_float x
  end.

(** [f"{v:,.2f}"] and [f"{v:+,.2f}"]. *)
Definition format_2f (fmt : float → string) (v : value) : result string :=
  match v with
  | VNone => Raise TypeError
  | VStr _ => Raise ValueError
  | VInt z => Ok (fmt (float_of_Z z))
  | VNum x => Ok (fmt x)
  end.

(** [f"{v:+}"] *)
Definition format_signed (v : value) : result string :=
  match v with
  | VNone => Raise TypeError
  | VStr _ => Raise ValueError
  | VInt z => Ok (if decide (0 ≤ z)%Z then "+" +:+ pretty z else pretty z)
  | VNum x => Ok (fmt_signed_float x)
  end.

Definition str_severity (s : Severity) : string :=
  match s with HIGH => "HIGH" | MEDIUM => "MEDIUM" end.

Definition header_issue_line (issue : Issue) : result (list string) :=
  let severity := str_severity (default MEDIUM (severity issue)) in
  match difference issue with
  | Some diff =>
      let* inv_val := format_2f fmt_money (invoice_value issue) in
      let* po_val := format_2f fmt_money (po_value issue) in
      let* diff := format_2f fmt_money_signed diff in
      Ok ["     - " +:+ field issue +:+ " [" +:+ severity +:+ "]: Invoice=$"
          +:+ inv_val +:+ " vs PO=$" +:+ po_val +:+ " (Diff: $" +:+ diff +:+ ")"]
  | None =>
      Ok ["     - " +:+ field issue +:+ " [" +:+ severity +:+ "]: Invoice='"
          +:+ str_value (invoice_value issue) +:+ "' vs PO='"
          +:+ str_value (po_value issue) +:+ "'"]
  end.

Definition item_detail_line (detail : Issue) : result (list string) :=
  match difference detail with
  | None => Raise KeyError
  | Some diff =>
      let* diff := format_signed diff in
      Ok ["       • " +:+ field detail +:+ ": Invoice="
          +:+ str_value (invoice_value detail) +:+ " vs PO="
          +:+ str_value (po_value detail) +:+ " (Diff: " +:+ diff +:+ ")"]
  end.

Definition item_issue_lines (item_issue : Mismatch) : result (list string) :=
  match item_issue with
  | ITEM_MISMATCH code descr issues =>
      let* details := for_lines item_detail_line issues in
      Ok (("     - Item " +:+ code +:+ " (" +:+ descr +:+ "):") :: details)
  | ITEM_NOT_IN_PO code _ qty _ =>
      Ok ["     - " +:+ code +:+ ": In invoice but NOT in PO (Qty: "
          +:+ pretty qty +:+ ")"]
  | ITEM_NOT_IN_INVOICE code _ qty _ =>
      Ok ["     - " +:+ code +:+ ": In PO but NOT invoiced (Qty: "
          +:+ pretty qty +:+ ")"]
  end.

(** One block of the detail section; [idx] counts from 1. *)
Definition mismatch_block (idx : nat) (mismatch : Comparison)
  : result (list string) :=
  match po_reference mismatch, details mismatch with
  | Some po_ref, Some d =>
      let* inv_total := format_2f fmt_money (of_num (invoice_total d)) in
      let* po_total := format_2f fmt_money (of_num (po_total d)) in
      let* header :=
        match header_issues d with
        | [] => Ok []
        | issues =>
            let* ls := for_lines header_issue_line issues in
            Ok ((nl +:+ "   Header Issues:") :: ls)
        end in
      let* items :=
        match mismatches (line_item_comparison d) with
        | [] => Ok []
        | ms =>
            let* ls := for_lines item_issue_lines ms in
            Ok ((nl +:+ "   Line Item Issues:") :: ls)
        end in
      Ok ([nl +:+ pretty idx +:+ ". Invoice: " +:+ invoice_number mismatch
             +:+ " → PO: " +:+ po_ref;
           "   Vendor: " +:+ str_value (of_str (vendor_name d));
           "   Invoice Total: $" +:+ inv_total +:+ " | PO Total: $" +:+ po_total;
           "   Total Issues: " +:+ pretty (total_issues d)]
          ++ header ++ items ++ [""])
  | _, _ => Raise KeyError
  end.

Fixpoint mismatch_blocks (idx : nat) (l : list Comparison)
  : result (list string) :=
  match l with
  | [] => Ok []
  | mismatch :: rest =>
      let* here := mismatch_block idx mismatch in
      let* there := mismatch_blocks (S idx) rest in
      Ok (here ++ there)
  end.

Definition error_line (e : Comparison) : result (list string) :=
  match error e with
  | Some msg => Ok ["  - Invoice " +:+ invoice_number e +:+ ": " +:+ msg]
  | None => Raise KeyError
  end.

Definition get_mismatch_summary_text (invoices : list Invoice.t)
    (purchase_orders : list PurchaseOrder.t) : result string :=
  let* results := find_all_mismatches invoices purchase_orders in
  let summary := summary results in
  let lines :=
    [rule; "INVOICE-PO MISMATCH ANALYSIS REPORT"; rule; "";
     "Total Invoices Analyzed: " +:+ pretty (total_invoices results)] in
  let* pct := percentage (total_matched summary) (total_invoices results) in
  let lines := lines ++
    ["  ✓ Matched: " +:+ pretty (total_matched summary)
     +:+ " (" +:+ fmt_1f pct +:+ "%)"] in
  let* pct := percentage (total_mismatched summary) (total_invoices results) in
  let lines := lines ++
    ["  ✗ Mismatched: " +:+ pretty (total_mismatched summary)
     +:+ " (" +:+ fmt_1f pct +:+ "%)";
     "  ! Errors: " +:+ pretty (total_errors summary);
     "";
     "Total Amount Variance: $" +:+ fmt_money (total_amount_variance summary);
     "High Severity Issues: " +:+ pretty (high_severity_issues summary);
     "Medium Severity Issues: " +:+ pretty (medium_severity_issues summary);
     ""] in
  let* lines :=
    match mismatched results with
    | [] => Ok lines
    | ms =>
        let* blocks := mismatch_blocks 1 ms in
        Ok (lines ++ [rule; "MISMATCHED INVOICES DETAIL"; rule; ""] ++ blocks)
    end in
  let* lines :=
    match errors results with
    | [] => Ok lines
    | es =>
        let* ls := for_lines error_line es in
        Ok (lines ++ [rule; "ERRORS"; rule] ++ ls)
    end in
  Ok (String.concat nl (lines ++ [""])).
End Report.

(** ** get_mismatches_for_vendor, get_mismatches_above_amount *)

(** What the two filters can raise: whatever [find_all_mismatches] raised,
    or [AttributeError] from [None.lower()]. *)
Inductive filter_error :=
| Propagated (e : exn)
| AttributeError.

(** [[m for m in mismatched if abs(m['invoice_total'] - m['po_total']) > amount]]
    The comprehension stops at the first element whose test raises. *)
Fixpoint above_amount (amount : float) (mismatched : list Comparison)
  : filter_error + list Comparison :=
  match mismatched with
  | [] => inr []
  | m :: rest =>
      match details m with
      | None => inl (Propagated KeyError)
      | Some d =>
          match amount_variance d with
          | Raise e => inl (Propagated e)
          | Ok variance =>
              match above_amount amount rest with
              | inl e => inl e
              | inr kept =>
                  inr (if gtb variance amount then m :: kept else kept)
              end
          end
      end
  end.

Definition get_mismatches_above_amount (invoices : list Invoice.t)
    (purchase_orders : list PurchaseOrder.t) (amount : float)
  : filter_error + list Comparison :=
  match find_all_mismatches invoices purchase_orders with
  | Raise e => inl (Propagated e)
  | Ok all_results => above_amount amount (mismatched all_results)
  end.

Section Vendor.
(** [str.lower] is left open. *)
Variable lower : string → string.

(** [[m for m in mismatched if m['vendor_name'].lower() == vendor_name.lower()]] *)
Fixpoint for_vendor (wanted : string) (mismatched : list Comparison)
  : filter_error + list Comparison :=
  match mismatched with
  | [] => inr []
  | m :: rest =>
      match details m with
      | None => inl (Propagated KeyError)
      | Some d =>
          match vendor_name d with
          | None => inl AttributeError
          | Some v =>
              match for_vendor wanted rest with
              | inl e => inl e
              | inr kept =>
                  inr (if decide (lower v = lower wanted)
                       then m :: kept else kept)
              end
          end
      end
  end.

Definition get_mismatches_for_vendor (invoices : list Invoice.t)
    (purchase_orders : list PurchaseOrder.t) (wanted : string)
  : filter_error + list Comparison :=
  match find_all_mismatches invoices purchase_orders with
  | Raise e => inl (Propagated e)
  | Ok all_results => for_vendor wanted (mismatched all_results)
  end.
End Vendor.

(** ** handle_mismatch_query (backend/api.py)

    The handler behind the question-answering endpoint: it runs
    [find_all_mismatches], picks the matched or the mismatched list, filters
    it by vendor, renders an answer and cites the first five results. *)

Record Source := mkSource {
  doc_id : string;
  doc_type : string;
  vendor : value;
  amount : value;
  date : value;
  relevance : float;
  excerpt : string
}.

Record Answer := mkAnswer {
  answer : string;
  sources : list Source;
  metadata : Results
}.

Inductive api_error :=
| HTTPException (status_code : nat) (detail : string)
| Failed (e : filter_error).

Section Handler.
(** Left open: [str.lower], the two [re.search] tests on the lower-cased
    question, and the format specifications [:,.2f] and [:+,.2f]. *)
Variable lower : string → string.
Variable asks_for_match : string → bool.
Variable asks_for_mismatch : string → bool.
Variable fmt_money : float → string.
Variable fmt_money_signed : float → string.

(** One numbered entry of the matched list. *)
Definition matched_part (idx : nat) (m : Comparison) : result (list string) :=
  match po_reference m, details m with
  | Some po_ref, Some d =>
      let* total := format_2f fmt_money (of_num (invoice_total d)) in
      Ok [pretty idx +:+ ". **" +:+ invoice_number m +:+ "** → PO " +:+ po_ref
          +:+ " ✓" +:+ nl
          +:+ "   - Vendor: " +:+ from_option id "None" (vendor_name d) +:+ nl
          +:+ "   - Amount: $" +:+ total +:+ nl
          +:+ "   - All details match perfectly" +:+ nl]
  | _, _ => Raise KeyError
  end.

(** One of the first three header issues of a mismatched entry. *)
Definition issue_part (issue : Issue) : result (list string) :=
  match difference issue with
  | Some diff =>
      let* diff := format_2f fmt_money_signed diff in
      Ok ["     • " +:+ field issue +:+ ": $" +:+ diff +:+ " difference" +:+ nl]
  | None => Ok ["     • " +:+ field issue +:+ ": mismatch detected" +:+ nl]
  end.

(** One numbered entry of the mismatched list, with its header issues. *)
Definition mismatched_part (idx : nat) (m : Comparison) : result (list string) :=
  match po_reference m, details m with
  | Some po_ref, Some d =>
      let* variance := amount_variance d in
      let* inv_total := format_2f fmt_money (of_num (invoice_total d)) in
      let* po_total := format_2f fmt_money (of_num (po_total d)) in
      let* issues := for_lines issue_part (take 3 (header_issues d)) in
      Ok ((pretty idx +:+ ". **" +:+ invoice_number m +:+ "** → PO " +:+ po_ref
           +:+ nl
           +:+ "   - Vendor: " +:+ from_option id "None" (vendor_name d) +:+ nl
           +:+ "   - Invoice Total: $" +:+ inv_total +:+ " | PO Total: $"
           +:+ po_total +:+ nl
           +:+ "   - Variance: $" +:+ fmt_money variance +:+ nl
           +:+ "   - Issues: " +:+ pretty (total_issues d) +:+ nl) :: issues)
  | _, _ => Raise KeyError
  end.

(** [for idx, m in enumerate(l, idx): ...] *)
Fixpoint enumerate_parts (part : nat → Comparison → result (list string))
    (idx : nat) (l : list Comparison) : result (list string) :=
  match l with
  | [] => Ok []
  | m :: rest =>
      let* here := part idx m in
      let* there := enumerate_parts part (S idx) rest in
      Ok (here ++ there)
  end.

(** One cited source. *)
Definition source_of (show_matched : bool) (item : Comparison) : result Source :=
  match po_reference item, details item with
  | Some po_ref, Some d =>
      let* inv_total := format_2f fmt_money (of_num (invoice_total d)) in
      let* po_total := format_2f fmt_money (of_num (po_total d)) in
      let excerpt :=
        "Invoice " +:+ invoice_number item +:+ " references PO " +:+ po_ref
        +:+ ". " +:+ "Invoice total: $" +:+ inv_total +:+ ", PO total: $"
        +:+ po_total +:+ ". "
        +:+ (if show_matched then "All details match perfectly."
             else "Found " +:+ pretty (total_issues d) +:+ " issues.") in
      Ok {| doc_id := invoice_number item;
            doc_type := "Invoice";
            vendor := of_str (vendor_name d);
            amount := of_num (invoice_total d);
            date := of_str (invoice_date d);
            relevance := 1.0;
            excerpt := excerpt |}
  | _, _ => Raise KeyError
  end.

Fixpoint sources_of (show_matched : bool) (l : list Comparison)
  : result (list Source) :=
  match l with
  | [] => Ok []
  | item :: rest =>
      let* s := source_of show_matched item in
      let* ss := sources_of show_matched rest in
      Ok (s :: ss)
  end.

(** The answer text. *)
Definition answer_text (show_matched : bool) (vendor_filter : option string)
    (all_results : Results) (target_list : list Comparison) : result string :=
  let summary := summary all_results in
  let target_type := if show_matched then "matched" else "mismatched" in
  let answer_parts :=
    if show_matched
    then ["**Invoice-PO Match Analysis**" +:+ nl;
          "I found **" +:+ pretty (total_matched summary)
          +:+ " perfectly matched invoices** out of "
          +:+ pretty (total_invoices all_results)
          +:+ " total invoices analyzed." +:+ nl]
    else ["**Invoice-PO Mismatch Analysis**" +:+ nl;
          "I found **" +:+ pretty (total_mismatched summary)
          +:+ " mismatched invoices** out of "
          +:+ pretty (total_invoices all_results)
          +:+ " total invoices analyzed." +:+ nl] in
  let answer_parts :=
    match truthy_reference vendor_filter with
    | Some vf =>
        answer_parts ++
          [nl +:+ "**Filtered by vendor: " +:+ vf +:+ "**";
           "Found " +:+ pretty (length target_list) +:+ " " +:+ target_type
           +:+ " invoices for this vendor." +:+ nl]
    | None => answer_parts
    end in
  let* answer_parts :=
    if show_matched then
      if decide (0 < length target_list) then
        let* parts := enumerate_parts matched_part 1 target_list in
        Ok (answer_parts ++
              [nl +:+ "**These invoices perfectly match their reference purchase orders:**"
               +:+ nl] ++ parts)
      else
        Ok (answer_parts ++
              [nl +:+ "**No perfectly matched invoices found.** All invoices have some discrepancies with their referenced POs."])
    else
      if decide (0 < total_mismatched summary) then
        let* parts := enumerate_parts mismatched_part 1 target_list in
        Ok (answer_parts ++
              [nl +:+ "**Summary:**";
               "- Total amount variance: $"
               +:+ fmt_money (total_amount_variance summary);
               "- High severity issues: "
               +:+ pretty (high_severity_issues summary);
               "- Medium severity issues: "
               +:+ pretty (medium_severity_issues summary) +:+ nl;
               nl +:+ "**All Mismatched Invoices ("
               +:+ pretty (length target_list) +:+ "):**" +:+ nl] ++ parts)
      else
        Ok (answer_parts ++
              [nl +:+ "**Great news!** All invoices match their referenced purchase orders perfectly. ✓"]) in
  Ok (String.concat nl answer_parts).

(** The matcher object is [None] until the start-up hook has built it. *)
Definition handle_mismatch_query
    (invoice_matcher : option (list Invoice.t * list PurchaseOrder.t))
    (question : string) (vendor_filter : option string)
  : api_error + Answer :=
  match invoice_matcher with
  | None => inl (HTTPException 503 "Invoice-PO matcher not initialized")
  | Some (invoices, purchase_orders) =>
      let question_lower := lower question in
      let show_matched :=
        asks_for_match question_lower
        && negb (asks_for_mismatch question_lower) in
      match find_all_mismatches invoices purchase_orders with
      | Raise e => inl (Failed (Propagated e))
      | Ok all_results =>
          let target_list :=
            if show_matched then matched all_results
            else mismatched all_results in
          let filtered :=
            match truthy_reference vendor_filter with
            | Some vf => for_vendor lower vf target_list
            | None => inr target_list
            end in
          match filtered with
          | inl e => inl (Failed e)
          | inr target_list =>
              match answer_text show_matched vendor_filter all_results
                      target_list with
              | Raise e => inl (Failed (Propagated e))
              | Ok answer =>
                  match sources_of show_matched (take 5 target_list) with
                  | Raise e => inl (Failed (Propagated e))
                  | Ok sources =>
                      inr {| answer := answer;
                             sources := sources;
                             metadata := all_results |}
                  end
              end
          end
      end
  end.
End Handler.

(** * Vocabulary of the statements

    Closed forms of the loops, the issues each check can raise, and the
    sample documents the statements are tried on. *)

(** ** Floats that are not negative *)

(** The sign bit is clear, or the number is NaN. *)
Definition sign_clear (s : spec_float) : Prop :=
  match s with
  | S754_zero false | S754_infinity false | S754_finite false _ _ | S754_nan =>
      True
  | _ => False
  end.

(** +0, a positive number, +infinity or NaN. *)
Definition not_negative (x : float) : Prop := sign_clear (Prim2SF x).

(** [acc = 0.0; for v in l: acc += v] *)
Definition fsum (l : list float) : float := foldl PrimFloat.add 0%float l.

(** ** Line items *)

(** The entry an invoice item adds to the mismatch list, if any. *)
Definition invoice_entry (lookup : gmap string LineItem) (inv_item : LineItem)
  : option Mismatch :=
  match lookup !! item_code inv_item with
  | None =>
      Some (ITEM_NOT_IN_PO (item_code inv_item) (description inv_item)
              (quantity inv_item) "Item in invoice but not in referenced PO")
  | Some po_item =>
      match item_issues inv_item po_item with
      | [] => None
      | issues =>
          Some (ITEM_MISMATCH (item_code inv_item) (description inv_item) issues)
      end
  end.

(** The entry a purchase-order item adds, if any. *)
Definition po_entry (invoice_items : list LineItem) (po_item : LineItem)
  : option Mismatch :=
  if decide (item_code po_item ∈ item_code <$> invoice_items) then None
  else Some (ITEM_NOT_IN_INVOICE (item_code po_item) (description po_item)
               (quantity po_item) "Item in PO but not invoiced").

Definition quantity_issue (i p : LineItem) : Issue :=
  mkIssue "quantity" (VInt (quantity i)) (VInt (quantity p))
    (Some (VInt (quantity i - quantity p))) None.

Definition unit_price_issue (i p : LineItem) : Issue :=
  mkIssue "unit_price" (VNum (unit_price i)) (VNum (unit_price p))
    (Some (VNum (unit_price i - unit_price p))) None.

Definition total_issue (i p : LineItem) : Issue :=
  mkIssue "total" (VNum (total i)) (VNum (total p))
    (Some (VNum (total i - total p))) None.

Definition invoice_side (m : Mismatch) : Prop :=
  match m with
  | ITEM_NOT_IN_PO _ _ _ _ | ITEM_MISMATCH _ _ _ => True
  | ITEM_NOT_IN_INVOICE _ _ _ _ => False
  end.

(** ** Header issues *)

Definition vendor_name_issue (invoice : Invoice.t) (po : PurchaseOrder.t) : Issue :=
  mkIssue "vendor_name" (of_str (Invoice.vendor_name invoice))
    (of_str (PurchaseOrder.vendor_name po)) None (Some HIGH).

Definition vendor_id_issue (invoice : Invoice.t) (po : PurchaseOrder.t) : Issue :=
  mkIssue "vendor_id" (of_str (Invoice.vendor_id invoice))
    (of_str (PurchaseOrder.vendor_id po)) None (Some HIGH).

Definition currency_issue (invoice : Invoice.t) (po : PurchaseOrder.t) : Issue :=
  mkIssue "currency" (of_str (Invoice.currency invoice))
    (of_str (PurchaseOrder.currency po)) None (Some HIGH).

(** The three amount issues, given the difference each one records. *)
Definition subtotal_issue (invoice : Invoice.t) (po : PurchaseOrder.t)
    (difference : float) : Issue :=
  mkIssue "subtotal" (of_num (get (Invoice.subtotal invoice)))
    (of_num (get (PurchaseOrder.subtotal po)))
    (Some (VNum difference)) (Some HIGH).

Definition tax_issue (invoice : Invoice.t) (po : PurchaseOrder.t)
    (difference : float) : Issue :=
  mkIssue "tax" (of_num (get (Invoice.tax invoice)))
    (of_num (get (PurchaseOrder.tax po)))
    (Some (VNum difference)) (Some MEDIUM).

Definition total_amount_issue (invoice : Invoice.t) (po : PurchaseOrder.t)
    (difference : float) : Issue :=
  mkIssue "total_amount" (of_num (get (Invoice.total_amount invoice)))
    (of_num (get (PurchaseOrder.total_amount po)))
    (Some (VNum difference)) (Some HIGH).

(** [invoice.get(k, 0) - po.get(k, 0)], when it does not raise. *)
Definition gap_of (a b : Amount) : option float :=
  match get_or_zero a, get_or_zero b with
  | Some x, Some y => Some (x - y)%float
  | _, _ => None
  end.

(** The three differences of a pair of documents, when none of them raises. *)
Definition gaps (invoice : Invoice.t) (po : PurchaseOrder.t)
  : option (float * float * float) :=
  match gap_of (Invoice.subtotal invoice) (PurchaseOrder.subtotal po),
        gap_of (Invoice.tax invoice) (PurchaseOrder.tax po),
        gap_of (Invoice.total_amount invoice) (PurchaseOrder.total_amount po)
  with
  | Some ds, Some dt, Some da => Some (ds, dt, da)
  | _, _, _ => None
  end.

(** One of the six amounts of a pair of documents is null. *)
Definition null_amount (invoice : Invoice.t) (po : PurchaseOrder.t) : Prop :=
  Invoice.subtotal invoice = Null ∨ PurchaseOrder.subtotal po = Null
  ∨ Invoice.tax invoice = Null ∨ PurchaseOrder.tax po = Null
  ∨ Invoice.total_amount invoice = Null
  ∨ PurchaseOrder.total_amount po = Null.

Definition text_issues (invoice : Invoice.t) (po : PurchaseOrder.t)
  : list Issue :=
  (if bool_decide (Invoice.vendor_name invoice ≠ PurchaseOrder.vendor_name po)
   then [vendor_name_issue invoice po] else [])
  ++ (if bool_decide (Invoice.vendor_id invoice ≠ PurchaseOrder.vendor_id po)
      then [vendor_id_issue invoice po] else [])
  ++ (if bool_decide (Invoice.currency invoice ≠ PurchaseOrder.currency po)
      then [currency_issue invoice po] else []).

Definition amount_issues (invoice : Invoice.t) (po : PurchaseOrder.t)
    (g : float * float * float) : list Issue :=
  let '(ds, dt, da) := g in
  (if gtb (abs ds) tolerance then [subtotal_issue invoice po ds] else [])
  ++ (if gtb (abs dt) tolerance then [tax_issue invoice po dt] else [])
  ++ (if gtb (abs da) tolerance then [total_amount_issue invoice po da] else []).

(** What [header_comparison] returns on a pair with the differences [g]. *)
Definition header_list (invoice : Invoice.t) (po : PurchaseOrder.t)
    (g : float * float * float) : list Issue :=
  text_issues invoice po ++ amount_issues invoice po g.

(** ** Results of one invoice *)

(** The purchase order an invoice refers to, when there is one. *)
Definition resolve (lookup : gmap string PurchaseOrder.t) (invoice : Invoice.t)
  : option PurchaseOrder.t :=
  match truthy_reference (Invoice.po_reference invoice) with
  | Some ref => lookup !! ref
  | None => None
  end.

(** The result of an invoice whose purchase order is not found. *)
Definition unresolved_result (invoice : Invoice.t) : Comparison :=
  {| invoice_number := Invoice.invoice_number invoice;
     po_reference := truthy_reference (Invoice.po_reference invoice);
     status := ERROR;
     error :=
       Some (match truthy_reference (Invoice.po_reference invoice) with
             | Some ref => "Referenced PO " +:+ ref +:+ " not found"
             | None => "Invoice has no PO reference"
             end);
     details := None |}.

(** The result of an invoice compared with its purchase order, given the
    three differences. *)
Definition resolved_result (invoice : Invoice.t) (ref : string)
    (po : PurchaseOrder.t) (g : float * float * float) : Comparison :=
  let issues := header_list invoice po g in
  let lic := compare_line_items (default [] (Invoice.line_items invoice))
               (default [] (PurchaseOrder.line_items po)) in
  {| invoice_number := Invoice.invoice_number invoice;
     po_reference := Some ref;
     status := if bool_decide (0 < length issues) || has_line_item_issues lic
               then MISMATCH else MATCH;
     error := None;
     details := Some
       {| invoice_date := Invoice.invoice_date invoice;
          po_date := PurchaseOrder.po_date po;
          vendor_name := Invoice.vendor_name invoice;
          invoice_total := get (Invoice.total_amount invoice);
          po_total := get (PurchaseOrder.total_amount po);
          header_issues := issues;
          line_item_comparison := lic;
          total_issues := length issues + length (mismatches lic) |} |}.

(** [compare_invoice_with_po] returns [c] on the invoice. *)
Definition compared (lookup : gmap string PurchaseOrder.t)
    (invoice : Invoice.t) (c : Comparison) : Prop :=
  compare_invoice_with_po lookup invoice = Ok c.

(** What one invoice adds to [total_amount_variance]. *)
Definition contributes (lookup : gmap string PurchaseOrder.t)
    (invoice : Invoice.t) (v : float) : Prop :=
  ∃ c, compare_invoice_with_po lookup invoice = Ok c
  ∧ match status c with
    | MISMATCH =>
        ∃ po a b, resolve lookup invoice = Some po
                  ∧ Invoice.total_amount invoice = Number a
                  ∧ PurchaseOrder.total_amount po = Number b
                  ∧ v = abs (a - b)
    | MATCH | ERROR => v = 0%float
    end.

(** The header issues the severity counters look at. *)
Definition counted_issues (c : Comparison) : list Issue :=
  if decide (status c = MISMATCH)
  then from_option header_issues [] (details c) else [].

Definition with_status (st : Status) (cs : list Comparison) : list Comparison :=
  filter (λ c, status c = st) cs.

(** [comparison.get('header_issues', [])] *)
Definition all_header_issues (c : Comparison) : list Issue :=
  from_option header_issues [] (details c).

Definition count_severity (s : Severity) (l : list Issue) : nat :=
  length (filter (λ i, severity i = Some s) l).

(** An invoice whose reference is absent, empty, or the number of no loaded
    purchase order. *)
Definition unresolved (purchase_orders : list PurchaseOrder.t)
    (invoice : Invoice.t) : Prop :=
  match Invoice.po_reference invoice with
  | None => True
  | Some ref => ref = "" ∨ ref ∉ PurchaseOrder.po_number <$> purchase_orders
  end.

Definition same_header (invoice : Invoice.t) (po : PurchaseOrder.t) : Prop :=
  Invoice.vendor_name invoice = PurchaseOrder.vendor_name po
  ∧ Invoice.vendor_id invoice = PurchaseOrder.vendor_id po
  ∧ Invoice.currency invoice = PurchaseOrder.currency po
  ∧ Invoice.subtotal invoice = PurchaseOrder.subtotal po
  ∧ Invoice.tax invoice = PurchaseOrder.tax po
  ∧ Invoice.total_amount invoice = PurchaseOrder.total_amount po.

(** The variance of a mismatched result, [abs(invoice_total - po_total)]. *)
Definition has_variance (m : Comparison) (v : float) : Prop :=
  ∃ d a b, details m = Some d ∧ invoice_total d = Some a
           ∧ po_total d = Some b ∧ v = abs (a - b).

(** ** Documents a run can handle *)

(** The member holds a number. *)
Definition numeric (m : Amount) : Prop := ∃ x, m = Number x.

(** Every loaded document carries its ['total_amount'], and no subtotal or
    tax is null. *)
Definition amounts_present (invoices : list Invoice.t)
    (purchase_orders : list PurchaseOrder.t) : Prop :=
  Forall (λ invoice, Invoice.subtotal invoice ≠ Null
                     ∧ Invoice.tax invoice ≠ Null
                     ∧ numeric (Invoice.total_amount invoice)) invoices
  ∧ Forall (λ po, PurchaseOrder.subtotal po ≠ Null
                  ∧ PurchaseOrder.tax po ≠ Null
                  ∧ numeric (PurchaseOrder.total_amount po)) purchase_orders.

(** Every loaded document carries a number as its ['total_amount']. *)
Definition totals_present (invoices : list Invoice.t)
    (purchase_orders : list PurchaseOrder.t) : Prop :=
  Forall (λ invoice, numeric (Invoice.total_amount invoice)) invoices
  ∧ Forall (λ po, numeric (PurchaseOrder.total_amount po)) purchase_orders.

(** Every loaded document carries subtotal, tax and total_amount. *)
Definition all_amounts_present (invoices : list Invoice.t)
    (purchase_orders : list PurchaseOrder.t) : Prop :=
  Forall (λ invoice, numeric (Invoice.subtotal invoice)
                     ∧ numeric (Invoice.tax invoice)
                     ∧ numeric (Invoice.total_amount invoice)) invoices
  ∧ Forall (λ po, numeric (PurchaseOrder.subtotal po)
                  ∧ numeric (PurchaseOrder.tax po)
                  ∧ numeric (PurchaseOrder.total_amount po)) purchase_orders.

(** An invoice on which [find_all_mismatches] raises: its purchase order is
    found and either one of the six amounts is null (the header comparison
    raises), or the invoice is classified MISMATCH and one of the two
    total_amount keys is absent (the variance line raises). *)
Definition stops (lookup : gmap string PurchaseOrder.t)
    (invoice : Invoice.t) : Prop :=
  ∃ po, resolve lookup invoice = Some po
  ∧ (null_amount invoice po
     ∨ ((∃ c, compare_invoice_with_po lookup invoice = Ok c
              ∧ status c = MISMATCH)
        ∧ (Invoice.total_amount invoice = Absent
           ∨ PurchaseOrder.total_amount po = Absent))).

(** A computation that does not raise [ZeroDivisionError]. *)
Definition no_zero_division {A} (m : result A) : Prop :=
  m ≠ Raise ZeroDivisionError.

(** ** Sample documents *)

(** Two documents that are equal field for field, with one item code twice. *)
Definition dup_items : list LineItem :=
  [mkLineItem "IT-001" "Laptop" 1 100.0 100.0;
   mkLineItem "IT-001" "Laptop" 2 100.0 200.0].

Definition dup_invoice : Invoice.t :=
  Invoice.mk "INV-2024-00001" (Some "2024-03-01") (Some "PO-2024-00001")
    (Some "Acme Corp") (Some "V-001") (Some "USD")
    (Number 300.0) (Number 30.0) (Number 330.0) (Some dup_items).

Definition dup_po : PurchaseOrder.t :=
  PurchaseOrder.mk "PO-2024-00001" (Some "2024-02-01")
    (Some "Acme Corp") (Some "V-001") (Some "USD")
    (Number 300.0) (Number 30.0) (Number 330.0) (Some dup_items).

Definition sample_po : PurchaseOrder.t :=
  PurchaseOrder.mk "PO-2024-00002" (Some "2024-02-10")
    (Some "Globex Ltd") (Some "V-002") (Some "USD")
    (Number 250.0) (Number 25.0) (Number 275.0)
    (Some [mkLineItem "IT-010" "Cable" 10 5.0 50.0;
           mkLineItem "IT-020" "Monitor" 2 100.0 200.0]).

(** The same document as [sample_po], its items in the other order. *)
Definition sample_invoice_match : Invoice.t :=
  Invoice.mk "INV-2024-00010" (Some "2024-03-10") (Some "PO-2024-00002")
    (Some "Globex Ltd") (Some "V-002") (Some "USD")
    (Number 250.0) (Number 25.0) (Number 275.0)
    (Some [mkLineItem "IT-020" "Monitor" 2 100.0 200.0;
           mkLineItem "IT-010" "Cable" 10 5.0 50.0]).

(** A monitor billed at 110 instead of 100, and an item that was not
    ordered. *)
Definition sample_invoice_mismatch : Invoice.t :=
  Invoice.mk "INV-2024-00011" (Some "2024-03-11") (Some "PO-2024-00002")
    (Some "Globex Ltd") (Some "V-002") (Some "USD")
    (Number 270.0) (Number 27.0) (Number 297.0)
    (Some [mkLineItem "IT-010" "Cable" 10 5.0 50.0;
           mkLineItem "IT-020" "Monitor" 2 110.0 220.0;
           mkLineItem "IT-099" "Adapter" 1 0.0 0.0]).

(** An invoice that refers to an order that was never loaded. *)
Definition sample_invoice_orphan : Invoice.t :=
  Invoice.mk "INV-2024-00012" (Some "2024-03-12") (Some "PO-2024-99999")
    (Some "Initech") (Some "V-003") (Some "EUR")
    (Number 9000.0) (Number 900.0) (Number 9900.0) None.

Definition sample_invoices : list Invoice.t :=
  [sample_invoice_match; sample_invoice_mismatch; sample_invoice_orphan].

Definition sample_results : Results :=
  Eval vm_compute in
    match find_all_mismatches sample_invoices [sample_po] with
    | Ok r => r
    | Raise _ => initial_results []
    end.

(** [sample_invoice_mismatch] without its ['total_amount'] key. *)
Definition sample_invoice_no_total : Invoice.t :=
  Invoice.mk "INV-2024-00013" (Some "2024-03-13") (Some "PO-2024-00002")
    (Some "Globex Ltd") (Some "V-002") (Some "USD")
    (Number 270.0) (Number 27.0) Absent
    (Invoice.line_items sample_invoice_mismatch).


(** Two items whose unit prices 0.02 and 0.01 differ, as floats, by exactly
    the float 0.01. *)
Definition cent_invoice_item : LineItem :=
  mkLineItem "IT-020" "Monitor" 2 0.02 200.0.
Definition cent_po_item : LineItem :=
  mkLineItem "IT-020" "Monitor" 2 0.01 200.0.

(** Two items with the unit prices 100.01 and 100.00: as floats they differ
    by 0.010000000000005116. *)
Definition decimal_invoice_item : LineItem :=
  mkLineItem "IT-020" "Monitor" 2 100.01 200.0.
Definition decimal_po_item : LineItem :=
  mkLineItem "IT-020" "Monitor" 2 100.0 200.0.

(** Three invoices against orders with a total of 0: their variances are
    0.1, 0.2 and 0.3. *)
Definition tenth_po (n : string) : PurchaseOrder.t :=
  PurchaseOrder.mk n None None None None Absent Absent (Number 0.0) None.

Definition tenth_invoice (n : string) (amount : float) : Invoice.t :=
  Invoice.mk ("INV-" +:+ n) None (Some n) None None None
    Absent Absent (Number amount) None.

Definition tenth_orders : list PurchaseOrder.t :=
  [tenth_po "A"; tenth_po "B"; tenth_po "C"].

Definition tenth_invoices : list Invoice.t :=
  [tenth_invoice "A" 0.1; tenth_invoice "B" 0.2; tenth_invoice "C" 0.3].

(** * Properties *)

(** ** Floats *)

Lemma SFabs_binary_round_aux (s s' : bool) (m e : Z) (l : location) :
  SFabs (binary_round_aux prec emax s m e l)
  = SFabs (binary_round_aux prec emax s' m e l).
Proof.
  unfold binary_round_aux.
  destruct (shr_fexp _ _ _ _ _) as [mrs' e'].
  destruct (shr_fexp _ _ _ _ _) as [mrs'' e''].
  destruct (shr_m mrs''); [done| |done].
  by destruct (Z.leb _ _).
Qed.

Lemma SFabs_binary_normalize_opp (z e : Z) :
  SFabs (binary_normalize prec emax (- z) e false)
  = SFabs (binary_normalize prec emax z e false).
Proof.
  destruct z as [|m|m]; [done| |]; simpl; unfold binary_round;
    destruct (shl_align _ _ _); apply SFabs_binary_round_aux.
Qed.

Lemma SFabs_sub_comm (a b : spec_float) :
  SFabs (SF64sub a b) = SFabs (SF64sub b a).
Proof.
  destruct a as [sa|sa| |sa ma ea], b as [sb|sb| |sb mb eb]; try done;
    try (by destruct sa); try (by destruct sb); try (by destruct sa, sb).
  unfold SF64sub, SFsub. rewrite (Z.min_comm eb ea).
  rewrite <- SFabs_binary_normalize_opp. f_equal. f_equal. lia.
Qed.

(** [abs(a - b) == abs(b - a)], bit for bit. *)
Lemma abs_sub_comm (a b : float) : abs (a - b) = abs (b - a).
Proof.
  apply Prim2SF_inj. rewrite !abs_spec, !sub_spec. apply SFabs_sub_comm.
Qed.

Lemma SF64sub_same (x : spec_float) :
  SF64sub x x = S754_zero false ∨ SF64sub x x = S754_nan.
Proof.
  destruct x as [s|s| |s m e]; [left; by destruct s|right; by destruct s|by right|].
  left. unfold SF64sub, SFsub. by rewrite Z.sub_diag.
Qed.

(** [x - x] is +0 or NaN, never above the tolerance. *)
Lemma gtb_same (x : float) : gtb (abs (x - x)) tolerance = false.
Proof.
  unfold gtb. rewrite FloatAxioms.ltb_spec, abs_spec, sub_spec.
  by destruct (SF64sub_same (Prim2SF x)) as [-> | ->].
Qed.

Lemma sign_clear_abs (s : spec_float) : sign_clear (SFabs s).
Proof. by destruct s. Qed.

Lemma sign_clear_binary_round (m : positive) (e : Z) :
  sign_clear (binary_round prec emax false m e).
Proof.
  unfold binary_round. destruct (shl_align _ _ _) as [mz ez].
  unfold binary_round_aux.
  destruct (shr_fexp _ _ _ _ _) as [mrs' e'].
  destruct (shr_fexp _ _ _ _ _) as [mrs'' e''].
  destruct (shr_m mrs''); [done| |done].
  by destruct (Z.leb _ _).
Qed.

Lemma sign_clear_add (a b : spec_float) :
  sign_clear a → sign_clear b → sign_clear (SF64add a b).
Proof.
  destruct a as [[]|[]| |[] ma ea], b as [[]|[]| |[] mb eb]; try done.
  intros _ _. unfold SF64add, SFadd. simpl. apply sign_clear_binary_round.
Qed.

Lemma not_negative_zero : not_negative 0.
Proof. exact I. Qed.

Lemma not_negative_abs (x : float) : not_negative (abs x).
Proof. unfold not_negative. rewrite abs_spec. apply sign_clear_abs. Qed.

Lemma not_negative_add (x y : float) :
  not_negative x → not_negative y → not_negative (x + y).
Proof. unfold not_negative. rewrite add_spec. apply sign_clear_add. Qed.

(** Adding +0 to a float that is not -0 or negative changes nothing. *)
Lemma add_zero_r (x : float) : not_negative x → (x + 0)%float = x.
Proof.
  intros H. apply Prim2SF_inj. rewrite add_spec. unfold not_negative in H.
  by destruct (Prim2SF x) as [[]|[]| |[] m e].
Qed.

Lemma not_negative_ltb (x : float) : not_negative x → (x <? 0)%float = false.
Proof.
  intros H. rewrite FloatAxioms.ltb_spec. unfold not_negative in H.
  by destruct (Prim2SF x) as [[]|[]| |[] m e].
Qed.

Lemma not_negative_leb (x : float) :
  not_negative x → is_nan x = false → (0 <=? x)%float = true.
Proof.
  intros H Hn. rewrite FloatAxioms.leb_spec.
  unfold is_nan in Hn. rewrite FloatAxioms.eqb_spec in Hn.
  unfold not_negative in H.
  by destruct (Prim2SF x) as [[]|[]| |[] m e].
Qed.

Lemma SFcompare_trans (a b c : spec_float) :
  SFleb a b = true → SFltb b c = true → SFltb a c = true.
Proof.
  unfold SFleb, SFltb.
  destruct a as [sa|sa| |sa ma ea], b as [sb|sb| |sb mb eb],
    c as [sc|sc| |sc mc ec]; simpl; try done;
    try (by destruct sa); try (by destruct sb); try (by destruct sc);
    try (by destruct sa, sb); try (by destruct sb, sc); try (by destruct sa, sc);
    try (by destruct sa, sb, sc).
  destruct sa, sb, sc; try done;
    repeat match goal with
      | |- context [PosDef.Pos.compare_cont Eq ?x ?y] =>
          change (PosDef.Pos.compare_cont Eq x y) with (Pos.compare x y)
      end;
    destruct (Z.compare_spec ea eb), (Z.compare_spec eb ec),
      (Z.compare_spec ea ec); try done; try lia;
    destruct (Pos.compare_spec ma mb), (Pos.compare_spec mb mc),
      (Pos.compare_spec ma mc); simpl; try done; try lia.
Qed.

(** [amount <= amount'] and [v > amount'] give [v > amount]. *)
Lemma gtb_leb_trans (amount amount' v : float) :
  (amount <=? amount')%float = true → gtb v amount' = true →
  gtb v amount = true.
Proof.
  unfold gtb. rewrite FloatAxioms.leb_spec, !FloatAxioms.ltb_spec.
  apply SFcompare_trans.
Qed.

Lemma fsum_snoc (l : list float) (x : float) :
  fsum (l ++ [x]) = (fsum l + x)%float.
Proof. unfold fsum. by rewrite foldl_app. Qed.

Lemma foldl_add_not_negative (l : list float) (acc : float) :
  not_negative acc → Forall not_negative l →
  not_negative (foldl PrimFloat.add acc l).
Proof.
  intros Hacc Hl. revert acc Hacc.
  induction Hl as [|x l Hx _ IH]; intros acc Hacc; [done|].
  simpl. apply IH. by apply not_negative_add.
Qed.

Lemma foldl_add_zeros (l : list float) (acc : float) :
  not_negative acc → Forall (λ x, x = 0%float) l →
  foldl PrimFloat.add acc l = acc.
Proof.
  intros Hacc Hl. induction Hl as [|x l -> _ IH]; [done|].
  simpl. by rewrite add_zero_r.
Qed.

(** ** The lookup table of the purchase-order items *)

Lemma po_items_lookup_snoc (items : list LineItem) (p : LineItem) :
  po_items_lookup (items ++ [p]) = <[item_code p := p]> (po_items_lookup items).
Proof. unfold po_items_lookup. by rewrite foldl_app. Qed.

Lemma po_items_lookup_Some (items : list LineItem) (c : string) (p : LineItem) :
  po_items_lookup items !! c = Some p → p ∈ items ∧ item_code p = c.
Proof.
  induction items as [|q items IH] using rev_ind; [done|].
  rewrite po_items_lookup_snoc, lookup_insert.
  case_decide as Hc.
  - intros [= ->]. split; [set_solver | done].
  - intros [? ?]%IH. split; [set_solver | done].
Qed.

Lemma po_items_lookup_None (items : list LineItem) (c : string) :
  po_items_lookup items !! c = None ↔ c ∉ item_code <$> items.
Proof.
  induction items as [|q items IH] using rev_ind.
  - split; [set_solver | done].
  - rewrite po_items_lookup_snoc, lookup_insert, fmap_app. simpl.
    case_decide as Hc; set_solver.
Qed.

Lemma po_items_lookup_NoDup (items : list LineItem) (p : LineItem) :
  NoDup (item_code <$> items) → p ∈ items →
  po_items_lookup items !! item_code p = Some p.
Proof.
  induction items as [|q items IH] using rev_ind; [set_solver|].
  rewrite fmap_app, NoDup_app. simpl. intros (Hnd & Hdisj & _) Hin.
  rewrite po_items_lookup_snoc, lookup_insert.
  case_decide as Hc.
  - apply elem_of_app in Hin as [Hin | Hin]; [|set_solver].
    exfalso. apply (Hdisj (item_code p)); [|set_solver].
    apply list_elem_of_fmap. eauto.
  - apply elem_of_app in Hin as [Hin | Hin]; [by apply IH|].
    apply list_elem_of_singleton in Hin as ->. done.
Qed.

(** ** The two loops of compare_line_items in closed form *)

Lemma invoice_item_step_entry (lookup : gmap string LineItem)
    (ms : list Mismatch) (n : nat) (i : LineItem) :
  invoice_item_step lookup (ms, n) i
  = (ms ++ option_list (invoice_entry lookup i),
     if invoice_entry lookup i is Some _ then n else S n).
Proof.
  unfold invoice_item_step, invoice_entry.
  destruct (lookup !! item_code i) as [p|]; [|done].
  destruct (item_issues i p); [|done].
  by rewrite app_nil_r.
Qed.

Lemma invoice_loop_fst (lookup : gmap string LineItem) (items : list LineItem)
    (ms : list Mismatch) (n : nat) :
  (foldl (invoice_item_step lookup) (ms, n) items).1
  = ms ++ omap (invoice_entry lookup) items.
Proof.
  revert ms n. induction items as [|i items IH]; intros ms n.
  - simpl. by rewrite app_nil_r.
  - cbn [foldl]. rewrite invoice_item_step_entry, IH. cbn [omap list_omap].
    destruct (invoice_entry lookup i); simpl; [|by rewrite app_nil_r].
    by rewrite <- app_assoc.
Qed.

Lemma invoice_loop_snd (lookup : gmap string LineItem) (items : list LineItem)
    (ms : list Mismatch) (n : nat) :
  (foldl (invoice_item_step lookup) (ms, n) items).2
  + length (omap (invoice_entry lookup) items) = n + length items.
Proof.
  revert ms n. induction items as [|i items IH]; intros ms n.
  - simpl. lia.
  - cbn [foldl]. rewrite invoice_item_step_entry. cbn [omap list_omap].
    destruct (invoice_entry lookup i); simpl.
    + specialize (IH (ms ++ [m]) n). lia.
    + specialize (IH (ms ++ []) (S n)). lia.
Qed.

Lemma po_loop (invoice_items po_items : list LineItem) (ms : list Mismatch) :
  foldl (po_item_step (invoice_item_codes invoice_items)) ms po_items
  = ms ++ omap (po_entry invoice_items) po_items.
Proof.
  revert ms. induction po_items as [|p items IH]; intros ms; simpl.
  - by rewrite app_nil_r.
  - rewrite IH. unfold po_item_step, po_entry, invoice_item_codes.
    case_bool_decide as Hc; case_decide as Hd; simpl.
    + set_solver.
    + by rewrite <- app_assoc.
    + done.
    + set_solver.
Qed.

Lemma compare_line_items_mismatches (invoice_items po_items : list LineItem) :
  mismatches (compare_line_items invoice_items po_items)
  = omap (invoice_entry (po_items_lookup po_items)) invoice_items
    ++ omap (po_entry invoice_items) po_items.
Proof.
  unfold compare_line_items.
  pose proof (invoice_loop_fst (po_items_lookup po_items) invoice_items [] 0) as H.
  destruct (foldl _ _ invoice_items) as [ms n]. simpl in *. subst ms.
  apply po_loop.
Qed.

Lemma compare_line_items_has_issues (invoice_items po_items : list LineItem) :
  has_line_item_issues (compare_line_items invoice_items po_items) = true
  ↔ mismatches (compare_line_items invoice_items po_items) ≠ [].
Proof.
  unfold compare_line_items.
  destruct (foldl _ _ invoice_items) as [ms n]. simpl.
  rewrite bool_decide_eq_true.
  destruct (foldl _ ms po_items); simpl; split; try done; lia.
Qed.

(** ** Which fields an item comparison reports *)

Lemma item_issues_blocks (i p : LineItem) :
  item_issues i p
  = (if bool_decide (quantity i ≠ quantity p) then [quantity_issue i p] else [])
    ++ (if gtb (abs (unit_price i - unit_price p)) tolerance
        then [unit_price_issue i p] else [])
    ++ (if gtb (abs (total i - total p)) tolerance
        then [total_issue i p] else []).
Proof.
  unfold item_issues. change 0.01%float with tolerance.
  destruct (bool_decide _), (gtb _ tolerance), (gtb _ tolerance); reflexivity.
Qed.

Ltac issue_cases :=
  rewrite item_issues_blocks;
  unfold quantity_issue, unit_price_issue, total_issue;
  repeat case_bool_decide;
  repeat match goal with
    | |- context [gtb ?x ?y] => destruct (gtb x y) eqn:?
    end;
  simpl; rewrite ?elem_of_cons, ?elem_of_nil.


Lemma item_issues_unit_price (i p : LineItem) :
  unit_price_issue i p ∈ item_issues i p
  ↔ gtb (abs (unit_price i - unit_price p)) tolerance = true.
Proof. issue_cases; naive_solver. Qed.

Lemma item_issues_total (i p : LineItem) :
  total_issue i p ∈ item_issues i p
  ↔ gtb (abs (total i - total p)) tolerance = true.
Proof. issue_cases; naive_solver. Qed.

Lemma item_issues_fields (i p : LineItem) (x : Issue) :
  x ∈ item_issues i p →
  x = quantity_issue i p ∨ x = unit_price_issue i p ∨ x = total_issue i p.
Proof. issue_cases; naive_solver. Qed.

Lemma item_issues_nil (i p : LineItem) :
  item_issues i p = [] ↔
  quantity i = quantity p
  ∧ gtb (abs (unit_price i - unit_price p)) tolerance = false
  ∧ gtb (abs (total i - total p)) tolerance = false.
Proof.
  rewrite item_issues_blocks.
  case_bool_decide as Hq;
    destruct (gtb (abs (unit_price i - unit_price p)) tolerance),
             (gtb (abs (total i - total p)) tolerance);
    simpl; try apply dec_stable in Hq; naive_solver.
Qed.

(** ** Order of the mismatch list *)


Lemma invoice_entry_side (lookup : gmap string LineItem) (i : LineItem)
    (m : Mismatch) :
  invoice_entry lookup i = Some m →
  invoice_side m ∧ mismatch_code m = item_code i.
Proof.
  unfold invoice_entry.
  destruct (lookup !! item_code i) as [p|]; [|by intros [= <-]].
  destruct (item_issues i p); [done|by intros [= <-]].
Qed.

Lemma po_entry_side (invoice_items : list LineItem) (p : LineItem)
    (m : Mismatch) :
  po_entry invoice_items p = Some m →
  ¬ invoice_side m ∧ mismatch_code m = item_code p.
Proof. unfold po_entry. case_decide; [done|]. intros [= <-]. auto. Qed.

Lemma compare_line_items_matched (invoice_items po_items : list LineItem) :
  matched_items (compare_line_items invoice_items po_items)
  + length (omap (invoice_entry (po_items_lookup po_items)) invoice_items)
  = length invoice_items.
Proof.
  unfold compare_line_items.
  pose proof (invoice_loop_snd (po_items_lookup po_items) invoice_items [] 0) as H.
  destruct (foldl _ _ invoice_items) as [ms n]. simpl in *. done.
Qed.

Lemma invoice_entry_found (lookup : gmap string LineItem) (i p : LineItem) :
  lookup !! item_code i = Some p →
  invoice_entry lookup i
  = if decide (item_issues i p = []) then None
    else Some (ITEM_MISMATCH (item_code i) (description i) (item_issues i p)).
Proof.
  intros Hp. unfold invoice_entry. rewrite Hp.
  destruct (item_issues i p); by case_decide.
Qed.


(** C5, as the code has it.  The tolerance test is strict, on the floats
    the code computes.  For an item found on both sides with equal
    quantities: when [abs(invoice unit_price - po unit_price)], as computed,
    is the float 0.01 there is no unit_price issue (and, the totals being
    within the tolerance, no mismatch at all); when it is the float 0.011
    the ITEM_MISMATCH entry holds a unit_price issue; the same holds for the
    line total; in general a field is reported exactly when
    [abs(a - b) > 0.01] holds of the computed difference. *)
Theorem tolerance_boundary_strict (i p : LineItem) :
  item_code i = item_code p →
  quantity i = quantity p →
  let r := compare_line_items [i] [p] in
  (abs (unit_price i - unit_price p) = 0.01%float →
   gtb (abs (total i - total p)) 0.01 = false →
   mismatches r = [] ∧ matched_items r = 1)
  ∧ (abs (unit_price i - unit_price p) = 0.011%float →
     ∃ issues, mismatches r = [ITEM_MISMATCH (item_code i) (description i) issues]
               ∧ unit_price_issue i p ∈ issues)
  ∧ (abs (total i - total p) = 0.01%float →
     gtb (abs (unit_price i - unit_price p)) 0.01 = false →
     mismatches r = [] ∧ matched_items r = 1)
  ∧ (abs (total i - total p) = 0.011%float →
     ∃ issues, mismatches r = [ITEM_MISMATCH (item_code i) (description i) issues]
               ∧ total_issue i p ∈ issues)
  ∧ (unit_price_issue i p ∈ item_issues i p
     ↔ (0.01 <? abs (unit_price i - unit_price p))%float = true)
  ∧ (total_issue i p ∈ item_issues i p
     ↔ (0.01 <? abs (total i - total p))%float = true).
Proof.
  intros Hcode Hqty r.
  assert (po_items_lookup [p] !! item_code i = Some p) as Hlk.
  { unfold po_items_lookup. simpl. rewrite Hcode. apply lookup_insert_eq. }
  assert (mismatches r = option_list (invoice_entry (po_items_lookup [p]) i)) as Hm.
  { unfold r. rewrite compare_line_items_mismatches. simpl.
    unfold po_entry. rewrite decide_True by (rewrite <- Hcode; set_solver).
    rewrite app_nil_r. by destruct (invoice_entry _ i). }
  pose proof (compare_line_items_matched [i] [p]) as Hn. fold r in Hn.
  simpl in Hn. rewrite (invoice_entry_found _ _ _ Hlk) in Hm, Hn.
  assert (item_issues i p = [] → mismatches r = [] ∧ matched_items r = 1) as Hnone.
  { intros E. rewrite decide_True in Hm, Hn by done. simpl in Hn. split; [done|lia]. }
  assert (∀ x, x ∈ item_issues i p →
            ∃ issues, mismatches r
                      = [ITEM_MISMATCH (item_code i) (description i) issues]
                      ∧ x ∈ issues) as Hsome.
  { intros x Hx. exists (item_issues i p). split; [|done].
    rewrite Hm, decide_False; [done|]. intros E. rewrite E in Hx. set_solver. }
  split_and!.
  - intros Hu Ht. apply Hnone, item_issues_nil. split_and!; [done| |done].
    by rewrite Hu.
  - intros Hu. apply Hsome, item_issues_unit_price. by rewrite Hu.
  - intros Ht Hu. apply Hnone, item_issues_nil. split_and!; [done|done|].
    by rewrite Ht.
  - intros Ht. apply Hsome, item_issues_total. by rewrite Ht.
  - apply item_issues_unit_price.
  - apply item_issues_total.
Qed.

(** C5 as stated fails on decimal amounts: the unit prices 100.01 and 100.00
    differ by exactly 0.01 as decimals, but the difference the code computes
    is 0.010000000000005116, which is above 0.01: with equal quantities and
    equal totals the item is reported with a unit_price issue. *)
Lemma decimal_cent_counterexample :
  item_code decimal_invoice_item = item_code decimal_po_item
  ∧ quantity decimal_invoice_item = quantity decimal_po_item
  ∧ unit_price decimal_invoice_item = 100.01%float
  ∧ unit_price decimal_po_item = 100.0%float
  ∧ abs (100.01 - 100.0) = 0.010000000000005116%float
  ∧ (0.01 <? abs (100.01 - 100.0))%float = true
  ∧ mismatches (compare_line_items [decimal_invoice_item] [decimal_po_item])
    = [ITEM_MISMATCH "IT-020" "Monitor"
         [unit_price_issue decimal_invoice_item decimal_po_item]]
  ∧ matched_items
      (compare_line_items [decimal_invoice_item] [decimal_po_item]) = 0.
Proof. split_and!; reflexivity. Qed.

(** ** Header comparison *)

Lemma subtract_gap (a b : Amount) :
  subtract (get_or_zero a) (get_or_zero b)
  = match gap_of a b with Some d => Ok d | None => Raise TypeError end.
Proof. unfold gap_of, subtract. by destruct (get_or_zero a), (get_or_zero b). Qed.

Lemma gap_of_None (a b : Amount) : gap_of a b = None ↔ a = Null ∨ b = Null.
Proof. unfold gap_of. destruct a, b; simpl; naive_solver. Qed.

Lemma gap_of_Some (a b : Amount) (d : float) :
  gap_of a b = Some d
  ↔ ∃ x y, get_or_zero a = Some x ∧ get_or_zero b = Some y ∧ d = (x - y)%float.
Proof.
  unfold gap_of. destruct (get_or_zero a), (get_or_zero b); naive_solver.
Qed.

Lemma gaps_None (invoice : Invoice.t) (po : PurchaseOrder.t) :
  gaps invoice po = None ↔ null_amount invoice po.
Proof.
  unfold gaps, null_amount.
  pose proof (gap_of_None (Invoice.subtotal invoice)
                (PurchaseOrder.subtotal po)) as H1.
  pose proof (gap_of_None (Invoice.tax invoice) (PurchaseOrder.tax po)) as H2.
  pose proof (gap_of_None (Invoice.total_amount invoice)
                (PurchaseOrder.total_amount po)) as H3.
  destruct (gap_of (Invoice.subtotal _) _), (gap_of (Invoice.tax _) _),
    (gap_of (Invoice.total_amount _) _); naive_solver.
Qed.

Lemma gaps_Some (invoice : Invoice.t) (po : PurchaseOrder.t) :
  ¬ null_amount invoice po → ∃ g, gaps invoice po = Some g.
Proof.
  intros H. destruct (gaps invoice po) as [g|] eqn:E; [by exists g|].
  by apply gaps_None in E.
Qed.

Lemma gaps_inv (invoice : Invoice.t) (po : PurchaseOrder.t)
    (ds dt da : float) :
  gaps invoice po = Some (ds, dt, da) →
  gap_of (Invoice.subtotal invoice) (PurchaseOrder.subtotal po) = Some ds
  ∧ gap_of (Invoice.tax invoice) (PurchaseOrder.tax po) = Some dt
  ∧ gap_of (Invoice.total_amount invoice) (PurchaseOrder.total_amount po)
    = Some da.
Proof.
  unfold gaps. destruct (gap_of (Invoice.subtotal _) _); [|done].
  destruct (gap_of (Invoice.tax _) _); [|done].
  destruct (gap_of (Invoice.total_amount _) _); [|done].
  by intros [= -> -> ->].
Qed.

Lemma header_comparison_blocks (invoice : Invoice.t) (po : PurchaseOrder.t) :
  header_comparison invoice po
  = match gaps invoice po with
    | Some g => Ok (header_list invoice po g)
    | None => Raise TypeError
    end.
Proof.
  unfold header_comparison, gaps, header_list, text_issues, amount_issues,
    vendor_name_issue, vendor_id_issue, currency_issue, subtotal_issue,
    tax_issue, total_amount_issue.
  cbv zeta. rewrite !subtract_gap. change 0.01%float with tolerance.
  do 3 destruct (bool_decide _);
    destruct (gap_of (Invoice.subtotal _) _) as [ds|],
      (gap_of (Invoice.tax _) _) as [dt|],
      (gap_of (Invoice.total_amount _) _) as [da|];
    cbn [bind];
    repeat match goal with
      | |- context [gtb ?x tolerance] => destruct (gtb x tolerance); cbn [bind]
      end;
    reflexivity.
Qed.








Lemma header_list_sublist (invoice : Invoice.t) (po : PurchaseOrder.t)
    (ds dt da : float) :
  header_list invoice po (ds, dt, da) `sublist_of`
    [vendor_name_issue invoice po; vendor_id_issue invoice po;
     currency_issue invoice po; subtotal_issue invoice po ds;
     tax_issue invoice po dt; total_amount_issue invoice po da].
Proof.
  unfold header_list, text_issues, amount_issues.
  do 3 destruct (bool_decide _); do 3 destruct (gtb _ tolerance); simpl;
    repeat (first [apply sublist_nil | apply sublist_skip | apply sublist_cons]).
Qed.

(** ** What compare_invoice_with_po returns *)

Lemma compare_unresolved (lookup : gmap string PurchaseOrder.t)
    (invoice : Invoice.t) :
  resolve lookup invoice = None →
  compare_invoice_with_po lookup invoice = Ok (unresolved_result invoice).
Proof.
  unfold resolve, compare_invoice_with_po, unresolved_result.
  destruct (truthy_reference _) as [ref|]; [|done].
  by intros ->.
Qed.

Lemma compare_resolved (lookup : gmap string PurchaseOrder.t)
    (invoice : Invoice.t) (ref : string) (po : PurchaseOrder.t) :
  truthy_reference (Invoice.po_reference invoice) = Some ref →
  lookup !! ref = Some po →
  compare_invoice_with_po lookup invoice
  = match gaps invoice po with
    | Some g => Ok (resolved_result invoice ref po g)
    | None => Raise TypeError
    end.
Proof.
  intros Href Hpo. unfold compare_invoice_with_po.
  rewrite Href, Hpo, header_comparison_blocks.
  by destruct (gaps invoice po).
Qed.

Lemma compare_resolved_Ok (lookup : gmap string PurchaseOrder.t)
    (invoice : Invoice.t) (ref : string) (po : PurchaseOrder.t) :
  truthy_reference (Invoice.po_reference invoice) = Some ref →
  lookup !! ref = Some po →
  ¬ null_amount invoice po →
  ∃ ds dt da,
    gaps invoice po = Some (ds, dt, da)
    ∧ compare_invoice_with_po lookup invoice
      = Ok (resolved_result invoice ref po (ds, dt, da)).
Proof.
  intros Href Hpo Hnull. destruct (gaps_Some _ _ Hnull) as [[[ds dt] da] Hg].
  exists ds, dt, da. split; [done|].
  by rewrite (compare_resolved _ _ _ _ Href Hpo), Hg.
Qed.

Lemma resolve_cases (lookup : gmap string PurchaseOrder.t) (invoice : Invoice.t) :
  resolve lookup invoice = None
  ∨ ∃ ref po, truthy_reference (Invoice.po_reference invoice) = Some ref
              ∧ lookup !! ref = Some po
              ∧ resolve lookup invoice = Some po.
Proof.
  destruct (resolve lookup invoice) as [po|] eqn:E; [right|by left].
  unfold resolve in *.
  destruct (truthy_reference _) as [ref|]; [|done]. by exists ref, po.
Qed.

(** The three outcomes of a comparison. *)
Lemma compare_cases (lookup : gmap string PurchaseOrder.t) (invoice : Invoice.t) :
  (resolve lookup invoice = None
   ∧ compare_invoice_with_po lookup invoice = Ok (unresolved_result invoice))
  ∨ (∃ ref po, truthy_reference (Invoice.po_reference invoice) = Some ref
               ∧ lookup !! ref = Some po
               ∧ resolve lookup invoice = Some po
               ∧ null_amount invoice po
               ∧ compare_invoice_with_po lookup invoice = Raise TypeError)
  ∨ (∃ ref po ds dt da,
       truthy_reference (Invoice.po_reference invoice) = Some ref
       ∧ lookup !! ref = Some po
       ∧ resolve lookup invoice = Some po
       ∧ ¬ null_amount invoice po
       ∧ gaps invoice po = Some (ds, dt, da)
       ∧ compare_invoice_with_po lookup invoice
         = Ok (resolved_result invoice ref po (ds, dt, da))).
Proof.
  destruct (resolve_cases lookup invoice) as [Hres|(ref & po & Href & Hpo & Hres)].
  - left. split; [done|]. by apply compare_unresolved.
  - right. rewrite (compare_resolved _ _ _ _ Href Hpo).
    destruct (gaps invoice po) as [[[ds dt] da]|] eqn:Hg.
    + right. exists ref, po, ds, dt, da. split_and!; try done.
      intros Hnull. apply gaps_None in Hnull. congruence.
    + left. exists ref, po. split_and!; try done. by apply gaps_None.
Qed.

Lemma compared_inv (lookup : gmap string PurchaseOrder.t)
    (invoice : Invoice.t) (c : Comparison) :
  compare_invoice_with_po lookup invoice = Ok c →
  (resolve lookup invoice = None ∧ c = unresolved_result invoice)
  ∨ (∃ ref po ds dt da,
       truthy_reference (Invoice.po_reference invoice) = Some ref
       ∧ lookup !! ref = Some po
       ∧ resolve lookup invoice = Some po
       ∧ ¬ null_amount invoice po
       ∧ gaps invoice po = Some (ds, dt, da)
       ∧ c = resolved_result invoice ref po (ds, dt, da)).
Proof.
  intros Hc.
  destruct (compare_cases lookup invoice)
    as [(Hres & H)|[(ref & po & _ & _ & _ & _ & H)
                   |(ref & po & ds & dt & da & Href & Hpo & Hres & Hn & Hg & H)]];
    rewrite H in Hc; [left|done|right].
  - by injection Hc as <-.
  - injection Hc as <-. by exists ref, po, ds, dt, da.
Qed.

Lemma compare_raises (lookup : gmap string PurchaseOrder.t)
    (invoice : Invoice.t) (e : exn) :
  compare_invoice_with_po lookup invoice = Raise e →
  e = TypeError
  ∧ ∃ po, resolve lookup invoice = Some po ∧ null_amount invoice po.
Proof.
  intros Hc.
  destruct (compare_cases lookup invoice)
    as [(Hres & H)|[(ref & po & _ & _ & Hres & Hn & H)
                   |(ref & po & ds & dt & da & _ & _ & _ & _ & _ & H)]];
    rewrite H in Hc; [done| |done].
  injection Hc as <-. split; [done|]. by exists po.
Qed.

Lemma resolved_status (invoice : Invoice.t) (ref : string)
    (po : PurchaseOrder.t) (g : float * float * float) :
  status (resolved_result invoice ref po g) ≠ ERROR.
Proof. unfold resolved_result. cbn [status]. by destruct (_ || _). Qed.

Lemma get_or_zero_not_null (m : Amount) :
  m ≠ Null → ∃ x, get_or_zero m = Some x.
Proof. destruct m; simpl; eauto. done. Qed.



(** C8. For an invoice whose purchase order is found (and none of whose
    amounts is null, so that the comparison returns), total_issues is the
    number of header issues plus the number of entries of the line-item
    mismatch list (an ITEM_MISMATCH counts once, whatever the number of its
    field issues); the status is MISMATCH exactly when there is a header
    issue or the mismatch list is not empty, and MATCH otherwise. *)
Theorem total_issues_and_status (lookup : gmap string PurchaseOrder.t)
    (invoice : Invoice.t) (ref : string) (po : PurchaseOrder.t) :
  truthy_reference (Invoice.po_reference invoice) = Some ref →
  lookup !! ref = Some po →
  ¬ null_amount invoice po →
  ∃ c d, compare_invoice_with_po lookup invoice = Ok c
  ∧ details c = Some d
  ∧ total_issues d
    = length (header_issues d) + length (mismatches (line_item_comparison d))
  ∧ (status c = MISMATCH
     ↔ 0 < length (header_issues d)
       ∨ 0 < length (mismatches (line_item_comparison d)))
  ∧ (status c = MATCH
     ↔ header_issues d = [] ∧ mismatches (line_item_comparison d) = [])
  ∧ (status c = MISMATCH ↔ 0 < total_issues d).
Proof.
  intros Href Hpo Hnull.
  destruct (compare_resolved_Ok _ _ _ _ Href Hpo Hnull)
    as (ds & dt & da & Hg & Hc).
  eexists _, _. split; [exact Hc|]. split; [reflexivity|].
  unfold resolved_result.
  cbn [header_issues line_item_comparison total_issues status].
  set (issues := header_list invoice po (ds, dt, da)).
  set (lic := compare_line_items _ _).
  pose proof (compare_line_items_has_issues
    (default [] (Invoice.line_items invoice))
    (default [] (PurchaseOrder.line_items po))) as Hlic. fold lic in Hlic.
  assert (has_line_item_issues lic = true ↔ 0 < length (mismatches lic)) as Hl.
  { rewrite Hlic. destruct (mismatches lic); simpl; split; try done; lia. }
  assert (bool_decide (0 < length issues) || has_line_item_issues lic = true
          ↔ 0 < length issues ∨ 0 < length (mismatches lic)) as Hb.
  { rewrite orb_true_iff, bool_decide_eq_true, Hl. done. }
  destruct (bool_decide (0 < length issues) || has_line_item_issues lic).
  - assert (0 < length issues ∨ 0 < length (mismatches lic)) as HAB
      by by apply Hb.
    split_and!; [done|done| |split; [lia|done]].
    split; [done|]. intros [Hi Hm]. rewrite Hi, Hm in HAB. simpl in HAB. lia.
  - assert (¬ (0 < length issues ∨ 0 < length (mismatches lic))) as HAB.
    { intros H. by apply Hb in H. }
    split_and!; [done| | |].
    + split; [done|]. intros H. by destruct HAB.
    + split; [intros _|done].
      destruct issues, (mismatches lic); simpl in HAB; try done;
        exfalso; apply HAB; lia.
    + split; [done|]. intros H. exfalso. apply HAB. lia.
Qed.

(** ** The aggregation loop *)

Lemma compared_functional (lookup : gmap string PurchaseOrder.t)
    (invoice : Invoice.t) (c c' : Comparison) :
  compared lookup invoice c → compared lookup invoice c' → c = c'.
Proof. unfold compared. congruence. Qed.

Lemma Forall2_compared_eq (lookup : gmap string PurchaseOrder.t)
    (invoices : list Invoice.t) (cs cs' : list Comparison) :
  Forall2 (compared lookup) invoices cs →
  Forall2 (compared lookup) invoices cs' → cs = cs'.
Proof.
  intros H. revert cs'. induction H as [|i c l cs Hc _ IH]; intros cs' H'.
  - by apply Forall2_nil_inv_l in H'.
  - apply Forall2_cons_inv_l in H' as (c' & cs'' & Hc' & H' & ->).
    f_equal; [by eapply compared_functional | by apply IH].
Qed.

Lemma Forall2_elem_of_r {A B} (P : A → B → Prop) (l : list A) (k : list B)
    (y : B) :
  Forall2 P l k → y ∈ k → ∃ x, x ∈ l ∧ P x y.
Proof.
  induction 1 as [|x y' l k Hxy _ IH]; [by intros ?%elem_of_nil|].
  intros [->|Hy]%elem_of_cons.
  - exists x. split; [by left | done].
  - destruct (IH Hy) as (x' & ? & ?). exists x'. split; [by right | done].
Qed.

Lemma Forall2_elem_of_l {A B} (P : A → B → Prop) (l : list A) (k : list B)
    (x : A) :
  Forall2 P l k → x ∈ l → ∃ y, y ∈ k ∧ P x y.
Proof.
  induction 1 as [|x' y l k Hxy _ IH]; [by intros ?%elem_of_nil|].
  intros [->|Hx]%elem_of_cons.
  - exists y. split; [by left | done].
  - destruct (IH Hx) as (y' & ? & ?). exists y'. split; [by right | done].
Qed.

Lemma contributes_not_negative (lookup : gmap string PurchaseOrder.t)
    (invoice : Invoice.t) (v : float) :
  contributes lookup invoice v → not_negative v.
Proof.
  intros (c & _ & H). destruct (status c).
  - by subst v.
  - destruct H as (po & a & b & _ & _ & _ & ->). apply not_negative_abs.
  - by subst v.
Qed.

Lemma contributes_functional (lookup : gmap string PurchaseOrder.t)
    (invoice : Invoice.t) (v v' : float) :
  contributes lookup invoice v → contributes lookup invoice v' → v = v'.
Proof.
  intros (c & Hc & H) (c' & Hc' & H').
  assert (c' = c) as -> by congruence.
  destruct (status c); [congruence| |congruence].
  destruct H as (po & a & b & Hpo & Ha & Hb & ->).
  destruct H' as (po' & a' & b' & Hpo' & Ha' & Hb' & ->).
  congruence.
Qed.

Lemma Forall2_contributes_eq (lookup : gmap string PurchaseOrder.t)
    (invoices : list Invoice.t) (vs vs' : list float) :
  Forall2 (contributes lookup) invoices vs →
  Forall2 (contributes lookup) invoices vs' → vs = vs'.
Proof.
  intros H. revert vs'. induction H as [|i v l vs Hv _ IH]; intros vs' H'.
  - by apply Forall2_nil_inv_l in H'.
  - apply Forall2_cons_inv_l in H' as (v' & vs'' & Hv' & H' & ->).
    f_equal; [by eapply contributes_functional | by apply IH].
Qed.

Lemma aggregate_step_inv (lookup : gmap string PurchaseOrder.t)
    (r0 r1 : Results) (invoice : Invoice.t) :
  aggregate_step lookup r0 invoice = Ok r1 →
  not_negative (total_amount_variance (summary r0)) →
  ∃ c, compared lookup invoice c
  ∧ total_invoices r1 = total_invoices r0
  ∧ matched r1 = matched r0 ++ with_status MATCH [c]
  ∧ mismatched r1 = mismatched r0 ++ with_status MISMATCH [c]
  ∧ errors r1 = errors r0 ++ with_status ERROR [c]
  ∧ total_matched (summary r1)
    = total_matched (summary r0) + length (with_status MATCH [c])
  ∧ total_mismatched (summary r1)
    = total_mismatched (summary r0) + length (with_status MISMATCH [c])
  ∧ total_errors (summary r1)
    = total_errors (summary r0) + length (with_status ERROR [c])
  ∧ (high_severity_issues (summary r1), medium_severity_issues (summary r1))
    = foldl severity_step
        (high_severity_issues (summary r0), medium_severity_issues (summary r0))
        (counted_issues c)
  ∧ ∃ v, contributes lookup invoice v
         ∧ total_amount_variance (summary r1)
           = (total_amount_variance (summary r0) + v)%float.
Proof.
  intros Hstep Hnn. unfold aggregate_step in Hstep.
  destruct (compare_invoice_with_po lookup invoice) as [c|e] eqn:Hc;
    [|discriminate Hstep].
  cbn [bind] in Hstep. exists c. split; [done|].
  unfold contributes, counted_issues, with_status. rewrite Hc.
  rewrite !filter_cons, !filter_nil.
  destruct (compared_inv _ _ _ Hc)
    as [(Hres & ->)|(ref & po & ds & dt & da & Href & Hpo & Hres & Hn & Hg & ->)].
  - cbn [unresolved_result status] in *. injection Hstep as <-. simpl.
    rewrite !app_nil_r, !Nat.add_0_r.
    split_and!; try done. exists 0%float. split; [by eexists|].
    by rewrite add_zero_r.
  - unfold resolved_result in *. cbn [status details] in *.
    destruct (bool_decide _ || _).
    + unfold amount_variance in Hstep.
      cbn [invoice_total po_total] in Hstep.
      destruct (Invoice.total_amount invoice) as [| |a] eqn:Ha;
        try discriminate Hstep.
      destruct (PurchaseOrder.total_amount po) as [| |b] eqn:Hb;
        try discriminate Hstep.
      cbn [get subtract bind from_option header_issues] in Hstep.
      destruct (foldl severity_step _ _) as [high medium] eqn:Hsev.
      injection Hstep as <-. simpl.
      rewrite !app_nil_r, !Nat.add_0_r.
      split_and!; try done. exists (abs (a - b)). split; [|reflexivity].
      eexists. split; [reflexivity|]. cbn [status].
      exists po, a, b. by rewrite Hb.
    + injection Hstep as <-. simpl. rewrite !app_nil_r, !Nat.add_0_r.
      split_and!; try done. exists 0%float. split; [by eexists|].
      by rewrite add_zero_r.
Qed.

Lemma with_status_app (st : Status) (l1 l2 : list Comparison) :
  with_status st (l1 ++ l2) = with_status st l1 ++ with_status st l2.
Proof. apply filter_app. Qed.

Lemma with_status_cons (st : Status) (c : Comparison) (l : list Comparison) :
  with_status st (c :: l) = with_status st [c] ++ with_status st l.
Proof. apply (with_status_app st [c] l). Qed.

Lemma aggregate_inv (lookup : gmap string PurchaseOrder.t)
    (invoices : list Invoice.t) (r0 r : Results) :
  aggregate lookup r0 invoices = Ok r →
  not_negative (total_amount_variance (summary r0)) →
  ∃ cs, Forall2 (compared lookup) invoices cs
  ∧ total_invoices r = total_invoices r0
  ∧ matched r = matched r0 ++ with_status MATCH cs
  ∧ mismatched r = mismatched r0 ++ with_status MISMATCH cs
  ∧ errors r = errors r0 ++ with_status ERROR cs
  ∧ total_matched (summary r)
    = total_matched (summary r0) + length (with_status MATCH cs)
  ∧ total_mismatched (summary r)
    = total_mismatched (summary r0) + length (with_status MISMATCH cs)
  ∧ total_errors (summary r)
    = total_errors (summary r0) + length (with_status ERROR cs)
  ∧ (high_severity_issues (summary r), medium_severity_issues (summary r))
    = foldl severity_step
        (high_severity_issues (summary r0), medium_severity_issues (summary r0))
        (cs ≫= counted_issues)
  ∧ ∃ vs, Forall2 (contributes lookup) invoices vs
          ∧ total_amount_variance (summary r)
            = foldl PrimFloat.add (total_amount_variance (summary r0)) vs.
Proof.
  revert r0. induction invoices as [|invoice invoices IH]; intros r0 Hagg Hnn.
  - injection Hagg as <-. exists []. simpl. rewrite !app_nil_r, !Nat.add_0_r.
    split_and!; try done. exists []. split; [constructor|]. done.
  - cbn [aggregate] in Hagg.
    destruct (aggregate_step lookup r0 invoice) as [r1|] eqn:Hstep;
      [|discriminate Hagg].
    cbn [bind] in Hagg.
    apply aggregate_step_inv in Hstep
      as (c & Hc & Ht & Hm & Hmm & He & Hnm & Hnmm & Hne & Hsev & v & Hv & Hvar);
      [|done].
    apply IH in Hagg
      as (cs & Hcs & Ht' & Hm' & Hmm' & He' & Hnm' & Hnmm' & Hne' & Hsev'
          & vs & Hvs & Hvar').
    2:{ rewrite Hvar. apply not_negative_add; [done|].
        by eapply contributes_not_negative. }
    exists (c :: cs). split; [by constructor|].
    rewrite (with_status_cons MATCH), (with_status_cons MISMATCH),
      (with_status_cons ERROR), !length_app.
    rewrite Hm', Hmm', He', Hnm', Hnmm', Hne', Hm, Hmm, He, Hnm, Hnmm, Hne,
      <- !app_assoc.
    split_and!; try done; try lia.
    + rewrite Hsev', Hsev. simpl. by rewrite foldl_app.
    + exists (v :: vs). split; [by constructor|].
      rewrite Hvar', Hvar. done.
Qed.

Lemma compared_details (lookup : gmap string PurchaseOrder.t)
    (invoice : Invoice.t) (c : Comparison) :
  compared lookup invoice c → status c ≠ ERROR →
  ∃ ref po ds dt da,
    truthy_reference (Invoice.po_reference invoice) = Some ref
    ∧ lookup !! ref = Some po
    ∧ resolve lookup invoice = Some po
    ∧ ¬ null_amount invoice po
    ∧ gaps invoice po = Some (ds, dt, da)
    ∧ c = resolved_result invoice ref po (ds, dt, da).
Proof.
  intros Hc Hst.
  by destruct (compared_inv _ _ _ Hc) as [(_ & ->)|H].
Qed.

(** The loop returns as soon as every invoice can be added up. *)
Lemma aggregate_step_total (lookup : gmap string PurchaseOrder.t)
    (r0 : Results) (invoice : Invoice.t) (v : float) :
  contributes lookup invoice v →
  ∃ r1, aggregate_step lookup r0 invoice = Ok r1.
Proof.
  intros (c & Hc & H). unfold aggregate_step. rewrite Hc. cbn [bind].
  destruct (status c) eqn:Hst; [eauto| |eauto].
  destruct H as (po' & a & b & Hpo' & Ha & Hb & _).
  destruct (compared_details _ _ _ Hc)
    as (ref & po & ds & dt & da & Href & Hpo & Hres & Hn & Hg & ->);
    [by rewrite Hst|].
  rewrite Hres in Hpo'. injection Hpo' as <-.
  unfold resolved_result. cbn [details amount_variance invoice_total po_total].
  rewrite Ha, Hb. cbn [get subtract bind from_option header_issues].
  destruct (foldl severity_step _ _). eauto.
Qed.

Lemma aggregate_total (lookup : gmap string PurchaseOrder.t)
    (invoices : list Invoice.t) (vs : list float) (r0 : Results) :
  Forall2 (contributes lookup) invoices vs →
  ∃ r, aggregate lookup r0 invoices = Ok r.
Proof.
  intros H. revert r0. induction H as [|invoice v invoices vs Hv _ IH]; intros r0.
  - simpl. eauto.
  - cbn [aggregate].
    destruct (aggregate_step_total lookup r0 invoice v Hv) as [r1 ->].
    apply IH.
Qed.

Lemma with_status_partition (cs : list Comparison) :
  with_status MATCH cs ++ with_status MISMATCH cs ++ with_status ERROR cs ≡ₚ cs.
Proof.
  induction cs as [|c cs IH]; [done|].
  rewrite (with_status_cons MATCH), (with_status_cons MISMATCH),
    (with_status_cons ERROR).
  unfold with_status at 1 3 5. rewrite !filter_cons, !filter_nil.
  destruct (status c); simpl.
  - by constructor.
  - rewrite <- Permutation_middle. by constructor.
  - rewrite app_assoc, <- Permutation_middle, <- app_assoc. by constructor.
Qed.

Lemma find_all_mismatches_inv (invoices : list Invoice.t)
    (purchase_orders : list PurchaseOrder.t) (r : Results) :
  find_all_mismatches invoices purchase_orders = Ok r →
  let lookup := po_lookup purchase_orders in
  ∃ cs, Forall2 (compared lookup) invoices cs
  ∧ total_invoices r = length invoices
  ∧ matched r = with_status MATCH cs
  ∧ mismatched r = with_status MISMATCH cs
  ∧ errors r = with_status ERROR cs
  ∧ total_matched (summary r) = length (with_status MATCH cs)
  ∧ total_mismatched (summary r) = length (with_status MISMATCH cs)
  ∧ total_errors (summary r) = length (with_status ERROR cs)
  ∧ (high_severity_issues (summary r), medium_severity_issues (summary r))
    = foldl severity_step (0, 0) (cs ≫= counted_issues)
  ∧ ∃ vs, Forall2 (contributes lookup) invoices vs
          ∧ total_amount_variance (summary r) = fsum vs.
Proof.
  intros H. apply aggregate_inv in H
    as (cs & Hcs & Ht & Hm & Hmm & He & Hnm & Hnmm & Hne & Hsev & vs & Hvs & Hvar);
    [|exact not_negative_zero].
  exists cs. simpl in *. split_and!; try done.
  exists vs. done.
Qed.

Lemma po_lookup_Some (pos : list PurchaseOrder.t) (ref : string)
    (po : PurchaseOrder.t) :
  po_lookup pos !! ref = Some po → po ∈ pos.
Proof.
  induction pos as [|q pos IH] using rev_ind; [done|].
  unfold po_lookup in *. rewrite foldl_app. simpl. rewrite lookup_insert.
  case_decide; [intros [= ->] | intros ?%IH]; set_solver.
Qed.

Lemma numeric_not_null (m : Amount) : numeric m → m ≠ Null.
Proof. by intros [x ->]. Qed.

Lemma contributes_exists (purchase_orders : list PurchaseOrder.t)
    (invoice : Invoice.t) :
  Invoice.subtotal invoice ≠ Null ∧ Invoice.tax invoice ≠ Null
  ∧ numeric (Invoice.total_amount invoice) →
  Forall (λ po, PurchaseOrder.subtotal po ≠ Null
                ∧ PurchaseOrder.tax po ≠ Null
                ∧ numeric (PurchaseOrder.total_amount po)) purchase_orders →
  ∃ v, contributes (po_lookup purchase_orders) invoice v.
Proof.
  intros (Hs & Ht & [a Ha]) Hpos. unfold contributes.
  destruct (compare_cases (po_lookup purchase_orders) invoice)
    as [(Hres & H)|[(ref & po & _ & Hpo & _ & Hn & _)
                   |(ref & po & ds & dt & da & _ & Hpo & Hres & _ & _ & H)]].
  - rewrite H. exists 0%float. by eexists.
  - exfalso. apply po_lookup_Some in Hpo. rewrite Forall_forall in Hpos.
    destruct (Hpos po Hpo) as (Hs' & Ht' & [b Hb]).
    unfold null_amount in Hn. rewrite Ha, Hb in Hn. naive_solver.
  - rewrite H. apply po_lookup_Some in Hpo. rewrite Forall_forall in Hpos.
    destruct (Hpos po Hpo) as (_ & _ & [b Hb]).
    destruct (status (resolved_result invoice ref po (ds, dt, da))) eqn:Hst.
    + exists 0%float. eexists. split; [done|]. by rewrite Hst.
    + exists (abs (a - b)). eexists. split; [done|]. rewrite Hst.
      by exists po, a, b.
    + exists 0%float. eexists. split; [done|]. by rewrite Hst.
Qed.

Lemma find_all_mismatches_returns (invoices : list Invoice.t)
    (purchase_orders : list PurchaseOrder.t) :
  amounts_present invoices purchase_orders →
  ∃ r, find_all_mismatches invoices purchase_orders = Ok r.
Proof.
  intros [Hinv Hpos].
  assert (∃ vs, Forall2 (contributes (po_lookup purchase_orders)) invoices vs)
    as [vs Hvs].
  { induction Hinv as [|invoice invoices Hi _ [vs IH]]; [by exists []|].
    destruct (contributes_exists purchase_orders invoice Hi Hpos) as [v Hv].
    exists (v :: vs). by constructor. }
  by eapply aggregate_total.
Qed.

(** C1. The aggregation returns for every invoice list and purchase-order
    list whose documents carry their total_amount and hold no null amount,
    and whenever it returns, its three lists are the results of the invoices
    split by status, in invoice order: together they hold every invoice's
    result exactly once, their lengths add up to total_invoices (the number
    of invoices), and the three counters of the summary are the lengths of
    the lists. *)
Theorem partition_of_results (invoices : list Invoice.t)
    (purchase_orders : list PurchaseOrder.t) :
  (amounts_present invoices purchase_orders →
   ∃ r, find_all_mismatches invoices purchase_orders = Ok r)
  ∧ ∀ r, find_all_mismatches invoices purchase_orders = Ok r →
    ∃ cs,
      Forall2 (λ invoice c,
        compare_invoice_with_po (po_lookup purchase_orders) invoice = Ok c)
        invoices cs
      ∧ total_invoices r = length invoices
      ∧ matched r = filter (λ c, status c = MATCH) cs
      ∧ mismatched r = filter (λ c, status c = MISMATCH) cs
      ∧ errors r = filter (λ c, status c = ERROR) cs
      ∧ matched r ++ mismatched r ++ errors r ≡ₚ cs
      ∧ length (matched r) + length (mismatched r) + length (errors r)
        = total_invoices r
      ∧ total_matched (summary r) = length (matched r)
      ∧ total_mismatched (summary r) = length (mismatched r)
      ∧ total_errors (summary r) = length (errors r).
Proof.
  split; [apply find_all_mismatches_returns|].
  intros r H. apply find_all_mismatches_inv in H
    as (cs & Hcs & Ht & Hm & Hmm & He & Hnm & Hnmm & Hne & _).
  exists cs. split; [exact Hcs|].
  pose proof (with_status_partition cs) as Hp.
  rewrite Hm, Hmm, He, Ht, Hnm, Hnmm, Hne.
  split_and!; try done.
  apply Permutation_length in Hp. rewrite !length_app in Hp.
  rewrite (Forall2_length _ _ _ Hcs). lia.
Qed.

(** C4. Whenever the aggregation returns, total_amount_variance is the sum,
    accumulated in invoice order from 0.0, of one term per invoice:
    abs(invoice.total_amount - po.total_amount) for an invoice classified
    MISMATCH, and 0 for an invoice classified MATCH or ERROR, whatever its
    fields hold. *)
Theorem variance_over_mismatches (invoices : list Invoice.t)
    (purchase_orders : list PurchaseOrder.t) (r : Results) :
  find_all_mismatches invoices purchase_orders = Ok r →
  let lookup := po_lookup purchase_orders in
  ∃ terms : list float,
    total_amount_variance (summary r) = fsum terms
    ∧ Forall2 (λ invoice term,
        ∃ c, compare_invoice_with_po lookup invoice = Ok c
        ∧ match status c with
          | MISMATCH =>
              ∃ po a b, resolve lookup invoice = Some po
                        ∧ Invoice.total_amount invoice = Number a
                        ∧ PurchaseOrder.total_amount po = Number b
                        ∧ term = abs (a - b)
          | MATCH | ERROR => term = 0%float
          end) invoices terms.
Proof.
  intros H lookup. apply find_all_mismatches_inv in H
    as (_ & _ & _ & _ & _ & _ & _ & _ & _ & _ & vs & Hvs & Hvar).
  exists vs. split; [done|]. exact Hvs.
Qed.

(** ** The severity counters *)

Lemma severity_loop (l : list Issue) (high medium : nat) :
  foldl severity_step (high, medium) l
  = (high + count_severity HIGH l, medium + count_severity MEDIUM l).
Proof.
  revert high medium. induction l as [|x l IH]; intros high medium.
  - simpl. by rewrite !Nat.add_0_r.
  - cbn [foldl]. unfold severity_step at 2, count_severity.
    rewrite !filter_cons.
    destruct (severity x) as [[]|]; repeat case_decide; try done;
      rewrite IH; unfold count_severity; simpl; f_equal; lia.
Qed.

Lemma count_severity_all (l : list Issue) :
  Forall (λ i, severity i = Some HIGH ∨ severity i = Some MEDIUM) l →
  count_severity HIGH l + count_severity MEDIUM l = length l.
Proof.
  unfold count_severity. induction 1 as [|x l Hx _ IH]; [done|].
  rewrite !filter_cons.
  destruct Hx as [-> | ->]; repeat case_decide; try done; simpl; lia.
Qed.

Lemma header_list_severity (invoice : Invoice.t) (po : PurchaseOrder.t)
    (g : float * float * float) :
  Forall (λ i, severity i = Some HIGH ∨ severity i = Some MEDIUM)
    (header_list invoice po g).
Proof.
  destruct g as [[ds dt] da]. apply Forall_forall. intros x Hx.
  eapply elem_of_sublist in Hx; [|apply header_list_sublist].
  rewrite !elem_of_cons, elem_of_nil in Hx.
  destruct Hx as [->|[->|[->|[->|[->|[->|[]]]]]]]; simpl; auto.
Qed.

Lemma all_header_issues_severity (lookup : gmap string PurchaseOrder.t)
    (invoice : Invoice.t) (c : Comparison) :
  compared lookup invoice c →
  Forall (λ i, severity i = Some HIGH ∨ severity i = Some MEDIUM)
    (all_header_issues c).
Proof.
  intros Hc. unfold all_header_issues.
  destruct (compared_inv _ _ _ Hc)
    as [(_ & ->)|(ref & po & ds & dt & da & _ & _ & _ & _ & _ & ->)];
    [constructor|].
  apply header_list_severity.
Qed.

Lemma no_header_issues_unless_mismatch (lookup : gmap string PurchaseOrder.t)
    (invoice : Invoice.t) (c : Comparison) :
  compared lookup invoice c →
  status c ≠ MISMATCH →
  all_header_issues c = [].
Proof.
  intros Hc. unfold all_header_issues.
  destruct (compared_inv _ _ _ Hc)
    as [(_ & ->)|(ref & po & ds & dt & da & _ & _ & _ & _ & _ & ->)]; [done|].
  unfold resolved_result. cbn [status details from_option header_issues].
  destruct (header_list invoice po (ds, dt, da)); [done|]. simpl. done.
Qed.

Lemma counted_issues_bind (cs : list Comparison) :
  cs ≫= counted_issues = with_status MISMATCH cs ≫= all_header_issues.
Proof.
  induction cs as [|c cs IH]; [done|].
  rewrite with_status_cons, bind_app, bind_cons, IH. f_equal.
  unfold counted_issues, with_status. rewrite filter_cons, filter_nil.
  case_decide; simpl; by rewrite ?app_nil_r.
Qed.

Lemma line_item_issues_no_severity (invoice_items po_items : list LineItem)
    (code descr : string) (issues : list Issue) (x : Issue) :
  ITEM_MISMATCH code descr issues
    ∈ mismatches (compare_line_items invoice_items po_items) →
  x ∈ issues → severity x = None.
Proof.
  rewrite compare_line_items_mismatches, elem_of_app, !list_elem_of_omap.
  intros [(i & _ & Hi)|(p & _ & Hp)] Hx.
  - unfold invoice_entry in Hi.
    destruct (po_items_lookup po_items !! item_code i) as [p|]; [|done].
    destruct (item_issues i p) eqn:E; [done|]. injection Hi as <- <- <-.
    rewrite <- E in Hx.
    by apply item_issues_fields in Hx as [->|[->| ->]].
  - unfold po_entry in Hp. by case_decide.
Qed.

Lemma with_status_origin (lookup : gmap string PurchaseOrder.t)
    (invoices : list Invoice.t) (cs : list Comparison) (st : Status)
    (c : Comparison) :
  Forall2 (compared lookup) invoices cs →
  c ∈ with_status st cs →
  status c = st ∧ ∃ invoice, invoice ∈ invoices ∧ compared lookup invoice c.
Proof.
  intros Hcs [Hst Hc]%list_elem_of_filter. split; [done|].
  by eapply Forall2_elem_of_r.
Qed.

(** C10. Whenever the aggregation returns, high_severity_issues and
    medium_severity_issues count the HIGH and the MEDIUM header issues of the
    invoices classified MISMATCH, and their sum is the number of those header
    issues, whatever the line-item mismatch lists hold: the field issues
    inside a line-item mismatch have no severity, and the results classified
    MATCH or ERROR have no header issue. *)
Theorem severity_counters (invoices : list Invoice.t)
    (purchase_orders : list PurchaseOrder.t) (r : Results) :
  find_all_mismatches invoices purchase_orders = Ok r →
  high_severity_issues (summary r)
  = count_severity HIGH (mismatched r ≫= all_header_issues)
  ∧ medium_severity_issues (summary r)
    = count_severity MEDIUM (mismatched r ≫= all_header_issues)
  ∧ high_severity_issues (summary r) + medium_severity_issues (summary r)
    = length (mismatched r ≫= all_header_issues)
  ∧ (∀ c, c ∈ matched r ++ errors r → all_header_issues c = [])
  ∧ (∀ c d code descr issues x,
       c ∈ mismatched r → details c = Some d →
       ITEM_MISMATCH code descr issues ∈ mismatches (line_item_comparison d) →
       x ∈ issues → severity x = None).
Proof.
  intros H. apply find_all_mismatches_inv in H
    as (cs & Hcs & _ & Hm & Hmm & He & _ & _ & _ & Hsev & _).
  rewrite severity_loop, counted_issues_bind, <- Hmm in Hsev. simpl in Hsev.
  injection Hsev as Hhigh Hmedium.
  split_and!; [done|done| | |].
  - rewrite Hhigh, Hmedium. apply count_severity_all.
    apply Forall_forall. intros x (c & Hx & Hc)%list_elem_of_bind.
    rewrite Hmm in Hc.
    apply (with_status_origin _ _ _ _ _ Hcs) in Hc as (_ & invoice & _ & Hc).
    pose proof (all_header_issues_severity _ _ _ Hc) as Hall.
    rewrite Forall_forall in Hall. by apply Hall.
  - intros c. rewrite Hm, He, elem_of_app.
    intros [Hc|Hc];
      apply (with_status_origin _ _ _ _ _ Hcs) in Hc as (Hst & invoice & _ & Hc);
      eapply no_header_issues_unless_mismatch; try done; by rewrite Hst.
  - intros c d code descr issues x Hc Hd Hi Hx.
    rewrite Hmm in Hc.
    apply (with_status_origin _ _ _ _ _ Hcs) in Hc as (Hst & invoice & _ & Hc).
    destruct (compared_details _ _ _ Hc)
      as (ref & po & ds & dt & da & _ & _ & _ & _ & _ & ->);
      [by rewrite Hst|].
    injection Hd as <-. by eapply line_item_issues_no_severity.
Qed.

(** ** Invoices without a purchase order *)

Lemma po_lookup_snoc (pos : list PurchaseOrder.t) (po : PurchaseOrder.t) :
  po_lookup (pos ++ [po]) = <[PurchaseOrder.po_number po := po]> (po_lookup pos).
Proof. unfold po_lookup. by rewrite foldl_app. Qed.

Lemma po_lookup_None (pos : list PurchaseOrder.t) (ref : string) :
  po_lookup pos !! ref = None ↔ ref ∉ PurchaseOrder.po_number <$> pos.
Proof.
  induction pos as [|po pos IH] using rev_ind.
  - split; [set_solver | done].
  - rewrite po_lookup_snoc, lookup_insert, fmap_app. simpl.
    case_decide as Hc; set_solver.
Qed.

Lemma unresolved_resolve (purchase_orders : list PurchaseOrder.t)
    (invoice : Invoice.t) :
  unresolved purchase_orders invoice →
  resolve (po_lookup purchase_orders) invoice = None.
Proof.
  unfold unresolved, resolve, truthy_reference.
  destruct (Invoice.po_reference invoice) as [ref|]; [|done].
  case_decide; [done|]. intros [?|?]; [done|]. by apply po_lookup_None.
Qed.

(** C2. An invoice whose po_reference is absent, empty, or the number of no
    loaded purchase order gets, without any exception, a result with status
    ERROR that has neither header_issues nor line_item_comparison; when a
    non-empty reference was given the message names it; and the aggregation
    goes on: if it returns for the other invoices, it returns with this
    invoice among them, with the same matched and mismatched lists and this
    result added to the errors. *)
Theorem unresolved_reference_is_error (purchase_orders : list PurchaseOrder.t)
    (invoice : Invoice.t) :
  unresolved purchase_orders invoice →
  ∃ c, compare_invoice_with_po (po_lookup purchase_orders) invoice = Ok c
  ∧ status c = ERROR
  ∧ details c = None
  ∧ invoice_number c = Invoice.invoice_number invoice
  ∧ (∀ ref, Invoice.po_reference invoice = Some ref → ref ≠ "" →
       po_reference c = Some ref
       ∧ error c = Some ("Referenced PO " +:+ ref +:+ " not found"))
  ∧ (Invoice.po_reference invoice = None ∨ Invoice.po_reference invoice = Some "" →
       error c = Some "Invoice has no PO reference")
  ∧ ∀ before after r,
      find_all_mismatches (before ++ after) purchase_orders = Ok r →
      ∃ r', find_all_mismatches (before ++ invoice :: after) purchase_orders
            = Ok r'
            ∧ matched r' = matched r
            ∧ mismatched r' = mismatched r
            ∧ c ∈ errors r'
            ∧ length (errors r') = S (length (errors r))
            ∧ total_invoices r' = S (total_invoices r).
Proof.
  intros Hun. set (lookup := po_lookup purchase_orders) in *.
  pose proof (unresolved_resolve _ _ Hun) as Hres. fold lookup in Hres.
  pose proof (compare_unresolved lookup invoice Hres) as Hc.
  exists (unresolved_result invoice). split; [done|].
  unfold unresolved_result at 1 2 3 4 5 6.
  cbn [status details invoice_number po_reference error].
  split_and!; try done.
  - intros ref Href Hne. rewrite Href. unfold truthy_reference.
    by rewrite decide_False.
  - intros [Href|Href]; rewrite Href; done.
  - intros before after r Hr.
    apply find_all_mismatches_inv in Hr
      as (cs & Hcs & Ht & Hm & Hmm & He & _ & _ & _ & _ & vs & Hvs & _).
    fold lookup in Hcs, Hvs.
    apply Forall2_app_inv_l in Hvs as (vs1 & vs2 & Hvs1 & Hvs2 & ->).
    apply Forall2_app_inv_l in Hcs as (cs1 & cs2 & Hcs1 & Hcs2 & ->).
    assert (Forall2 (contributes lookup) (before ++ invoice :: after)
              (vs1 ++ 0%float :: vs2)) as Hvs.
    { apply Forall2_app; [done|]. constructor; [|done].
      exists (unresolved_result invoice). split; [done|]. done. }
    destruct (aggregate_total lookup _ _
                (initial_results (before ++ invoice :: after)) Hvs) as [r' Hr'].
    exists r'. split; [done|].
    apply find_all_mismatches_inv in Hr'
      as (cs' & Hcs' & Ht' & Hm' & Hmm' & He' & _). fold lookup in Hcs'.
    assert (cs' = cs1 ++ unresolved_result invoice :: cs2) as ->.
    { eapply Forall2_compared_eq; [exact Hcs'|].
      apply Forall2_app; [done|]. by constructor. }
    rewrite with_status_app, with_status_cons in Hm', Hmm', He'.
    unfold with_status in Hm', Hmm', He' at 2.
    rewrite filter_cons, filter_nil in Hm', Hmm', He'.
    cbn [unresolved_result status] in Hm', Hmm', He'.
    rewrite decide_False in Hm' by done.
    rewrite decide_False in Hmm' by done.
    rewrite decide_True in He' by done.
    simpl in Hm', Hmm', He'.
    rewrite with_status_app in Hm, Hmm, He.
    rewrite Hm, Hmm, He, Hm', Hmm', He', Ht, Ht'.
    split_and!; try done.
    + set_solver.
    + rewrite !length_app. simpl. lia.
    + rewrite !length_app. simpl. lia.
Qed.

(** ** Identical documents *)

Lemma omap_all_None {A B} (f : A → option B) (l : list A) :
  (∀ x, x ∈ l → f x = None) → omap f l = [].
Proof.
  induction l as [|x l IH]; [done|]. intros H. simpl.
  rewrite (H x) by set_solver. apply IH. intros y Hy. apply H. set_solver.
Qed.

Lemma item_issues_same (i : LineItem) : item_issues i i = [].
Proof. apply item_issues_nil. split_and!; [done| |]; apply gtb_same. Qed.

Lemma gap_of_same (m : Amount) (d : float) :
  gap_of m m = Some d → gtb (abs d) tolerance = false.
Proof.
  intros (x & y & Hx & Hy & ->)%gap_of_Some.
  assert (y = x) as -> by congruence. apply gtb_same.
Qed.

Lemma header_list_same (invoice : Invoice.t) (po : PurchaseOrder.t)
    (ds dt da : float) :
  same_header invoice po →
  gaps invoice po = Some (ds, dt, da) →
  header_list invoice po (ds, dt, da) = [].
Proof.
  intros (Hn & Hi & Hc & Hs & Ht & Ha) (Hds & Hdt & Hda)%gaps_inv.
  rewrite Hs in Hds. rewrite Ht in Hdt. rewrite Ha in Hda.
  unfold header_list, text_issues, amount_issues.
  rewrite (gap_of_same _ _ Hds), (gap_of_same _ _ Hdt), (gap_of_same _ _ Hda).
  rewrite Hn, Hi, Hc.
  by rewrite !bool_decide_eq_false_2 by (intros H; by apply H).
Qed.

Lemma identical_items_no_mismatch (invoice_items po_items : list LineItem) :
  invoice_items ≡ₚ po_items →
  NoDup (item_code <$> invoice_items) →
  mismatches (compare_line_items invoice_items po_items) = []
  ∧ matched_items (compare_line_items invoice_items po_items)
    = length invoice_items.
Proof.
  intros Hperm Hnd.
  assert (omap (invoice_entry (po_items_lookup po_items)) invoice_items = [])
    as Hinv.
  { apply omap_all_None. intros i Hi.
    rewrite (invoice_entry_found _ i i).
    - by rewrite decide_True by apply item_issues_same.
    - apply po_items_lookup_NoDup; [by rewrite <- Hperm | by rewrite <- Hperm]. }
  pose proof (compare_line_items_matched invoice_items po_items) as Hn.
  rewrite compare_line_items_mismatches, Hinv in *. simpl in *.
  split; [|lia].
  apply omap_all_None. intros p Hp. unfold po_entry.
  rewrite decide_True; [done|].
  apply list_elem_of_fmap. exists p. by rewrite Hperm.
Qed.

(** C7, as the code has it.  An invoice whose purchase order is found, whose
    header fields equal the order's (none of the amounts being null), and
    whose line items are the order's line items in any order, with no item
    code occurring twice, is classified MATCH with total_issues = 0: no
    header issue, no line-item mismatch, every item counted as matched. *)
Theorem identical_documents_match (lookup : gmap string PurchaseOrder.t)
    (invoice : Invoice.t) (ref : string) (po : PurchaseOrder.t) :
  truthy_reference (Invoice.po_reference invoice) = Some ref →
  lookup !! ref = Some po →
  same_header invoice po →
  ¬ null_amount invoice po →
  default [] (Invoice.line_items invoice)
    ≡ₚ default [] (PurchaseOrder.line_items po) →
  NoDup (item_code <$> default [] (Invoice.line_items invoice)) →
  ∃ c, compare_invoice_with_po lookup invoice = Ok c
  ∧ status c = MATCH
  ∧ ∃ d, details c = Some d
         ∧ total_issues d = 0
         ∧ header_issues d = []
         ∧ mismatches (line_item_comparison d) = []
         ∧ matched_items (line_item_comparison d)
           = length (default [] (Invoice.line_items invoice)).
Proof.
  intros Href Hpo Hhead Hnull Hperm Hnd.
  destruct (compare_resolved_Ok _ _ _ _ Href Hpo Hnull)
    as (ds & dt & da & Hg & Hc).
  eexists. split; [exact Hc|].
  unfold resolved_result. cbn [status details].
  destruct (identical_items_no_mismatch _ _ Hperm Hnd) as [Hm Hn].
  pose proof (compare_line_items_has_issues
    (default [] (Invoice.line_items invoice))
    (default [] (PurchaseOrder.line_items po))) as Hlic.
  rewrite (header_list_same _ _ _ _ _ Hhead Hg), Hm in *.
  destruct (has_line_item_issues _).
  - exfalso. by apply Hlic.
  - simpl. split; [done|]. eexists. split; [reflexivity|]. by simpl.
Qed.

(** C7 as stated fails: two documents equal field for field, line items
    included, are classified MISMATCH when an item code occurs twice, since
    the lookup table keeps the last item of each code only. *)
Lemma duplicate_codes_counterexample :
  let lookup := po_lookup [dup_po] in
  truthy_reference (Invoice.po_reference dup_invoice) = Some "PO-2024-00001"
  ∧ lookup !! "PO-2024-00001" = Some dup_po
  ∧ same_header dup_invoice dup_po
  ∧ default [] (Invoice.line_items dup_invoice)
      ≡ₚ default [] (PurchaseOrder.line_items dup_po)
  ∧ ∃ c, compare_invoice_with_po lookup dup_invoice = Ok c
         ∧ status c = MISMATCH
         ∧ (total_issues <$> details c) = Some 1.
Proof.
  split_and!; try reflexivity.
  - repeat split.
  - eexists. split_and!; reflexivity.
Qed.

(** ** The text report on an empty invoice list *)

(** C3 fails on the code: with no invoice the first percentage divides by
    [total_invoices = 0] and the report raises instead of printing 0%. *)
Theorem empty_report_raises (fmt_1f fmt_money fmt_money_signed
    fmt_signed_float str_float : float → string)
    (purchase_orders : list PurchaseOrder.t) :
  get_mismatch_summary_text fmt_1f fmt_money fmt_money_signed
    fmt_signed_float str_float [] purchase_orders
  = Raise ZeroDivisionError.
Proof. reflexivity. Qed.

(** ** A sample run *)

Lemma sample_run : find_all_mismatches sample_invoices [sample_po] = Ok sample_results.
Proof. vm_compute. reflexivity. Qed.

Lemma sample_not_null : ¬ null_amount sample_invoice_mismatch sample_po.
Proof. unfold null_amount. simpl. naive_solver. Qed.

Lemma sample_match_not_null : ¬ null_amount sample_invoice_match sample_po.
Proof. unfold null_amount. simpl. naive_solver. Qed.

Lemma partition_of_results_witness :
  amounts_present sample_invoices [sample_po]
  ∧ find_all_mismatches sample_invoices [sample_po] = Ok sample_results
  ∧ length (matched sample_results) + length (mismatched sample_results)
    + length (errors sample_results) = total_invoices sample_results
  ∧ total_matched (summary sample_results) = length (matched sample_results).
Proof.
  assert (amounts_present sample_invoices [sample_po]) as Ha.
  { split; repeat constructor; try discriminate; eexists; reflexivity. }
  assert (find_all_mismatches sample_invoices [sample_po] = Ok sample_results)
    as H by (vm_compute; reflexivity).
  destruct (partition_of_results sample_invoices [sample_po]) as [_ Hpart].
  destruct (Hpart sample_results H) as (cs & _ & _ & _ & _ & _ & _ & Hsum & Hm & _).
  split; [exact Ha|]. split; [exact H|]. split; [exact Hsum | exact Hm].
Defined.

Lemma unresolved_reference_is_error_witness :
  unresolved [sample_po] sample_invoice_orphan
  ∧ ∃ c, compare_invoice_with_po (po_lookup [sample_po]) sample_invoice_orphan
         = Ok c
         ∧ status c = ERROR ∧ details c = None.
Proof.
  assert (unresolved [sample_po] sample_invoice_orphan) as H.
  { right. apply (bool_decide_unpack _). vm_compute. exact I. }
  destruct (unresolved_reference_is_error [sample_po] sample_invoice_orphan H)
    as (c & Hc & Hst & Hd & _).
  split; [exact H|]. exists c. split; [exact Hc|]. split; [exact Hst | exact Hd].
Defined.

Lemma variance_over_mismatches_witness :
  find_all_mismatches sample_invoices [sample_po] = Ok sample_results
  ∧ ∃ terms : list float,
      total_amount_variance (summary sample_results) = fsum terms
      ∧ length terms = 3.
Proof.
  assert (find_all_mismatches sample_invoices [sample_po] = Ok sample_results)
    as H by (vm_compute; reflexivity).
  destruct (variance_over_mismatches sample_invoices [sample_po] sample_results H)
    as (terms & Hsum & Hterms).
  split; [exact H|]. exists terms. split; [exact Hsum|].
  apply Forall2_length in Hterms. symmetry. exact Hterms.
Defined.

Lemma tolerance_boundary_strict_witness :
  item_code cent_invoice_item = item_code cent_po_item
  ∧ quantity cent_invoice_item = quantity cent_po_item
  ∧ abs (unit_price cent_invoice_item - unit_price cent_po_item) = 0.01%float
  ∧ mismatches (compare_line_items [cent_invoice_item] [cent_po_item]) = [].
Proof.
  split; [reflexivity|]. split; [reflexivity|]. split; [reflexivity|].
  destruct (tolerance_boundary_strict cent_invoice_item cent_po_item
              eq_refl eq_refl) as (Hexact & _).
  apply Hexact; reflexivity.
Defined.


Lemma total_issues_and_status_witness :
  truthy_reference (Invoice.po_reference sample_invoice_mismatch)
  = Some "PO-2024-00002"
  ∧ po_lookup [sample_po] !! "PO-2024-00002" = Some sample_po
  ∧ ¬ null_amount sample_invoice_mismatch sample_po
  ∧ ∃ c d, compare_invoice_with_po (po_lookup [sample_po])
             sample_invoice_mismatch = Ok c
         ∧ details c = Some d
         ∧ total_issues d
           = length (header_issues d)
             + length (mismatches (line_item_comparison d)).
Proof.
  split; [reflexivity|]. split; [reflexivity|]. split; [exact sample_not_null|].
  destruct (total_issues_and_status (po_lookup [sample_po])
              sample_invoice_mismatch "PO-2024-00002" sample_po eq_refl eq_refl
              sample_not_null)
    as (c & d & Hc & Hd & Hn & _).
  exists c, d. split; [exact Hc|]. split; [exact Hd | exact Hn].
Defined.

Lemma severity_counters_witness :
  find_all_mismatches sample_invoices [sample_po] = Ok sample_results
  ∧ high_severity_issues (summary sample_results)
    + medium_severity_issues (summary sample_results)
    = length (mismatched sample_results ≫= all_header_issues).
Proof.
  assert (find_all_mismatches sample_invoices [sample_po] = Ok sample_results)
    as H by (vm_compute; reflexivity).
  destruct (severity_counters sample_invoices [sample_po] sample_results H)
    as (_ & _ & Hsum & _).
  split; [exact H | exact Hsum].
Defined.

Lemma identical_documents_match_witness :
  truthy_reference (Invoice.po_reference sample_invoice_match)
  = Some "PO-2024-00002"
  ∧ po_lookup [sample_po] !! "PO-2024-00002" = Some sample_po
  ∧ same_header sample_invoice_match sample_po
  ∧ ¬ null_amount sample_invoice_match sample_po
  ∧ default [] (Invoice.line_items sample_invoice_match)
      ≡ₚ default [] (PurchaseOrder.line_items sample_po)
  ∧ NoDup (item_code <$> default [] (Invoice.line_items sample_invoice_match))
  ∧ ∃ c, compare_invoice_with_po (po_lookup [sample_po]) sample_invoice_match
         = Ok c
         ∧ status c = MATCH.
Proof.
  assert (same_header sample_invoice_match sample_po) as Hh
    by (repeat split).
  assert (default [] (Invoice.line_items sample_invoice_match)
            ≡ₚ default [] (PurchaseOrder.line_items sample_po)) as Hp
    by apply perm_swap.
  assert (NoDup (item_code <$> default [] (Invoice.line_items sample_invoice_match)))
    as Hnd by (apply (bool_decide_unpack _); vm_compute; exact I).
  destruct (identical_documents_match (po_lookup [sample_po])
              sample_invoice_match "PO-2024-00002" sample_po
              eq_refl eq_refl Hh sample_match_not_null Hp Hnd)
    as (c & Hc & Hst & _).
  split; [reflexivity|]. split; [reflexivity|].
  split; [exact Hh|]. split; [exact sample_match_not_null|].
  split; [exact Hp|]. split; [exact Hnd|]. exists c. split; [exact Hc | exact Hst].
Defined.

(** A mismatched invoice without total_amount stops the aggregation:
    [abs(None - 275)] raises. *)
Example missing_total_raises :
  (status <$> match compare_invoice_with_po (po_lookup [sample_po])
                      sample_invoice_no_total with
              | Ok c => Some c | Raise _ => None end) = Some MISMATCH
  ∧ find_all_mismatches [sample_invoice_no_total] [sample_po] = Raise TypeError.
Proof. split; vm_compute; reflexivity. Qed.
Lemma omap_length_le {A B} (f : A → option B) (l : list A) :
  length (omap f l) ≤ length l.
Proof.
  induction l as [|x l IH]; [done|]. cbn [omap list_omap].
  destruct (f x); simpl; fold (omap f l); lia.
Qed.

Lemma omap_all_None_inv {A B} (f : A → option B) (l : list A) :
  omap f l = [] → ∀ x, x ∈ l → f x = None.
Proof.
  induction l as [|y l IH]; simpl; [set_solver|].
  destruct (f y) eqn:E; [done|]. intros Hnil x [->|Hx]%elem_of_cons; auto.
Qed.

Lemma omap_all_Some {A B} (f : A → option B) (g : A → B) (l : list A) :
  (∀ x, f x = Some (g x)) → omap f l = g <$> l.
Proof.
  intros H. induction l as [|x l IH]; [done|].
  cbn [omap list_omap]. rewrite H. cbn [fmap list_fmap]. f_equal. exact IH.
Qed.

(** X1. Every invoice item is either counted in matched_items or gives
    exactly one mismatch entry, and every purchase-order item gives at most
    one: the mismatch list splits into an invoice part and an order part
    with [matched_items + len(invoice part) = len(invoice_items)] and
    [len(order part) <= len(po_items)]; the two item totals are the lengths
    of the inputs. *)
Theorem line_item_counts (invoice_items po_items : list LineItem) :
  let r := compare_line_items invoice_items po_items in
  total_items_in_invoice r = length invoice_items
  ∧ total_items_in_po r = length po_items
  ∧ ∃ from_invoice from_po,
      mismatches r = from_invoice ++ from_po
      ∧ Forall invoice_side from_invoice
      ∧ Forall (λ m, ¬ invoice_side m) from_po
      ∧ matched_items r + length from_invoice = length invoice_items
      ∧ length from_po ≤ length po_items.
Proof.
  intros r. split_and!.
  - unfold r, compare_line_items. by destruct (foldl _ _ invoice_items).
  - unfold r, compare_line_items. by destruct (foldl _ _ invoice_items).
  - exists (omap (invoice_entry (po_items_lookup po_items)) invoice_items),
      (omap (po_entry invoice_items) po_items).
    split_and!.
    + apply compare_line_items_mismatches.
    + apply Forall_forall. intros m (i & _ & Hm)%list_elem_of_omap.
      by apply invoice_entry_side in Hm as [? _].
    + apply Forall_forall. intros m (p & _ & Hm)%list_elem_of_omap.
      by apply po_entry_side in Hm as [? _].
    + apply compare_line_items_matched.
    + apply omap_length_le.
Qed.

(** X2. The mismatch list is empty exactly when every invoice item finds,
    under its code, a purchase-order item (the last one with that code) with
    the same quantity and on which neither test [abs(a - b) > 0.01], on the
    unit prices and on the totals as the floats compute them, holds, and
    every purchase-order item code occurs among the invoice items. *)
Theorem no_mismatch_iff (invoice_items po_items : list LineItem) :
  mismatches (compare_line_items invoice_items po_items) = []
  ↔ (∀ i, i ∈ invoice_items →
       ∃ p, po_items_lookup po_items !! item_code i = Some p
            ∧ quantity i = quantity p
            ∧ (0.01 <? abs (unit_price i - unit_price p))%float = false
            ∧ (0.01 <? abs (total i - total p))%float = false)
    ∧ (∀ p, p ∈ po_items → item_code p ∈ item_code <$> invoice_items).
Proof.
  rewrite compare_line_items_mismatches. split.
  - intros [Hinv Hpo]%app_eq_nil. split.
    + intros i Hi. pose proof (omap_all_None_inv _ _ Hinv i Hi) as Hnone.
      unfold invoice_entry in Hnone.
      destruct (po_items_lookup po_items !! item_code i) as [p|]; [|done].
      exists p. split; [done|]. apply item_issues_nil.
      by destruct (item_issues i p).
    + intros p Hp. pose proof (omap_all_None_inv _ _ Hpo p Hp) as Hnone.
      unfold po_entry in Hnone. by case_decide.
  - intros [Hinv Hpo].
    rewrite (omap_all_None _ invoice_items), (omap_all_None _ po_items); [done| |].
    + intros p Hp. unfold po_entry. by rewrite decide_True by auto.
    + intros i Hi. destruct (Hinv i Hi) as (p & Hp & Hq & Hu & Ht).
      rewrite (invoice_entry_found _ i p Hp).
      rewrite decide_True; [done|]. by apply item_issues_nil.
Qed.

(** X3. An invoice item is reported ITEM_NOT_IN_PO exactly when its code is
    the code of no purchase-order item, and a purchase-order item is
    reported ITEM_NOT_IN_INVOICE exactly when its code is the code of no
    invoice item. *)
Theorem missing_items_reported (invoice_items po_items : list LineItem) :
  (∀ i, i ∈ invoice_items →
     ITEM_NOT_IN_PO (item_code i) (description i) (quantity i)
       "Item in invoice but not in referenced PO"
       ∈ mismatches (compare_line_items invoice_items po_items)
     ↔ item_code i ∉ item_code <$> po_items)
  ∧ (∀ p, p ∈ po_items →
       ITEM_NOT_IN_INVOICE (item_code p) (description p) (quantity p)
         "Item in PO but not invoiced"
         ∈ mismatches (compare_line_items invoice_items po_items)
       ↔ item_code p ∉ item_code <$> invoice_items).
Proof.
  rewrite compare_line_items_mismatches. split.
  - intros i Hi. rewrite elem_of_app, !list_elem_of_omap. split.
    + intros [(i' & _ & Hi')|(p & _ & Hp)].
      * unfold invoice_entry in Hi'.
        destruct (po_items_lookup po_items !! item_code i') as [p|] eqn:E.
        { by destruct (item_issues i' p). }
        injection Hi' as Hc _ _. rewrite <- Hc. by apply po_items_lookup_None.
      * unfold po_entry in Hp. by case_decide.
    + intros Hno. left. exists i. split; [done|]. unfold invoice_entry.
      by rewrite (proj2 (po_items_lookup_None _ _) Hno).
  - intros p Hp. rewrite elem_of_app, !list_elem_of_omap. split.
    + intros [(i & _ & Hi)|(p' & _ & Hp')].
      * unfold invoice_entry in Hi.
        destruct (po_items_lookup po_items !! item_code i) as [q|]; [|done].
        by destruct (item_issues i q).
      * unfold po_entry in Hp'. case_decide as Hc; [done|].
        injection Hp' as Hcode _ _. by rewrite <- Hcode.
    + intros Hno. right. exists p. split; [done|]. unfold po_entry.
      by rewrite decide_False.
Qed.

(** X5. With no invoice item, every purchase-order item is reported
    ITEM_NOT_IN_INVOICE, in order; with no purchase-order item, every
    invoice item is reported ITEM_NOT_IN_PO, in order; nothing is counted as
    matched in either case. *)
Theorem one_side_empty (items : list LineItem) :
  mismatches (compare_line_items [] items)
  = (λ p, ITEM_NOT_IN_INVOICE (item_code p) (description p) (quantity p)
            "Item in PO but not invoiced") <$> items
  ∧ matched_items (compare_line_items [] items) = 0
  ∧ mismatches (compare_line_items items [])
    = (λ i, ITEM_NOT_IN_PO (item_code i) (description i) (quantity i)
              "Item in invoice but not in referenced PO") <$> items
  ∧ matched_items (compare_line_items items []) = 0.
Proof.
  assert (omap (invoice_entry (po_items_lookup [])) items
          = (λ i, ITEM_NOT_IN_PO (item_code i) (description i) (quantity i)
                    "Item in invoice but not in referenced PO") <$> items) as Hinv.
  { apply omap_all_Some. intros i. unfold invoice_entry, po_items_lookup.
    simpl. by rewrite lookup_empty. }
  assert (omap (po_entry []) items
          = (λ p, ITEM_NOT_IN_INVOICE (item_code p) (description p) (quantity p)
                    "Item in PO but not invoiced") <$> items) as Hpo.
  { apply omap_all_Some. intros p. unfold po_entry.
    rewrite decide_False; [done|]. simpl. apply not_elem_of_nil. }
  assert (matched_items (compare_line_items [] items) + 0 = 0) as H1
    by exact (compare_line_items_matched [] items).
  pose proof (compare_line_items_matched items []) as H2.
  pose proof (compare_line_items_mismatches [] items) as M1.
  pose proof (compare_line_items_mismatches items []) as M2.
  rewrite Hinv in H2, M2. rewrite length_fmap in H2.
  rewrite Hpo in M1. rewrite app_nil_r in M2.
  split_and!; [exact M1|lia|exact M2|lia].
Qed.

(** ** Item codes that occur twice in the purchase order *)

Lemma po_items_lookup_app (a b : list LineItem) (c : string) :
  po_items_lookup (a ++ b) !! c
  = match po_items_lookup b !! c with
    | Some p => Some p
    | None => po_items_lookup a !! c
    end.
Proof.
  induction b as [|q b IH] using rev_ind.
  - by rewrite app_nil_r.
  - rewrite app_assoc, !po_items_lookup_snoc, !lookup_insert.
    case_decide; [done|]. apply IH.
Qed.

Lemma po_items_lookup_shadowed (before after : list LineItem) (q : LineItem) :
  item_code q ∈ item_code <$> after →
  po_items_lookup (before ++ q :: after) = po_items_lookup (before ++ after).
Proof.
  intros Hq. apply map_eq. intros c.
  rewrite (po_items_lookup_app before (q :: after)),
    (po_items_lookup_app before after).
  change (q :: after) with ([q] ++ after). rewrite (po_items_lookup_app [q] after).
  destruct (po_items_lookup after !! c) as [p|] eqn:E; [done|].
  apply po_items_lookup_None in E.
  assert (c ≠ item_code q) as Hne by (intros ->; done).
  unfold po_items_lookup at 1. simpl. by rewrite lookup_insert_ne.
Qed.

(** X4. Of the purchase-order items that share a code only the last one is
    compared: an item followed by another item of the same code can be
    removed from the purchase order without changing the lookup table, the
    matched count or, when its code is invoiced, the mismatch list. *)
Theorem shadowed_po_item_ignored (invoice_items before after : list LineItem)
    (q : LineItem) :
  item_code q ∈ item_code <$> after →
  po_items_lookup (before ++ q :: after) = po_items_lookup (before ++ after)
  ∧ matched_items (compare_line_items invoice_items (before ++ q :: after))
    = matched_items (compare_line_items invoice_items (before ++ after))
  ∧ (item_code q ∈ item_code <$> invoice_items →
     mismatches (compare_line_items invoice_items (before ++ q :: after))
     = mismatches (compare_line_items invoice_items (before ++ after))).
Proof.
  intros Hq. pose proof (po_items_lookup_shadowed before after q Hq) as Hlk.
  split; [done|]. split.
  - pose proof (compare_line_items_matched invoice_items (before ++ q :: after)).
    pose proof (compare_line_items_matched invoice_items (before ++ after)).
    rewrite Hlk in *. lia.
  - intros Hinv. rewrite !compare_line_items_mismatches, Hlk. f_equal.
    rewrite !omap_app. f_equal. cbn [omap list_omap].
    unfold po_entry at 1. by rewrite decide_True.
Qed.

Lemma shadowed_po_item_ignored_witness :
  item_code (mkLineItem "IT-001" "Laptop" 1 100 100)
    ∈ item_code <$> [mkLineItem "IT-001" "Laptop" 2 100 200]
  ∧ po_items_lookup ([] ++ mkLineItem "IT-001" "Laptop" 1 100 100
                        :: [mkLineItem "IT-001" "Laptop" 2 100 200])
    = po_items_lookup ([] ++ [mkLineItem "IT-001" "Laptop" 2 100 200]).
Proof.
  assert (item_code (mkLineItem "IT-001" "Laptop" 1 100 100)
            ∈ item_code <$> [mkLineItem "IT-001" "Laptop" 2 100 200])
    as H by (apply list_elem_of_fmap; eexists; split; [|apply list_elem_of_here]; reflexivity).
  split; [exact H|].
  exact (proj1 (shadowed_po_item_ignored [] [] _ _ H)).
Defined.

(** ** compare_invoice_with_po: which keys a result has *)

(** X6. compare_invoice_with_po either returns a result or raises TypeError,
    and it raises exactly on an invoice whose purchase order is found and
    one of whose six amounts is null.  In a result the status is ERROR
    exactly when the invoice has no usable reference or the reference is the
    number of no purchase order; the ['error'] key is there exactly on those
    results and the comparison keys ([header_issues], [line_item_comparison],
    [total_issues], the two totals) exactly on the others; the invoice number
    is always carried over. *)
Theorem result_keys (lookup : gmap string PurchaseOrder.t) (invoice : Invoice.t) :
  match compare_invoice_with_po lookup invoice with
  | Ok c =>
      invoice_number c = Invoice.invoice_number invoice
      ∧ (status c = ERROR ↔ resolve lookup invoice = None)
      ∧ (is_Some (error c) ↔ status c = ERROR)
      ∧ (details c = None ↔ status c = ERROR)
      ∧ (po_reference c = None
         ↔ truthy_reference (Invoice.po_reference invoice) = None)
      ∧ (∀ po, resolve lookup invoice = Some po → ¬ null_amount invoice po)
  | Raise e =>
      e = TypeError
      ∧ ∃ po, resolve lookup invoice = Some po ∧ null_amount invoice po
  end.
Proof.
  destruct (compare_cases lookup invoice)
    as [(Hres & H)|[(ref & po & _ & _ & Hres & Hn & H)
                   |(ref & po & ds & dt & da & Href & Hpo & Hres & Hn & Hg & H)]];
    rewrite H.
  - unfold unresolved_result.
    cbn [invoice_number status error details po_reference].
    rewrite Hres.
    split_and!; try done; try (split; [done|by eexists]).
  - split; [done|]. by exists po.
  - pose proof (resolved_status invoice ref po (ds, dt, da)) as Hst.
    unfold resolved_result in *.
    cbn [invoice_number status error details po_reference] in *.
    rewrite Hres, Href.
    split_and!; try done; try (split; try done; by intros []).
    intros po' [= <-]. done.
Qed.

(** ** compare_invoice_with_po: when the status is MATCH *)

Lemma header_list_nil (invoice : Invoice.t) (po : PurchaseOrder.t)
    (ds dt da : float) :
  header_list invoice po (ds, dt, da) = [] ↔
  Invoice.vendor_name invoice = PurchaseOrder.vendor_name po
  ∧ Invoice.vendor_id invoice = PurchaseOrder.vendor_id po
  ∧ Invoice.currency invoice = PurchaseOrder.currency po
  ∧ gtb (abs ds) tolerance = false
  ∧ gtb (abs dt) tolerance = false
  ∧ gtb (abs da) tolerance = false.
Proof.
  unfold header_list, text_issues, amount_issues.
  repeat case_bool_decide;
    destruct (gtb (abs ds) tolerance), (gtb (abs dt) tolerance),
             (gtb (abs da) tolerance);
    simpl;
    repeat match goal with H : ¬ (_ ≠ _) |- _ => apply dec_stable in H end;
    naive_solver.
Qed.

(** X7. For an invoice whose purchase order is found and none of whose six
    amounts is null, the comparison returns, and the status is MATCH exactly
    when vendor name, vendor id and currency are equal, none of the three
    tests [abs(invoice.get(k, 0) - po.get(k, 0)) > 0.01] (on subtotal, tax
    and total_amount, as the floats compute them) holds, and the line-item
    comparison reports no mismatch; it is MISMATCH otherwise. *)
Theorem match_iff (lookup : gmap string PurchaseOrder.t)
    (invoice : Invoice.t) (ref : string) (po : PurchaseOrder.t) :
  truthy_reference (Invoice.po_reference invoice) = Some ref →
  lookup !! ref = Some po →
  ¬ null_amount invoice po →
  ∃ c s s' t t' a a',
    compare_invoice_with_po lookup invoice = Ok c
    ∧ get_or_zero (Invoice.subtotal invoice) = Some s
    ∧ get_or_zero (PurchaseOrder.subtotal po) = Some s'
    ∧ get_or_zero (Invoice.tax invoice) = Some t
    ∧ get_or_zero (PurchaseOrder.tax po) = Some t'
    ∧ get_or_zero (Invoice.total_amount invoice) = Some a
    ∧ get_or_zero (PurchaseOrder.total_amount po) = Some a'
    ∧ (status c = MATCH
       ↔ Invoice.vendor_name invoice = PurchaseOrder.vendor_name po
         ∧ Invoice.vendor_id invoice = PurchaseOrder.vendor_id po
         ∧ Invoice.currency invoice = PurchaseOrder.currency po
         ∧ (0.01 <? abs (s - s'))%float = false
         ∧ (0.01 <? abs (t - t'))%float = false
         ∧ (0.01 <? abs (a - a'))%float = false
         ∧ mismatches (compare_line_items
                         (default [] (Invoice.line_items invoice))
                         (default [] (PurchaseOrder.line_items po))) = [])
    ∧ (status c ≠ MATCH → status c = MISMATCH).
Proof.
  intros Href Hpo Hnull.
  destruct (compare_resolved_Ok _ _ _ _ Href Hpo Hnull)
    as (ds & dt & da & Hg & Hc).
  pose proof (header_list_nil invoice po ds dt da) as Hh.
  apply gaps_inv in Hg as (Hs & Ht & Ha).
  apply gap_of_Some in Hs as (s & s' & Hs & Hs' & ->).
  apply gap_of_Some in Ht as (t & t' & Ht & Ht' & ->).
  apply gap_of_Some in Ha as (a & a' & Ha & Ha' & ->).
  eexists _, s, s', t, t', a, a'. split; [exact Hc|].
  split_and!; try done.
  - unfold resolved_result. cbn [status].
    pose proof (compare_line_items_has_issues
      (default [] (Invoice.line_items invoice))
      (default [] (PurchaseOrder.line_items po))) as Hl.
    unfold gtb, tolerance in Hh.
    set (lic := compare_line_items _ _) in *.
    destruct (header_list invoice po _) as [|x xs] eqn:E; simpl.
    + destruct (has_line_item_issues lic) eqn:Hb.
      * split; [done|].
        intros (_ & _ & _ & _ & _ & _ & Hm). exfalso. by apply Hl.
      * split; [intros _|done].
        destruct Hh as [Hh _]. destruct (Hh eq_refl) as (? & ? & ? & ? & ? & ?).
        split_and!; try done.
        destruct (mismatches lic); [done|]. exfalso.
        assert (false = true) as F by (by apply Hl). done.
    + split; [done|].
      intros (? & ? & ? & ? & ? & ? & _).
      assert (x :: xs = []) as F; [|done]. by apply Hh.
  - unfold resolved_result. cbn [status]. by destruct (_ || _).
Qed.

Lemma match_iff_witness :
  truthy_reference (Invoice.po_reference sample_invoice_match)
  = Some "PO-2024-00002"
  ∧ po_lookup [sample_po] !! "PO-2024-00002" = Some sample_po
  ∧ ¬ null_amount sample_invoice_match sample_po
  ∧ ∃ c, compare_invoice_with_po (po_lookup [sample_po]) sample_invoice_match
         = Ok c
         ∧ (status c ≠ MATCH → status c = MISMATCH).
Proof.
  split; [reflexivity|]. split; [reflexivity|].
  split; [exact sample_match_not_null|].
  destruct (match_iff (po_lookup [sample_po]) sample_invoice_match
              "PO-2024-00002" sample_po eq_refl eq_refl sample_match_not_null)
    as (c & s & s' & t & t' & a & a' & Hc & _ & _ & _ & _ & _ & _ & _ & Hm).
  exists c. split; [exact Hc | exact Hm].
Defined.

(** X8. For an invoice whose purchase order is found and none of whose six
    amounts is null there are at most six header issues, no two on the same
    field, and total_issues is at most six plus the number of invoice items
    plus the number of order items. *)
Theorem issue_bounds (lookup : gmap string PurchaseOrder.t)
    (invoice : Invoice.t) (ref : string) (po : PurchaseOrder.t) :
  truthy_reference (Invoice.po_reference invoice) = Some ref →
  lookup !! ref = Some po →
  ¬ null_amount invoice po →
  ∃ c d, compare_invoice_with_po lookup invoice = Ok c
  ∧ details c = Some d
  ∧ length (header_issues d) ≤ 6
  ∧ NoDup (field <$> header_issues d)
  ∧ total_issues d
    ≤ 6 + length (default [] (Invoice.line_items invoice))
      + length (default [] (PurchaseOrder.line_items po)).
Proof.
  intros Href Hpo Hnull.
  destruct (compare_resolved_Ok _ _ _ _ Href Hpo Hnull)
    as (ds & dt & da & Hg & Hc).
  eexists _, _. split; [exact Hc|]. split; [reflexivity|].
  cbn [header_issues total_issues line_item_comparison].
  pose proof (header_list_sublist invoice po ds dt da) as Hsub.
  pose proof (sublist_length _ _ Hsub) as Hlen. simpl in Hlen.
  split_and!; [done| |].
  - eapply sublist_NoDup; [|apply (fmap_sublist field _ _ Hsub)].
    simpl. apply (bool_decide_unpack _). vm_compute. exact I.
  - rewrite compare_line_items_mismatches, length_app.
    pose proof (omap_length_le
      (invoice_entry (po_items_lookup (default [] (PurchaseOrder.line_items po))))
      (default [] (Invoice.line_items invoice))).
    pose proof (omap_length_le
      (po_entry (default [] (Invoice.line_items invoice)))
      (default [] (PurchaseOrder.line_items po))).
    lia.
Qed.

Lemma issue_bounds_witness :
  truthy_reference (Invoice.po_reference sample_invoice_mismatch)
  = Some "PO-2024-00002"
  ∧ po_lookup [sample_po] !! "PO-2024-00002" = Some sample_po
  ∧ ¬ null_amount sample_invoice_mismatch sample_po
  ∧ ∃ c d, compare_invoice_with_po (po_lookup [sample_po])
             sample_invoice_mismatch = Ok c
         ∧ details c = Some d
         ∧ length (header_issues d) ≤ 6.
Proof.
  split; [reflexivity|]. split; [reflexivity|]. split; [exact sample_not_null|].
  destruct (issue_bounds (po_lookup [sample_po]) sample_invoice_mismatch
              "PO-2024-00002" sample_po eq_refl eq_refl sample_not_null)
    as (c & d & Hc & Hd & Hlen & _).
  exists c, d. split; [exact Hc|]. split; [exact Hd | exact Hlen].
Defined.

(** ** load_data: the index of purchase orders *)

Lemma po_lookup_app (a b : list PurchaseOrder.t) (n : string) :
  po_lookup (a ++ b) !! n
  = match po_lookup b !! n with
    | Some po => Some po
    | None => po_lookup a !! n
    end.
Proof.
  induction b as [|q b IH] using rev_ind.
  - by rewrite app_nil_r.
  - rewrite app_assoc, !po_lookup_snoc, !lookup_insert.
    case_decide; [done|]. apply IH.
Qed.

Lemma po_lookup_number (pos : list PurchaseOrder.t) (n : string)
    (po : PurchaseOrder.t) :
  po_lookup pos !! n = Some po → PurchaseOrder.po_number po = n.
Proof.
  induction pos as [|q pos IH] using rev_ind; [done|].
  rewrite po_lookup_snoc, lookup_insert.
  case_decide; [by intros [= <-] | done].
Qed.

(** X9. The index built by load_data answers a number with a loaded order
    of that number, and with nothing exactly when no loaded order has it;
    of two orders with the same number the later one is kept; when the
    numbers are pairwise distinct every loaded order is found under its
    number. *)
Theorem po_index (purchase_orders : list PurchaseOrder.t) :
  (∀ n po, po_lookup purchase_orders !! n = Some po →
     po ∈ purchase_orders ∧ PurchaseOrder.po_number po = n)
  ∧ (∀ n, po_lookup purchase_orders !! n = None
          ↔ n ∉ PurchaseOrder.po_number <$> purchase_orders)
  ∧ (∀ before po after,
       purchase_orders = before ++ po :: after →
       PurchaseOrder.po_number po ∉ PurchaseOrder.po_number <$> after →
       po_lookup purchase_orders !! PurchaseOrder.po_number po = Some po)
  ∧ (NoDup (PurchaseOrder.po_number <$> purchase_orders) →
     ∀ po, po ∈ purchase_orders →
       po_lookup purchase_orders !! PurchaseOrder.po_number po = Some po).
Proof.
  assert (∀ before po after,
    purchase_orders = before ++ po :: after →
    PurchaseOrder.po_number po ∉ PurchaseOrder.po_number <$> after →
    po_lookup purchase_orders !! PurchaseOrder.po_number po = Some po) as Hlast.
  { intros before po after -> Hno.
    rewrite (po_lookup_app before (po :: after)).
    change (po :: after) with ([po] ++ after).
    rewrite (po_lookup_app [po] after).
    rewrite (proj2 (po_lookup_None after _) Hno).
    unfold po_lookup at 1. simpl. by rewrite lookup_insert_eq. }
  split_and!.
  - intros n po H. split; [by eapply po_lookup_Some | by eapply po_lookup_number].
  - apply po_lookup_None.
  - exact Hlast.
  - intros Hnd po (before & after & ->)%list_elem_of_split.
    apply (Hlast before po after eq_refl).
    rewrite fmap_app, fmap_cons in Hnd.
    apply NoDup_app in Hnd as (_ & _ & Hnd). by apply NoDup_cons in Hnd as [? _].
Qed.


(** ** find_all_mismatches: when it raises *)

Lemma contributes_or_stops (lookup : gmap string PurchaseOrder.t)
    (invoice : Invoice.t) :
  (∃ v, contributes lookup invoice v) ∨ stops lookup invoice.
Proof.
  unfold contributes, stops.
  destruct (compare_cases lookup invoice)
    as [(Hres & H)|[(ref & po & _ & _ & Hres & Hn & H)
                   |(ref & po & ds & dt & da & _ & _ & Hres & Hn & _ & H)]].
  - left. exists 0%float. eexists. split; [exact H|]. done.
  - right. exists po. split; [done|]. by left.
  - rewrite H.
    destruct (status (resolved_result invoice ref po (ds, dt, da))) eqn:Hst.
    + left. exists 0%float. eexists. split; [done|]. by rewrite Hst.
    + unfold null_amount in Hn.
      destruct (Invoice.total_amount invoice) as [| |a] eqn:Ha.
      * right. exists po. split; [done|]. right. split; [|by left]. eauto.
      * exfalso. apply Hn. auto 10.
      * destruct (PurchaseOrder.total_amount po) as [| |b] eqn:Hb.
        -- right. exists po. split; [done|]. right. split; [|by right]. eauto.
        -- exfalso. apply Hn. auto 10.
        -- left. exists (abs (a - b)). eexists. split; [done|]. rewrite Hst.
           by exists po, a, b.
    + left. exists 0%float. eexists. split; [done|]. by rewrite Hst.
Qed.

Lemma contributes_not_stops (lookup : gmap string PurchaseOrder.t)
    (invoice : Invoice.t) (v : float) :
  contributes lookup invoice v → ¬ stops lookup invoice.
Proof.
  intros (c & Hc & Hv) (po & Hres & [Hn|[(c' & Hc' & Hst) Hno]]).
  - destruct (compared_inv _ _ _ Hc)
      as [(Hnone & _)|(ref & po' & ds & dt & da & _ & _ & Hres' & Hn' & _)];
      [congruence|].
    assert (po' = po) as -> by congruence. done.
  - assert (c' = c) as -> by congruence. rewrite Hst in Hv.
    destruct Hv as (po' & a & b & Hres' & Ha & Hb & _).
    assert (po' = po) as -> by congruence.
    destruct Hno; congruence.
Qed.

Lemma aggregate_step_raises (lookup : gmap string PurchaseOrder.t)
    (r0 : Results) (invoice : Invoice.t) (e : exn) :
  aggregate_step lookup r0 invoice = Raise e → e = TypeError.
Proof.
  unfold aggregate_step.
  destruct (compare_invoice_with_po lookup invoice) as [c|e'] eqn:Hc;
    cbn [bind].
  - destruct (status c); [done| |done].
    destruct (details c) as [d|]; cbn [bind].
    + unfold amount_variance, subtract.
      destruct (invoice_total d), (po_total d); cbn [bind];
        try (by intros [= <-]); by destruct (foldl severity_step _ _).
    + by destruct (foldl severity_step _ _).
  - intros [= <-]. by apply compare_raises in Hc as [-> _].
Qed.

Lemma aggregate_raises (lookup : gmap string PurchaseOrder.t)
    (invoices : list Invoice.t) (r0 : Results) (e : exn) :
  aggregate lookup r0 invoices = Raise e → e = TypeError.
Proof.
  revert r0. induction invoices as [|invoice invoices IH]; intros r0; [done|].
  cbn [aggregate].
  destruct (aggregate_step lookup r0 invoice) as [r1|e'] eqn:Hstep; cbn [bind].
  - apply IH.
  - intros [= <-]. by eapply aggregate_step_raises.
Qed.

Lemma Forall2_contributes_exists (lookup : gmap string PurchaseOrder.t)
    (invoices : list Invoice.t) :
  Forall (λ invoice, ¬ stops lookup invoice) invoices →
  ∃ vs, Forall2 (contributes lookup) invoices vs.
Proof.
  induction 1 as [|invoice invoices Hi _ [vs IH]]; [by exists []|].
  destruct (contributes_or_stops lookup invoice) as [[v Hv]|?]; [|done].
  exists (v :: vs). by constructor.
Qed.

Lemma contributes_or_exists_stops (lookup : gmap string PurchaseOrder.t)
    (invoices : list Invoice.t) :
  (∃ vs, Forall2 (contributes lookup) invoices vs)
  ∨ Exists (stops lookup) invoices.
Proof.
  induction invoices as [|invoice invoices [[vs IH]|IH]].
  - left. by exists [].
  - destruct (contributes_or_stops lookup invoice) as [[v Hv]|Hl].
    + left. exists (v :: vs). by constructor.
    + right. by constructor.
  - right. by apply Exists_cons_tl.
Qed.

Lemma find_all_returns_iff (invoices : list Invoice.t)
    (purchase_orders : list PurchaseOrder.t) :
  (∃ r, find_all_mismatches invoices purchase_orders = Ok r)
  ↔ Forall (λ invoice, ¬ stops (po_lookup purchase_orders) invoice) invoices.
Proof.
  split.
  - intros [r Hr]. apply find_all_mismatches_inv in Hr
      as (_ & _ & _ & _ & _ & _ & _ & _ & _ & _ & vs & Hvs & _).
    induction Hvs as [|invoice v invoices vs Hv _ IH];
      constructor; [by eapply contributes_not_stops | done].
  - intros Hall. apply Forall2_contributes_exists in Hall as [vs Hvs].
    by eapply aggregate_total.
Qed.

(** X10. find_all_mismatches returns exactly when no invoice stops it: an
    invoice stops the run when its purchase order is found and either one of
    the six amounts of the pair is null, or the invoice is classified
    MISMATCH and its total_amount key, or the order's, is absent.  In every
    other case the run raises TypeError, and it raises nothing else. *)
Theorem aggregation_raises_iff (invoices : list Invoice.t)
    (purchase_orders : list PurchaseOrder.t) :
  let lookup := po_lookup purchase_orders in
  ((∃ r, find_all_mismatches invoices purchase_orders = Ok r)
   ↔ Forall (λ invoice, ¬ stops lookup invoice) invoices)
  ∧ (find_all_mismatches invoices purchase_orders = Raise TypeError
     ↔ Exists (stops lookup) invoices)
  ∧ (∀ e, find_all_mismatches invoices purchase_orders = Raise e →
          e = TypeError).
Proof.
  intros lookup.
  pose proof (find_all_returns_iff invoices purchase_orders) as Hok.
  fold lookup in Hok.
  assert (∀ e, find_all_mismatches invoices purchase_orders = Raise e →
            e = TypeError) as Hexn by (intros e; apply aggregate_raises).
  split_and!; [done| |done]. split.
  - intros Hraise.
    destruct (contributes_or_exists_stops lookup invoices) as [[vs Hvs]|Hex];
      [|done].
    destruct (aggregate_total lookup invoices vs (initial_results invoices) Hvs)
      as [r Hr].
    unfold find_all_mismatches in Hraise. fold lookup in Hraise. congruence.
  - intros Hex.
    destruct (find_all_mismatches invoices purchase_orders) as [r|e] eqn:E.
    + exfalso. assert (Forall (λ invoice, ¬ stops lookup invoice) invoices)
        as Hall by (apply Hok; eauto).
      rewrite Forall_forall in Hall. apply Exists_exists in Hex as (x & Hx & Hl).
      by apply (Hall x).
    + f_equal. by apply Hexn.
Qed.

(** ** find_all_mismatches in closed form *)

Lemma count_severity_app (s : Severity) (l1 l2 : list Issue) :
  count_severity s (l1 ++ l2) = count_severity s l1 + count_severity s l2.
Proof. unfold count_severity. by rewrite filter_app, length_app. Qed.

Lemma find_all_closed (invoices : list Invoice.t)
    (purchase_orders : list PurchaseOrder.t) (r : Results) :
  find_all_mismatches invoices purchase_orders = Ok r →
  let lookup := po_lookup purchase_orders in
  ∃ cs vs,
    Forall2 (compared lookup) invoices cs
    ∧ Forall2 (contributes lookup) invoices vs
    ∧ total_invoices r = length invoices
    ∧ matched r = with_status MATCH cs
    ∧ mismatched r = with_status MISMATCH cs
    ∧ errors r = with_status ERROR cs
    ∧ total_matched (summary r) = length (with_status MATCH cs)
    ∧ total_mismatched (summary r) = length (with_status MISMATCH cs)
    ∧ total_errors (summary r) = length (with_status ERROR cs)
    ∧ high_severity_issues (summary r)
      = count_severity HIGH (cs ≫= counted_issues)
    ∧ medium_severity_issues (summary r)
      = count_severity MEDIUM (cs ≫= counted_issues)
    ∧ total_amount_variance (summary r) = fsum vs.
Proof.
  intros H lookup. apply find_all_mismatches_inv in H
    as (cs & Hcs & Ht & Hm & Hmm & He & Hnm & Hnmm & Hne & Hsev & vs & Hvs & Hvar).
  rewrite severity_loop in Hsev. injection Hsev as Hh Hmed.
  exists cs, vs. split_and!; done.
Qed.

Lemma Forall2_contributes_not_negative (lookup : gmap string PurchaseOrder.t)
    (invoices : list Invoice.t) (vs : list float) :
  Forall2 (contributes lookup) invoices vs → Forall not_negative vs.
Proof.
  induction 1 as [|invoice v invoices vs Hv _ IH]; constructor; [|done].
  by eapply contributes_not_negative.
Qed.

Lemma contributes_zero (lookup : gmap string PurchaseOrder.t)
    (invoices : list Invoice.t) (cs : list Comparison) (vs : list float) :
  Forall2 (compared lookup) invoices cs →
  Forall2 (contributes lookup) invoices vs →
  with_status MISMATCH cs = [] →
  Forall (λ x, x = 0%float) vs.
Proof.
  intros Hcs. revert vs.
  induction Hcs as [|invoice c invoices cs Hc _ IH]; intros vs Hvs Hnil.
  - apply Forall2_nil_inv_l in Hvs as ->. constructor.
  - apply Forall2_cons_inv_l in Hvs as (v & vs' & Hv & Hvs & ->).
    rewrite with_status_cons in Hnil. apply app_eq_nil in Hnil as [Hc' Hnil].
    constructor; [|by apply IH].
    destruct Hv as (c' & Hc'' & Hv).
    assert (c' = c) as -> by (unfold compared in Hc; congruence).
    unfold with_status in Hc'. rewrite filter_cons in Hc'.
    destruct (status c); [done| |done]. by rewrite decide_True in Hc'.
Qed.

(** X11. The total amount variance is never negative: it is not below 0,
    and unless it is NaN it is at least 0.  A run in which no invoice is
    classified MISMATCH reports the variance 0.0 and no severity issue. *)
Theorem variance_nonneg (invoices : list Invoice.t)
    (purchase_orders : list PurchaseOrder.t) (r : Results) :
  find_all_mismatches invoices purchase_orders = Ok r →
  (total_amount_variance (summary r) <? 0)%float = false
  ∧ (is_nan (total_amount_variance (summary r)) = false →
     (0 <=? total_amount_variance (summary r))%float = true)
  ∧ (mismatched r = [] →
     total_amount_variance (summary r) = 0%float
     ∧ high_severity_issues (summary r) = 0
     ∧ medium_severity_issues (summary r) = 0).
Proof.
  intros H. apply find_all_closed in H
    as (cs & vs & Hcs & Hvs & _ & _ & Hmm & _ & _ & _ & _ & Hh & Hmed & Hvar).
  assert (not_negative (total_amount_variance (summary r))) as Hnn.
  { rewrite Hvar. apply foldl_add_not_negative; [exact not_negative_zero|].
    by eapply Forall2_contributes_not_negative. }
  split_and!.
  - by apply not_negative_ltb.
  - by apply not_negative_leb.
  - intros Hnil. rewrite Hnil in Hmm.
    rewrite counted_issues_bind, <- Hmm in Hh, Hmed. split_and!; [|done|done].
    rewrite Hvar. apply foldl_add_zeros; [exact not_negative_zero|].
    by eapply contributes_zero.
Qed.

Lemma variance_nonneg_witness :
  find_all_mismatches sample_invoices [sample_po] = Ok sample_results
  ∧ (total_amount_variance (summary sample_results) <? 0)%float = false.
Proof.
  assert (find_all_mismatches sample_invoices [sample_po] = Ok sample_results)
    as H by (vm_compute; reflexivity).
  split; [exact H|].
  exact (proj1 (variance_nonneg sample_invoices [sample_po] sample_results H)).
Defined.

(** ** find_all_mismatches: how runs compose *)

Lemma with_status_perm (st : Status) (l1 l2 : list Comparison) :
  l1 ≡ₚ l2 → with_status st l1 ≡ₚ with_status st l2.
Proof. intros H. unfold with_status. by rewrite H. Qed.

Lemma count_severity_perm (s : Severity) (l1 l2 : list Issue) :
  l1 ≡ₚ l2 → count_severity s l1 = count_severity s l2.
Proof. intros H. unfold count_severity. by rewrite H. Qed.

Lemma Forall2_Permutation_l {A B} (P : A → B → Prop) (l l' : list A)
    (k : list B) :
  l ≡ₚ l' → Forall2 P l k → ∃ k', k ≡ₚ k' ∧ Forall2 P l' k'.
Proof.
  intros Hp. revert k.
  induction Hp as [|x l l' _ IH|x y l|l1 l2 l3 _ IH1 _ IH2]; intros k H.
  - apply Forall2_nil_inv_l in H as ->. by exists [].
  - apply Forall2_cons_inv_l in H as (b & k' & Hb & H & ->).
    destruct (IH _ H) as (k'' & Hk & H'). exists (b :: k'').
    split; [by constructor | by constructor].
  - apply Forall2_cons_inv_l in H as (b & k' & Hb & H & ->).
    apply Forall2_cons_inv_l in H as (b' & k'' & Hb' & H & ->).
    exists (b' :: b :: k''). split; [apply perm_swap|].
    by repeat constructor.
  - destruct (IH1 _ H) as (k2 & Hk2 & H2).
    destruct (IH2 _ H2) as (k3 & Hk3 & H3).
    exists k3. split; [by etrans | done].
Qed.

(** X12. A run over the concatenation of two invoice lists returns exactly
    when the two separate runs (against the same purchase orders) return,
    and then its three lists are the concatenations of theirs and each of
    its integer counters is the sum of theirs.  The variance is the first
    run's variance to which the terms of the second list are added one by
    one, in order; float addition not being associative, it need not be the
    float sum of the two variances. *)
Theorem aggregation_app (invoices1 invoices2 : list Invoice.t)
    (purchase_orders : list PurchaseOrder.t) :
  ((∃ r, find_all_mismatches (invoices1 ++ invoices2) purchase_orders = Ok r)
   ↔ (∃ r1, find_all_mismatches invoices1 purchase_orders = Ok r1)
     ∧ (∃ r2, find_all_mismatches invoices2 purchase_orders = Ok r2))
  ∧ ∀ r r1 r2,
      find_all_mismatches (invoices1 ++ invoices2) purchase_orders = Ok r →
      find_all_mismatches invoices1 purchase_orders = Ok r1 →
      find_all_mismatches invoices2 purchase_orders = Ok r2 →
      total_invoices r = total_invoices r1 + total_invoices r2
      ∧ matched r = matched r1 ++ matched r2
      ∧ mismatched r = mismatched r1 ++ mismatched r2
      ∧ errors r = errors r1 ++ errors r2
      ∧ total_matched (summary r)
        = total_matched (summary r1) + total_matched (summary r2)
      ∧ total_mismatched (summary r)
        = total_mismatched (summary r1) + total_mismatched (summary r2)
      ∧ total_errors (summary r)
        = total_errors (summary r1) + total_errors (summary r2)
      ∧ high_severity_issues (summary r)
        = high_severity_issues (summary r1) + high_severity_issues (summary r2)
      ∧ medium_severity_issues (summary r)
        = medium_severity_issues (summary r1)
          + medium_severity_issues (summary r2)
      ∧ ∃ terms2,
          Forall2 (contributes (po_lookup purchase_orders)) invoices2 terms2
          ∧ total_amount_variance (summary r2) = fsum terms2
          ∧ total_amount_variance (summary r)
            = foldl PrimFloat.add (total_amount_variance (summary r1)) terms2.
Proof.
  split.
  - rewrite !find_all_returns_iff. apply Forall_app.
  - intros r r1 r2 H H1 H2.
    apply find_all_closed in H
      as (cs & vs & Hcs & Hvs & Ht & Hm & Hmm & He & Hnm & Hnmm & Hne & Hh
          & Hmed & Hvar).
    apply find_all_closed in H1
      as (cs1 & vs1 & Hcs1 & Hvs1 & Ht1 & Hm1 & Hmm1 & He1 & Hnm1 & Hnmm1
          & Hne1 & Hh1 & Hmed1 & Hvar1).
    apply find_all_closed in H2
      as (cs2 & vs2 & Hcs2 & Hvs2 & Ht2 & Hm2 & Hmm2 & He2 & Hnm2 & Hnmm2
          & Hne2 & Hh2 & Hmed2 & Hvar2).
    assert (cs = cs1 ++ cs2) as ->.
    { eapply Forall2_compared_eq; [exact Hcs|]. by apply Forall2_app. }
    assert (vs = vs1 ++ vs2) as ->.
    { eapply Forall2_contributes_eq; [exact Hvs|]. by apply Forall2_app. }
    rewrite with_status_app in Hm. rewrite with_status_app in Hmm.
    rewrite with_status_app in He. rewrite with_status_app, length_app in Hnm.
    rewrite with_status_app, length_app in Hnmm.
    rewrite with_status_app, length_app in Hne.
    rewrite length_app in Ht.
    rewrite bind_app, count_severity_app in Hh.
    rewrite bind_app, count_severity_app in Hmed.
    split_and!; try congruence; try lia.
    exists vs2. split; [done|]. split; [done|].
    rewrite Hvar, Hvar1. unfold fsum. by rewrite foldl_app.
Qed.

(** X13. Reordering the invoices changes no integer counter: if a run
    returns, the run over any permutation of the invoices returns as well,
    with the same total_invoices, the same three counts, the same two
    severity counts, and the same results in each list up to order.  (The
    variance, a float sum taken in invoice order, can change.) *)
Theorem aggregation_perm (invoices invoices' : list Invoice.t)
    (purchase_orders : list PurchaseOrder.t) (r : Results) :
  invoices ≡ₚ invoices' →
  find_all_mismatches invoices purchase_orders = Ok r →
  ∃ r', find_all_mismatches invoices' purchase_orders = Ok r'
        ∧ total_invoices r' = total_invoices r
        ∧ matched r' ≡ₚ matched r
        ∧ mismatched r' ≡ₚ mismatched r
        ∧ errors r' ≡ₚ errors r
        ∧ total_matched (summary r') = total_matched (summary r)
        ∧ total_mismatched (summary r') = total_mismatched (summary r)
        ∧ total_errors (summary r') = total_errors (summary r)
        ∧ high_severity_issues (summary r') = high_severity_issues (summary r)
        ∧ medium_severity_issues (summary r')
          = medium_severity_issues (summary r).
Proof.
  intros Hperm H.
  assert (∃ r', find_all_mismatches invoices' purchase_orders = Ok r')
    as [r' H'].
  { apply find_all_returns_iff. rewrite <- Hperm.
    apply find_all_returns_iff. eauto. }
  exists r'. split; [done|].
  apply find_all_closed in H
    as (cs & vs & Hcs & _ & Ht & Hm & Hmm & He & Hnm & Hnmm & Hne & Hh & Hmed & _).
  apply find_all_closed in H'
    as (cs' & vs' & Hcs' & _ & Ht' & Hm' & Hmm' & He' & Hnm' & Hnmm' & Hne'
        & Hh' & Hmed' & _).
  destruct (Forall2_Permutation_l _ _ _ _ Hperm Hcs) as (cs'' & Hp & Hcs'').
  assert (cs' = cs'') as -> by by eapply Forall2_compared_eq.
  rewrite Ht, Ht', Hm, Hm', Hmm, Hmm', He, He', Hnm, Hnm', Hnmm, Hnmm',
    Hne, Hne', Hh, Hh', Hmed, Hmed'.
  split_and!.
  - by rewrite Hperm.
  - by apply with_status_perm.
  - by apply with_status_perm.
  - by apply with_status_perm.
  - by rewrite (with_status_perm _ _ _ Hp).
  - by rewrite (with_status_perm _ _ _ Hp).
  - by rewrite (with_status_perm _ _ _ Hp).
  - apply count_severity_perm. by rewrite Hp.
  - apply count_severity_perm. by rewrite Hp.
Qed.

Lemma aggregation_perm_witness :
  sample_invoices ≡ₚ reverse sample_invoices
  ∧ find_all_mismatches sample_invoices [sample_po] = Ok sample_results
  ∧ ∃ r', find_all_mismatches (reverse sample_invoices) [sample_po] = Ok r'
          ∧ total_mismatched (summary r')
            = total_mismatched (summary sample_results).
Proof.
  assert (sample_invoices ≡ₚ reverse sample_invoices) as Hp
    by apply Permutation_rev.
  assert (find_all_mismatches sample_invoices [sample_po] = Ok sample_results)
    as H by (vm_compute; reflexivity).
  destruct (aggregation_perm _ _ [sample_po] sample_results Hp H)
    as (r' & Hr' & _ & _ & _ & _ & _ & Hmm & _).
  split; [exact Hp|]. split; [exact H|]. exists r'. split; [exact Hr' | exact Hmm].
Defined.

(** The variance depends on the order of the invoices: three mismatched
    invoices with the variances 0.1, 0.2 and 0.3 give 0.6000000000000001 in
    this order and 0.6 in the reverse order. *)
Example variance_depends_on_order :
  (total_amount_variance ∘ summary <$>
     match find_all_mismatches tenth_invoices tenth_orders with
     | Ok r => Some r | Raise _ => None end)
  = Some 0.6000000000000001%float
  ∧ (total_amount_variance ∘ summary <$>
       match find_all_mismatches (reverse tenth_invoices) tenth_orders with
       | Ok r => Some r | Raise _ => None end)
    = Some 0.6%float
  ∧ (0.6 <? 0.6000000000000001)%float = true.
Proof. split_and!; vm_compute; reflexivity. Qed.

(** ** Bounds on the severity counters *)

Lemma count_severity_sublist (s : Severity) (l1 l2 : list Issue) :
  l1 `sublist_of` l2 → count_severity s l1 ≤ count_severity s l2.
Proof.
  intros H. unfold count_severity. apply sublist_length.
  induction H as [|x l1 l2 _ IH|x l1 l2 _ IH]; [done| |].
  - rewrite !filter_cons. case_decide; [by constructor | done].
  - rewrite filter_cons. case_decide; [by constructor | done].
Qed.

Lemma all_header_issues_counts (lookup : gmap string PurchaseOrder.t)
    (invoice : Invoice.t) (c : Comparison) :
  compared lookup invoice c →
  count_severity HIGH (all_header_issues c) ≤ 5
  ∧ count_severity MEDIUM (all_header_issues c) ≤ 1.
Proof.
  intros Hc. unfold all_header_issues.
  destruct (compared_inv _ _ _ Hc)
    as [(_ & ->)|(ref & po & ds & dt & da & _ & _ & _ & _ & _ & ->)].
  - simpl. unfold count_severity. simpl. lia.
  - cbn [resolved_result details from_option header_issues].
    pose proof (header_list_sublist invoice po ds dt da) as Hsub.
    split.
    + etrans; [apply (count_severity_sublist _ _ _ Hsub)|]. done.
    + etrans; [apply (count_severity_sublist _ _ _ Hsub)|]. done.
Qed.

Lemma count_severity_bind_le (s : Severity) (k : nat)
    (f : Comparison → list Issue) (cs : list Comparison) :
  Forall (λ c, count_severity s (f c) ≤ k) cs →
  count_severity s (cs ≫= f) ≤ k * length cs.
Proof.
  induction 1 as [|c cs Hc _ IH].
  - unfold count_severity. simpl. lia.
  - rewrite bind_cons, count_severity_app. cbn [length].
    rewrite Nat.mul_succ_r. lia.
Qed.

(** X14. Each mismatched invoice adds at most five to high_severity_issues
    and at most one (its tax issue) to medium_severity_issues: the two
    counters never exceed 5 x total_mismatched and total_mismatched. *)
Theorem severity_bounds (invoices : list Invoice.t)
    (purchase_orders : list PurchaseOrder.t) (r : Results) :
  find_all_mismatches invoices purchase_orders = Ok r →
  high_severity_issues (summary r) ≤ 5 * total_mismatched (summary r)
  ∧ medium_severity_issues (summary r) ≤ total_mismatched (summary r).
Proof.
  intros H. apply find_all_closed in H
    as (cs & vs & Hcs & _ & _ & _ & _ & _ & _ & Hnmm & _ & Hh & Hmed & _).
  rewrite counted_issues_bind in Hh, Hmed. rewrite Hh, Hmed, Hnmm.
  assert (Forall (λ c, count_severity HIGH (all_header_issues c) ≤ 5
                       ∧ count_severity MEDIUM (all_header_issues c) ≤ 1)
            (with_status MISMATCH cs)) as Hall.
  { apply Forall_forall. intros c Hc.
    apply (with_status_origin _ _ _ _ _ Hcs) in Hc as (_ & invoice & _ & Hc).
    by eapply all_header_issues_counts. }
  split.
  - apply count_severity_bind_le. eapply Forall_impl; [exact Hall|].
    by intros c [? _].
  - rewrite <- (Nat.mul_1_l (length _)). apply count_severity_bind_le.
    eapply Forall_impl; [exact Hall|]. by intros c [_ ?].
Qed.

Lemma severity_bounds_witness :
  find_all_mismatches sample_invoices [sample_po] = Ok sample_results
  ∧ medium_severity_issues (summary sample_results)
    ≤ total_mismatched (summary sample_results).
Proof.
  assert (find_all_mismatches sample_invoices [sample_po] = Ok sample_results)
    as H by (vm_compute; reflexivity).
  split; [exact H|].
  exact (proj2 (severity_bounds sample_invoices [sample_po] sample_results H)).
Defined.

(** ** The two filter helpers *)

Lemma mismatched_origin (invoices : list Invoice.t)
    (purchase_orders : list PurchaseOrder.t) (r : Results) (m : Comparison) :
  find_all_mismatches invoices purchase_orders = Ok r →
  m ∈ mismatched r →
  ∃ invoice ref po ds dt da a b,
    invoice ∈ invoices
    ∧ compared (po_lookup purchase_orders) invoice m
    ∧ status m = MISMATCH
    ∧ truthy_reference (Invoice.po_reference invoice) = Some ref
    ∧ po_lookup purchase_orders !! ref = Some po
    ∧ resolve (po_lookup purchase_orders) invoice = Some po
    ∧ ¬ null_amount invoice po
    ∧ gaps invoice po = Some (ds, dt, da)
    ∧ m = resolved_result invoice ref po (ds, dt, da)
    ∧ Invoice.total_amount invoice = Number a
    ∧ PurchaseOrder.total_amount po = Number b.
Proof.
  intros H Hm.
  apply find_all_closed in H as (cs & vs & Hcs & Hvs & _ & _ & Hmm & _).
  rewrite Hmm in Hm.
  apply (with_status_origin _ _ _ _ _ Hcs) in Hm as (Hst & invoice & Hin & Hc).
  destruct (Forall2_elem_of_l _ _ _ _ Hvs Hin) as (v & _ & (c' & Hc' & Hv)).
  assert (c' = m) as -> by (unfold compared in Hc; congruence).
  rewrite Hst in Hv. destruct Hv as (po' & a & b & Hres' & Ha & Hb & _).
  destruct (compared_details _ _ _ Hc)
    as (ref & po & ds & dt & da & Href & Hpo & Hres & Hn & Hg & Hm);
    [by rewrite Hst|].
  assert (po' = po) as -> by congruence.
  exists invoice, ref, po, ds, dt, da, a, b. split_and!; done.
Qed.

Lemma mismatched_has_variance (invoices : list Invoice.t)
    (purchase_orders : list PurchaseOrder.t) (r : Results) (m : Comparison) :
  find_all_mismatches invoices purchase_orders = Ok r →
  m ∈ mismatched r →
  ∃ v, has_variance m v.
Proof.
  intros H Hm.
  destruct (mismatched_origin _ _ _ _ H Hm)
    as (invoice & ref & po & ds & dt & da & a & b & _ & _ & _ & _ & _ & _ & _
        & _ & -> & Ha & Hb).
  exists (abs (a - b)). unfold has_variance, resolved_result. cbn [details].
  eexists _, a, b. split; [reflexivity|]. cbn [invoice_total po_total].
  by rewrite Ha, Hb.
Qed.




(** X16. The amount filter is monotone: raising the amount can only drop
    results, never add or reorder them. *)
Theorem above_amount_monotone (invoices : list Invoice.t)
    (purchase_orders : list PurchaseOrder.t) (amount amount' : float)
    (kept : list Comparison) :
  (amount <=? amount')%float = true →
  get_mismatches_above_amount invoices purchase_orders amount = inr kept →
  ∃ kept',
    get_mismatches_above_amount invoices purchase_orders amount' = inr kept'
    ∧ kept' `sublist_of` kept.
Proof.
  unfold get_mismatches_above_amount. intros Hle.
  destruct (find_all_mismatches invoices purchase_orders) as [r|e]; [|done].
  generalize (mismatched r). clear r. intros ms. revert kept.
  induction ms as [|m ms IH]; intros kept; [intros [= <-]; by exists []|].
  cbn [above_amount]. destruct (details m) as [d|]; [|done].
  destruct (amount_variance d) as [v|e]; [|done].
  destruct (above_amount amount ms) as [e|k] eqn:E; [done|].
  destruct (IH k eq_refl) as (k' & -> & Hsub). intros [= <-].
  eexists. split; [reflexivity|].
  destruct (gtb v amount') eqn:H'.
  - rewrite (gtb_leb_trans _ _ _ Hle H'). by constructor.
  - destruct (gtb v amount); [by constructor | done].
Qed.

Lemma above_amount_monotone_witness :
  (0 <=? 100)%float = true
  ∧ get_mismatches_above_amount sample_invoices [sample_po] 0
    = inr (mismatched sample_results)
  ∧ ∃ kept',
      get_mismatches_above_amount sample_invoices [sample_po] 100 = inr kept'
      ∧ kept' `sublist_of` mismatched sample_results.
Proof.
  assert ((0 <=? 100)%float = true) as Hle by reflexivity.
  assert (get_mismatches_above_amount sample_invoices [sample_po] 0
          = inr (mismatched sample_results)) as H by (vm_compute; reflexivity).
  split; [exact Hle|]. split; [exact H|].
  exact (above_amount_monotone sample_invoices [sample_po] 0 100 _ Hle H).
Defined.
Lemma for_vendor_cases (lower : string → string) (wanted : string)
    (ms : list Comparison) :
  Forall (λ m, is_Some (details m)) ms →
  (Exists (λ m, ∃ d, details m = Some d ∧ vendor_name d = None) ms
   ∧ for_vendor lower wanted ms = inl AttributeError)
  ∨ (Forall (λ m, ∃ d v, details m = Some d ∧ vendor_name d = Some v) ms
     ∧ ∃ kept, for_vendor lower wanted ms = inr kept
         ∧ kept `sublist_of` ms
         ∧ ∀ m, m ∈ kept
                ↔ m ∈ ms ∧ ∃ d v, details m = Some d ∧ vendor_name d = Some v
                                  ∧ lower v = lower wanted).
Proof.
  induction 1 as [|m ms [d Hd] _ IH].
  - right. split; [done|]. exists []. split; [done|]. split; [done|].
    intros m. set_solver.
  - cbn [for_vendor]. rewrite Hd.
    destruct (vendor_name d) as [v|] eqn:Hv.
    + destruct IH as [[Hex ->]|(Hall & kept & -> & Hsub & Hiff)].
      * left. split; [by apply Exists_cons_tl | done].
      * right. split; [constructor; eauto|].
        case_decide as Hl; eexists; (split; [reflexivity|]).
        -- split; [by constructor|]. intros m'.
           rewrite !elem_of_cons, Hiff. split.
           ++ intros [->|[? ?]]; [|by auto]. split; [by left|]. by exists d, v.
           ++ intros [[->|?] ?]; auto.
        -- split; [by constructor|]. intros m'.
           rewrite elem_of_cons, Hiff. split; [intros [? ?]; auto|].
           intros [[->|?] (d' & v' & Hd' & Hv' & Hl')];
             [congruence | split; [done|]; by exists d', v'].
    + left. split; [|done]. apply Exists_cons_hd. by exists d.
Qed.

Lemma for_vendor_spec (lower : string → string) (wanted : string)
    (ms : list Comparison) :
  Forall (λ m, is_Some (details m)) ms →
  (for_vendor lower wanted ms = inl AttributeError
   ↔ ∃ m d, m ∈ ms ∧ details m = Some d ∧ vendor_name d = None)
  ∧ (∀ e, for_vendor lower wanted ms ≠ inl (Propagated e))
  ∧ ∀ kept, for_vendor lower wanted ms = inr kept →
      kept `sublist_of` ms
      ∧ ∀ m, m ∈ kept
             ↔ m ∈ ms ∧ ∃ d v, details m = Some d ∧ vendor_name d = Some v
                               ∧ lower v = lower wanted.
Proof.
  intros Hall.
  destruct (for_vendor_cases lower wanted ms Hall)
    as [[Hex E]|(Hsome & kept & E & Hsub & Hiff)]; rewrite E.
  - split_and!; [|done|done]. split; [intros _|done].
    apply Exists_exists in Hex as (m & Hm & d & Hd & Hv). by exists m, d.
  - split_and!; [|done|by intros ? [= <-]]. split; [done|].
    intros (m & d & Hm & Hd & Hv). rewrite Forall_forall in Hsome.
    destruct (Hsome m Hm) as (d' & v & Hd' & Hv'). congruence.
Qed.
(** X17. get_mismatches_for_vendor raises what find_all_mismatches raises,
    and AttributeError exactly when some invoice classified MISMATCH has no
    vendor_name; otherwise it returns, in their order, the mismatched
    results whose vendor name equals the requested one after lower-casing
    both, so two requests that differ only in case give the same answer. *)
Theorem vendor_filter (lower : string → string) (invoices : list Invoice.t)
    (purchase_orders : list PurchaseOrder.t) (wanted : string) :
  (∀ e, find_all_mismatches invoices purchase_orders = Raise e →
        get_mismatches_for_vendor lower invoices purchase_orders wanted
        = inl (Propagated e))
  ∧ (∀ wanted', lower wanted' = lower wanted →
       get_mismatches_for_vendor lower invoices purchase_orders wanted'
       = get_mismatches_for_vendor lower invoices purchase_orders wanted)
  ∧ ∀ r, find_all_mismatches invoices purchase_orders = Ok r →
      (get_mismatches_for_vendor lower invoices purchase_orders wanted
       = inl AttributeError
       ↔ ∃ invoice c, invoice ∈ invoices
           ∧ compare_invoice_with_po (po_lookup purchase_orders) invoice = Ok c
           ∧ status c = MISMATCH
           ∧ Invoice.vendor_name invoice = None)
      ∧ (∀ e, get_mismatches_for_vendor lower invoices purchase_orders wanted
              ≠ inl (Propagated e))
      ∧ ∀ kept,
          get_mismatches_for_vendor lower invoices purchase_orders wanted
          = inr kept →
          kept `sublist_of` mismatched r
          ∧ ∀ m, m ∈ kept
                 ↔ m ∈ mismatched r
                   ∧ ∃ d v, details m = Some d ∧ vendor_name d = Some v
                            ∧ lower v = lower wanted.
Proof.
  unfold get_mismatches_for_vendor. split_and!.
  - by intros e ->.
  - intros wanted' Hl.
    destruct (find_all_mismatches invoices purchase_orders) as [r|e]; [|done].
    generalize (mismatched r). intros ms.
    induction ms as [|m ms IH]; [done|]. cbn [for_vendor]. rewrite IH.
    destruct (details m) as [d|]; [|done].
    destruct (vendor_name d) as [v|]; [|done]. by rewrite Hl.
  - intros r Hr. rewrite Hr.
    assert (Forall (λ m, is_Some (details m)) (mismatched r)) as Hall.
    { apply Forall_forall. intros m Hm.
      destruct (mismatched_has_variance _ _ _ _ Hr Hm)
        as (_ & d & _ & _ & Hd & _). by exists d. }
    destruct (for_vendor_spec lower wanted (mismatched r) Hall)
      as (Hattr & Hprop & Hkept).
    split_and!; [|done|done].
    rewrite Hattr. split.
    + intros (m & d & Hm & Hd & Hv).
      destruct (mismatched_origin _ _ _ _ Hr Hm)
        as (invoice & ref & po & ds & dt & da & a & b & Hin & Hc & Hst & _ & _
            & _ & _ & _ & E & _).
      exists invoice, m. split_and!; [done|done|done|].
      rewrite E in Hd. injection Hd as <-. done.
    + intros (invoice & c & Hin & Hc & Hst & Hv).
      destruct (compared_details _ _ _ Hc)
        as (ref & po & ds & dt & da & _ & _ & _ & _ & _ & E);
        [by rewrite Hst|].
      exists c. eexists. split_and!.
      * apply find_all_closed in Hr as (cs & vs & Hcs & _ & _ & _ & -> & _).
        apply list_elem_of_filter. split; [done|].
        destruct (Forall2_elem_of_l _ _ _ _ Hcs Hin) as (c' & Hin' & Hc').
        assert (c' = c) as -> by (unfold compared in Hc'; congruence). done.
      * rewrite E. reflexivity.
      * done.
Qed.

(** ** The text report *)

Lemma bind_Ok {A B} (m : result A) (k : A → result B) (b : B) :
  bind m k = Ok b ↔ ∃ a, m = Ok a ∧ k a = Ok b.
Proof.
  destruct m as [a|e]; simpl; split; try done.
  - intros H. by exists a.
  - by intros (a' & [= <-] & H).
  - by intros (a & ? & _).
Qed.

Lemma bind_no_zero_division {A B} (m : result A) (k : A → result B) :
  no_zero_division m → (∀ a, no_zero_division (k a)) →
  no_zero_division (bind m k).
Proof.
  intros Hm Hk. destruct m as [a|e]; simpl; [apply Hk|].
  intros [= ->]. by apply Hm.
Qed.

Lemma for_lines_Ok {A} (f : A → result (list string)) (l : list A) :
  Forall (λ x, ∃ ls, f x = Ok ls) l → ∃ ls, for_lines f l = Ok ls.
Proof.
  induction 1 as [|x l [ls Hx] _ [ls' IH]]; simpl; [by eexists|].
  rewrite Hx, IH. simpl. by eexists.
Qed.

Lemma for_lines_no_zero_division {A} (f : A → result (list string))
    (l : list A) :
  (∀ x, no_zero_division (f x)) → no_zero_division (for_lines f l).
Proof.
  intros Hf. induction l as [|x l IH]; simpl; [done|].
  apply bind_no_zero_division; [done|]. intros a.
  apply bind_no_zero_division; [done|]. done.
Qed.

Section ReportFacts.
Variable fmt_1f : float → string.
Variable fmt_money : float → string.
Variable fmt_money_signed : float → string.
Variable fmt_signed_float : float → string.
Variable str_float : float → string.

Lemma format_2f_no_zero_division (fmt : float → string) (v : value) :
  no_zero_division (format_2f fmt v).
Proof. by destruct v. Qed.

Lemma format_signed_no_zero_division (v : value) :
  no_zero_division (format_signed fmt_signed_float v).
Proof. by destruct v. Qed.

Lemma header_issue_line_no_zero_division (issue : Issue) :
  no_zero_division
    (header_issue_line fmt_money fmt_money_signed str_float issue).
Proof.
  unfold header_issue_line. destruct (difference issue); [|done].
  repeat (apply bind_no_zero_division;
          [apply format_2f_no_zero_division|intros ?]). done.
Qed.

Lemma item_issue_lines_no_zero_division (m : Mismatch) :
  no_zero_division (item_issue_lines fmt_signed_float str_float m).
Proof.
  destruct m; simpl; try done.
  apply bind_no_zero_division; [|done].
  apply for_lines_no_zero_division. intros x. unfold item_detail_line.
  destruct (difference x); [|done].
  apply bind_no_zero_division; [apply format_signed_no_zero_division|done].
Qed.

Lemma mismatch_block_no_zero_division (idx : nat) (c : Comparison) :
  no_zero_division
    (mismatch_block fmt_money fmt_money_signed fmt_signed_float str_float idx c).
Proof.
  unfold mismatch_block.
  destruct (po_reference c); [|done]. destruct (details c) as [d|]; [|done].
  apply bind_no_zero_division; [apply format_2f_no_zero_division|intros ?].
  apply bind_no_zero_division; [apply format_2f_no_zero_division|intros ?].
  apply bind_no_zero_division; [|intros ?].
  { destruct (header_issues d); [done|].
    apply bind_no_zero_division; [|done].
    apply for_lines_no_zero_division, header_issue_line_no_zero_division. }
  apply bind_no_zero_division; [|done].
  destruct (mismatches (line_item_comparison d)); [done|].
  apply bind_no_zero_division; [|done].
  apply for_lines_no_zero_division, item_issue_lines_no_zero_division.
Qed.

Lemma mismatch_blocks_no_zero_division (idx : nat) (l : list Comparison) :
  no_zero_division
    (mismatch_blocks fmt_money fmt_money_signed fmt_signed_float str_float
       idx l).
Proof.
  revert idx. induction l as [|c l IH]; intros idx; simpl; [done|].
  apply bind_no_zero_division; [apply mismatch_block_no_zero_division|].
  intros ?. apply bind_no_zero_division; [apply IH | done].
Qed.

(** X18. Whatever the number formatting, the report raises
    ZeroDivisionError exactly when the invoice list is empty: no other
    step of the report, and no step of the aggregation it calls, can raise
    that error. *)
Theorem report_zero_division_iff (invoices : list Invoice.t)
    (purchase_orders : list PurchaseOrder.t) :
  get_mismatch_summary_text fmt_1f fmt_money fmt_money_signed
    fmt_signed_float str_float invoices purchase_orders
  = Raise ZeroDivisionError
  ↔ invoices = [].
Proof.
  split; [|by intros ->].
  unfold get_mismatch_summary_text.
  destruct (find_all_mismatches invoices purchase_orders) as [r|e] eqn:Hr.
  - cbn [bind]. apply find_all_mismatches_inv in Hr as (cs & _ & Ht & _).
    unfold percentage. rewrite Ht.
    destruct invoices as [|invoice invoices]; [done|]. cbn [length].
    rewrite !decide_False by done. cbn [bind]. intros H. exfalso. revert H.
    apply bind_no_zero_division; [|intros ?].
    { destruct (mismatched r); [done|].
      apply bind_no_zero_division;
        [apply mismatch_blocks_no_zero_division|done]. }
    apply bind_no_zero_division; [|done].
    destruct (errors r); [done|].
    apply bind_no_zero_division; [|done].
    apply for_lines_no_zero_division. intros c'. unfold error_line.
    by destruct (error c').
  - cbn [bind]. intros [= ->].
    by apply aggregate_raises in Hr.
Qed.
End ReportFacts.

Section ReportCompletes.
Variable fmt_1f : float → string.
Variable fmt_money : float → string.
Variable fmt_money_signed : float → string.
Variable fmt_signed_float : float → string.
Variable str_float : float → string.

Lemma header_issue_line_Ok (invoice : Invoice.t) (po : PurchaseOrder.t)
    (ds dt da : float) (x : Issue) :
  numeric (Invoice.subtotal invoice) ∧ numeric (Invoice.tax invoice)
  ∧ numeric (Invoice.total_amount invoice) →
  numeric (PurchaseOrder.subtotal po) ∧ numeric (PurchaseOrder.tax po)
  ∧ numeric (PurchaseOrder.total_amount po) →
  x ∈ header_list invoice po (ds, dt, da) →
  ∃ ls, header_issue_line fmt_money fmt_money_signed str_float x = Ok ls.
Proof.
  intros ([s Hs] & [t Ht] & [a Ha]) ([s' Hs'] & [t' Ht'] & [a' Ha']) Hx.
  eapply elem_of_sublist in Hx; [|apply header_list_sublist].
  rewrite !elem_of_cons, elem_of_nil in Hx.
  destruct Hx as [->|[->|[->|[->|[->|[->|[]]]]]]];
    unfold header_issue_line, vendor_name_issue, vendor_id_issue,
      currency_issue, subtotal_issue, tax_issue, total_amount_issue;
    cbn [difference invoice_value po_value];
    rewrite ?Hs, ?Ht, ?Ha, ?Hs', ?Ht', ?Ha'; simpl; by eexists.
Qed.

Lemma item_issue_lines_Ok (invoice_items po_items : list LineItem)
    (m : Mismatch) :
  m ∈ mismatches (compare_line_items invoice_items po_items) →
  ∃ ls, item_issue_lines fmt_signed_float str_float m = Ok ls.
Proof.
  rewrite compare_line_items_mismatches, elem_of_app, !list_elem_of_omap.
  intros [(i & _ & Hi)|(p & _ & Hp)].
  - unfold invoice_entry in Hi.
    destruct (po_items_lookup po_items !! item_code i) as [p|];
      [|injection Hi as <-; simpl; by eexists].
    destruct (item_issues i p) as [|y ys] eqn:E; [done|].
    injection Hi as <-. rewrite <- E. cbn [item_issue_lines].
    destruct (for_lines_Ok (item_detail_line fmt_signed_float str_float)
                (item_issues i p)) as [ls ->]; [|simpl; by eexists].
    apply Forall_forall. intros x Hx.
    apply item_issues_fields in Hx as [->|[->| ->]]; simpl; by eexists.
  - unfold po_entry in Hp. case_decide; [done|].
    injection Hp as <-. simpl. by eexists.
Qed.

Lemma mismatch_blocks_Ok (l : list Comparison) :
  Forall (λ c, ∀ idx, ∃ ls,
    mismatch_block fmt_money fmt_money_signed fmt_signed_float str_float idx c
    = Ok ls) l →
  ∀ idx, ∃ ls,
    mismatch_blocks fmt_money fmt_money_signed fmt_signed_float str_float idx l
    = Ok ls.
Proof.
  induction 1 as [|c l Hc _ IH]; intros idx; simpl; [by eexists|].
  destruct (Hc idx) as [ls ->]. destruct (IH (S idx)) as [ls' ->].
  simpl. by eexists.
Qed.

Lemma mismatch_block_Ok (invoice : Invoice.t) (ref : string)
    (po : PurchaseOrder.t) (ds dt da : float) (idx : nat) :
  numeric (Invoice.subtotal invoice) ∧ numeric (Invoice.tax invoice)
  ∧ numeric (Invoice.total_amount invoice) →
  numeric (PurchaseOrder.subtotal po) ∧ numeric (PurchaseOrder.tax po)
  ∧ numeric (PurchaseOrder.total_amount po) →
  ∃ ls, mismatch_block fmt_money fmt_money_signed fmt_signed_float str_float
          idx (resolved_result invoice ref po (ds, dt, da)) = Ok ls.
Proof.
  intros Hi Hp.
  unfold mismatch_block, resolved_result.
  cbn [po_reference details invoice_total po_total
    header_issues line_item_comparison].
  pose proof Hi as (Hi1 & Hi2 & [a Ha]).
  pose proof Hp as (Hp1 & Hp2 & [b Hb]).
  rewrite Ha, Hb. cbn [get of_num format_2f bind].
  destruct (for_lines_Ok
    (header_issue_line fmt_money fmt_money_signed str_float)
    (header_list invoice po (ds, dt, da))) as [hs Hhs].
  { apply Forall_forall. intros x Hx.
    eapply header_issue_line_Ok; [| |exact Hx]; eauto. }
  set (lic := compare_line_items _ _).
  destruct (for_lines_Ok (item_issue_lines fmt_signed_float str_float)
              (mismatches lic)) as [ms Hms].
  { apply Forall_forall. intros x Hx. by eapply item_issue_lines_Ok. }
  remember (header_list invoice po (ds, dt, da)) as hc eqn:Ehc.
  remember (mismatches lic) as lm eqn:Elm.
  destruct hc, lm; rewrite ?Hhs, ?Hms; cbn [bind]; by eexists.
Qed.

Lemma all_amounts_present_weaken (invoices : list Invoice.t)
    (purchase_orders : list PurchaseOrder.t) :
  all_amounts_present invoices purchase_orders →
  amounts_present invoices purchase_orders.
Proof.
  intros [Hinv Hpos]. split.
  - eapply Forall_impl; [exact Hinv|]. intros i (? & ? & ?).
    split_and!; [by apply numeric_not_null..|done].
  - eapply Forall_impl; [exact Hpos|]. intros p (? & ? & ?).
    split_and!; [by apply numeric_not_null..|done].
Qed.

(** X19. Whatever the number formatting, the report is produced for every
    non-empty invoice list whose invoices and purchase orders all carry
    numbers as subtotal, tax and total_amount: neither the aggregation nor
    any line of the report raises. *)
Theorem report_completes (invoices : list Invoice.t)
    (purchase_orders : list PurchaseOrder.t) :
  invoices ≠ [] →
  all_amounts_present invoices purchase_orders →
  ∃ text,
    get_mismatch_summary_text fmt_1f fmt_money fmt_money_signed
      fmt_signed_float str_float invoices purchase_orders = Ok text.
Proof.
  intros Hne Hall.
  destruct (find_all_mismatches_returns invoices purchase_orders
              (all_amounts_present_weaken _ _ Hall)) as [r Hr].
  unfold get_mismatch_summary_text. rewrite Hr. cbn [bind].
  pose proof (find_all_closed _ _ _ Hr)
    as (cs & vs & Hcs & _ & Ht & _ & Hmm & He & _).
  unfold percentage. rewrite Ht.
  destruct invoices as [|invoice0 invoices0] eqn:Einv; [done|].
  cbn [length]. rewrite !decide_False by done. cbn [bind].
  rewrite <- Einv in *. clear Hne.
  destruct Hall as [Hinv Hpos]. rewrite Forall_forall in Hinv.
  rewrite Forall_forall in Hpos.
  destruct (mismatch_blocks_Ok (mismatched r)) with (idx := 1) as [bs Hbs].
  { apply Forall_forall. intros c Hc idx.
    destruct (mismatched_origin _ _ _ _ Hr Hc)
      as (invoice & ref & po & ds & dt & da & a & b & Hin & _ & _ & _ & Hpo
          & _ & _ & _ & -> & _).
    apply mismatch_block_Ok; auto.
    apply Hpos. by eapply po_lookup_Some. }
  destruct (for_lines_Ok error_line (errors r)) as [es Hes].
  { apply Forall_forall. intros c Hc. rewrite He in Hc.
    apply (with_status_origin _ _ _ _ _ Hcs) in Hc as (Hst & invoice & _ & Hc).
    destruct (compared_inv _ _ _ Hc)
      as [(_ & ->)|(ref & po & ds & dt & da & _ & _ & _ & _ & _ & ->)].
    - unfold error_line, unresolved_result. cbn [error]. by eexists.
    - by apply resolved_status in Hst. }
  remember (mismatched r) as mm eqn:Emm.
  remember (errors r) as ee eqn:Eee.
  destruct mm, ee; rewrite ?Hbs, ?Hes; cbn [bind]; by eexists.
Qed.
End ReportCompletes.

Lemma sample_all_amounts_present :
  all_amounts_present sample_invoices [sample_po].
Proof. split; repeat constructor; eexists; reflexivity. Qed.

Lemma report_completes_witness :
  sample_invoices ≠ []
  ∧ all_amounts_present sample_invoices [sample_po]
  ∧ ∃ text,
      get_mismatch_summary_text (λ _, "") (λ _, "") (λ _, "") (λ _, "")
        (λ _, "") sample_invoices [sample_po] = Ok text.
Proof.
  assert (sample_invoices ≠ []) as Hne by discriminate.
  split; [exact Hne|]. split; [exact sample_all_amounts_present|].
  exact (report_completes _ _ _ _ _ sample_invoices [sample_po] Hne
           sample_all_amounts_present).
Defined.

(** ** The query handler of the API *)

Lemma target_origin (invoices : list Invoice.t)
    (purchase_orders : list PurchaseOrder.t) (r : Results) (c : Comparison) :
  find_all_mismatches invoices purchase_orders = Ok r →
  c ∈ matched r ∨ c ∈ mismatched r →
  ∃ invoice ref po ds dt da,
    invoice ∈ invoices
    ∧ po_lookup purchase_orders !! ref = Some po
    ∧ c = resolved_result invoice ref po (ds, dt, da).
Proof.
  intros H Hc.
  apply find_all_closed in H as (cs & vs & Hcs & _ & _ & Hm & Hmm & _).
  rewrite Hm, Hmm in Hc.
  assert (status c ≠ ERROR
          ∧ ∃ invoice, invoice ∈ invoices
              ∧ compared (po_lookup purchase_orders) invoice c)
    as [Hst (invoice & Hin & Hc')].
  { destruct Hc as [Hc|Hc];
      apply (with_status_origin _ _ _ _ _ Hcs) in Hc as (Hst & invoice & ? & ?);
      (split; [by rewrite Hst | by exists invoice]). }
  destruct (compared_details _ _ _ Hc' Hst)
    as (ref & po & ds & dt & da & _ & Hpo & _ & _ & _ & ->).
  by exists invoice, ref, po, ds, dt, da.
Qed.

Lemma header_issue_difference (invoice : Invoice.t) (po : PurchaseOrder.t)
    (ds dt da : float) (x : Issue) :
  x ∈ header_list invoice po (ds, dt, da) →
  difference x = None ∨ ∃ q, difference x = Some (VNum q).
Proof.
  intros Hx. eapply elem_of_sublist in Hx; [|apply header_list_sublist].
  rewrite !elem_of_cons, elem_of_nil in Hx.
  destruct Hx as [->|[->|[->|[->|[->|[->|[]]]]]]]; simpl; eauto.
Qed.

Section HandlerFacts.
Variable lower : string → string.
Variable asks_for_match : string → bool.
Variable asks_for_mismatch : string → bool.
Variable fmt_money : float → string.
Variable fmt_money_signed : float → string.

Lemma enumerate_parts_Ok (part : nat → Comparison → result (list string))
    (l : list Comparison) :
  Forall (λ m, ∀ idx, ∃ ls, part idx m = Ok ls) l →
  ∀ idx, ∃ ls, enumerate_parts part idx l = Ok ls.
Proof.
  induction 1 as [|m l Hm _ IH]; intros idx; simpl; [by eexists|].
  destruct (Hm idx) as [ls ->]. destruct (IH (S idx)) as [ls' ->].
  simpl. by eexists.
Qed.

Lemma sources_of_Ok (show_matched : bool) (l : list Comparison) :
  Forall (λ m, ∃ s, source_of fmt_money show_matched m = Ok s) l →
  ∃ ss, sources_of fmt_money show_matched l = Ok ss.
Proof.
  induction 1 as [|m l [s Hs] _ [ss IH]]; simpl; [by eexists|].
  rewrite Hs, IH. simpl. by eexists.
Qed.

Lemma sources_of_ids (show_matched : bool) (l : list Comparison)
    (ss : list Source) :
  sources_of fmt_money show_matched l = Ok ss →
  doc_id <$> ss = invoice_number <$> l
  ∧ Forall (λ s, doc_type s = "Invoice") ss.
Proof.
  revert ss. induction l as [|m l IH]; intros ss; simpl.
  - by intros [= <-].
  - destruct (source_of fmt_money show_matched m) as [s|] eqn:Hs; [|done].
    destruct (sources_of fmt_money show_matched l) as [ss'|]; [|done].
    simpl. intros [= <-]. destruct (IH ss' eq_refl) as [Hids Hty].
    unfold source_of in Hs. destruct (po_reference m); [|done].
    destruct (details m) as [d|]; [|done].
    destruct (format_2f fmt_money (of_num (invoice_total d))); [|done].
    destruct (format_2f fmt_money (of_num (po_total d))); [|done].
    simpl in Hs. injection Hs as <-. simpl. split; [by f_equal|].
    by constructor.
Qed.

Lemma parts_Ok (invoice : Invoice.t) (ref : string) (po : PurchaseOrder.t)
    (ds dt da : float) (show_matched : bool) :
  numeric (Invoice.total_amount invoice) →
  numeric (PurchaseOrder.total_amount po) →
  let c := resolved_result invoice ref po (ds, dt, da) in
  (∀ idx, ∃ ls, matched_part fmt_money idx c = Ok ls)
  ∧ (∀ idx, ∃ ls, mismatched_part fmt_money fmt_money_signed idx c = Ok ls)
  ∧ ∃ s, source_of fmt_money show_matched c = Ok s.
Proof.
  intros [a Ha] [b Hb] c. unfold c, resolved_result.
  unfold matched_part, mismatched_part, source_of.
  cbn [po_reference details invoice_total po_total header_issues
       amount_variance].
  rewrite Ha, Hb. cbn [get subtract of_num format_2f bind].
  split_and!; [intros idx; by eexists| |by eexists].
  intros idx.
  destruct (for_lines_Ok (issue_part fmt_money_signed)
              (take 3 (header_list invoice po (ds, dt, da)))) as [ls ->];
    [|cbn [bind]; by eexists].
  apply Forall_forall. intros x Hx.
  assert (x ∈ header_list invoice po (ds, dt, da)) as Hin
    by (eapply elem_of_sublist; [exact Hx | apply sublist_take]).
  unfold issue_part.
  destruct (header_issue_difference _ _ _ _ _ _ Hin) as [->|[q ->]];
    simpl; by eexists.
Qed.
End HandlerFacts.

Lemma target_totals (invoices : list Invoice.t)
    (purchase_orders : list PurchaseOrder.t) (r : Results)
    (show_matched : bool) (c : Comparison) :
  find_all_mismatches invoices purchase_orders = Ok r →
  show_matched = false ∨ totals_present invoices purchase_orders →
  c ∈ (if show_matched then matched r else mismatched r) →
  ∃ invoice ref po ds dt da,
    invoice ∈ invoices
    ∧ po_lookup purchase_orders !! ref = Some po
    ∧ c = resolved_result invoice ref po (ds, dt, da)
    ∧ numeric (Invoice.total_amount invoice)
    ∧ numeric (PurchaseOrder.total_amount po).
Proof.
  intros Hr Hcase Hc.
  destruct Hcase as [->|[Hinv Hpos]].
  - destruct (mismatched_origin _ _ _ _ Hr Hc)
      as (invoice & ref & po & ds & dt & da & a & b & Hin & _ & _ & _ & Hpo
          & _ & _ & _ & -> & Ha & Hb).
    exists invoice, ref, po, ds, dt, da.
    split_and!; [done|done|done|by exists a|by exists b].
  - assert (c ∈ matched r ∨ c ∈ mismatched r) as Hc'
      by (destruct show_matched; auto).
    destruct (target_origin _ _ _ _ Hr Hc')
      as (invoice & ref & po & ds & dt & da & Hin & Hpo & ->).
    exists invoice, ref, po, ds, dt, da. split_and!; try done.
    + rewrite Forall_forall in Hinv. by apply Hinv.
    + rewrite Forall_forall in Hpos. apply Hpos. by eapply po_lookup_Some.
Qed.

Section HandlerTheorems.
Variable lower : string → string.
Variable asks_for_match : string → bool.
Variable asks_for_mismatch : string → bool.
Variable fmt_money : float → string.
Variable fmt_money_signed : float → string.

(** X20. When the handler answers, the metadata it returns is the result of
    find_all_mismatches; it cites at most five sources, all of type Invoice,
    and they are the first five entries, in order, of the list it shows: the
    matched or the mismatched list, all of it when no vendor filter is
    given and a sublist of it otherwise. *)
Theorem handler_sources (invoices : list Invoice.t)
    (purchase_orders : list PurchaseOrder.t) (question : string)
    (vendor_filter : option string) (a : Answer) :
  handle_mismatch_query lower asks_for_match asks_for_mismatch fmt_money
    fmt_money_signed (Some (invoices, purchase_orders)) question vendor_filter
  = inr a →
  let show_matched :=
    asks_for_match (lower question)
    && negb (asks_for_mismatch (lower question)) in
  let shown :=
    if show_matched then matched (metadata a) else mismatched (metadata a) in
  find_all_mismatches invoices purchase_orders = Ok (metadata a)
  ∧ length (sources a) ≤ 5
  ∧ Forall (λ s, doc_type s = "Invoice") (sources a)
  ∧ ∃ target,
      target `sublist_of` shown
      ∧ (truthy_reference vendor_filter = None → target = shown)
      ∧ doc_id <$> sources a = invoice_number <$> take 5 target.
Proof.
  unfold handle_mismatch_query.
  destruct (find_all_mismatches invoices purchase_orders) as [r|e]; [|done].
  set (b := asks_for_match (lower question)
            && negb (asks_for_mismatch (lower question))).
  set (shown := if b then matched r else mismatched r).
  destruct (match truthy_reference vendor_filter with
            | Some vf => for_vendor lower vf shown
            | None => inr shown
            end) as [e|target] eqn:Hf; [done|].
  destruct (answer_text fmt_money fmt_money_signed b vendor_filter r target)
    as [text|e]; [|done].
  destruct (sources_of fmt_money b (take 5 target)) as [ss|e] eqn:Hss; [|done].
  intros [= <-]. cbn [metadata sources]. fold shown.
  destruct (sources_of_ids _ _ _ _ Hss) as [Hids Hty].
  split_and!; [done| |done|].
  - rewrite <- (length_fmap doc_id), Hids, length_fmap, length_take. lia.
  - exists target. split_and!; [| |done].
    + destruct (truthy_reference vendor_filter) as [vf|].
      * clear -Hf. revert target Hf. generalize shown. intros l.
        induction l as [|m l IH]; intros target; [by intros [= <-]|].
        cbn [for_vendor]. destruct (details m) as [d|]; [|done].
        destruct (vendor_name d); [|done].
        destruct (for_vendor lower vf l) as [|kept]; [done|].
        intros [= <-]. specialize (IH kept eq_refl).
        case_decide; by constructor.
      * by injection Hf as <-.
    + intros Hnone. rewrite Hnone in Hf. by injection Hf as <-.
Qed.

(** X21. The handler answers whenever find_all_mismatches returns, provided
    that no vendor filter is given or every invoice has a vendor name, and
    that the question asks for mismatches or every invoice and purchase
    order has a number as its total_amount.  For a question about mismatches
    without a vendor filter it therefore raises only what
    find_all_mismatches raises. *)
Theorem handler_completes (invoices : list Invoice.t)
    (purchase_orders : list PurchaseOrder.t) (question : string)
    (vendor_filter : option string) (r : Results) :
  find_all_mismatches invoices purchase_orders = Ok r →
  truthy_reference vendor_filter = None
  ∨ Forall (λ invoice, is_Some (Invoice.vendor_name invoice)) invoices →
  asks_for_match (lower question) && negb (asks_for_mismatch (lower question))
  = false
  ∨ totals_present invoices purchase_orders →
  ∃ a,
    handle_mismatch_query lower asks_for_match asks_for_mismatch fmt_money
      fmt_money_signed (Some (invoices, purchase_orders)) question
      vendor_filter = inr a
    ∧ metadata a = r.
Proof.
  intros Hr Hvendor Htotals. unfold handle_mismatch_query. rewrite Hr.
  set (b := asks_for_match (lower question)
            && negb (asks_for_mismatch (lower question))) in *.
  set (shown := if b then matched r else mismatched r).
  pose proof (λ c, target_totals invoices purchase_orders r b c Hr Htotals)
    as Horigin. fold shown in Horigin.
  assert (∃ target,
    match truthy_reference vendor_filter with
    | Some vf => for_vendor lower vf shown
    | None => inr shown
    end = inr target ∧ target `sublist_of` shown) as (target & -> & Hsub).
  { destruct (truthy_reference vendor_filter) as [vf|]; [|by exists shown].
    destruct Hvendor as [|Hvendor]; [done|].
    destruct (for_vendor_cases lower vf shown)
      as [[Hex _]|(_ & kept & Hk & Hsub & _)]; [| |by exists kept].
    - apply Forall_forall. intros c Hc.
      destruct (Horigin c Hc)
        as (invoice & ref & po & ds & dt & da & _ & _ & -> & _).
      by eexists.
    - exfalso. apply Exists_exists in Hex as (c & Hc & d & Hd & Hv).
      destruct (Horigin c Hc)
        as (invoice & ref & po & ds & dt & da & Hin & _ & -> & _).
      injection Hd as <-.
      cbn [vendor_name] in Hv. rewrite Forall_forall in Hvendor.
      destruct (Hvendor invoice Hin) as [v Hv']. congruence. }
  assert (∀ c, c ∈ target →
    (∀ idx, ∃ ls, matched_part fmt_money idx c = Ok ls)
    ∧ (∀ idx, ∃ ls, mismatched_part fmt_money fmt_money_signed idx c = Ok ls)
    ∧ ∃ s, source_of fmt_money b c = Ok s) as Hparts.
  { intros c Hc.
    destruct (Horigin c (elem_of_sublist _ _ _ Hc Hsub))
      as (invoice & ref & po & ds & dt & da & _ & _ & -> & Ha & Hb).
    by apply parts_Ok. }
  assert (∃ text, answer_text fmt_money fmt_money_signed b vendor_filter r
                    target = Ok text) as [text ->].
  { unfold answer_text.
    destruct (enumerate_parts_Ok (matched_part fmt_money) target)
      with (idx := 1) as [ls1 H1].
    { apply Forall_forall. intros c Hc. by apply Hparts. }
    destruct (enumerate_parts_Ok
                (mismatched_part fmt_money fmt_money_signed) target)
      with (idx := 1) as [ls2 H2].
    { apply Forall_forall. intros c Hc. by apply Hparts. }
    rewrite H1, H2.
    destruct b; repeat case_decide; cbn [bind]; by eexists. }
  destruct (sources_of_Ok fmt_money b (take 5 target)) as [ss ->].
  { apply Forall_forall. intros c Hc. apply Hparts.
    eapply elem_of_sublist; [exact Hc | apply sublist_take]. }
  by eexists.
Qed.
End HandlerTheorems.

Lemma handler_sources_witness :
  handle_mismatch_query (λ s, s) (λ _, false) (λ _, true) (λ _, "") (λ _, "")
    (Some (sample_invoices, [sample_po])) "which invoices mismatch" None
  = inr (mkAnswer
           (default "" (match answer_text (λ _, "") (λ _, "") false None
                                sample_results (mismatched sample_results) with
                        | Ok t => Some t | Raise _ => None end))
           (default [] (match sources_of (λ _, "") false
                                (take 5 (mismatched sample_results)) with
                        | Ok t => Some t | Raise _ => None end))
           sample_results)
  ∧ find_all_mismatches sample_invoices [sample_po] = Ok sample_results.
Proof.
  assert (handle_mismatch_query (λ s, s) (λ _, false) (λ _, true) (λ _, "")
            (λ _, "") (Some (sample_invoices, [sample_po]))
            "which invoices mismatch" None
          = inr (mkAnswer
           (default "" (match answer_text (λ _, "") (λ _, "") false None
                                sample_results (mismatched sample_results) with
                        | Ok t => Some t | Raise _ => None end))
           (default [] (match sources_of (λ _, "") false
                                (take 5 (mismatched sample_results)) with
                        | Ok t => Some t | Raise _ => None end))
           sample_results)) as H by (vm_compute; reflexivity).
  split; [exact H|].
  exact (proj1 (handler_sources _ _ _ _ _ _ _ _ _ _ H)).
Defined.

Lemma handler_completes_witness :
  find_all_mismatches sample_invoices [sample_po] = Ok sample_results
  ∧ ∃ a,
      handle_mismatch_query (λ s, s) (λ _, false) (λ _, true) (λ _, "")
        (λ _, "") (Some (sample_invoices, [sample_po]))
        "which invoices mismatch" None = inr a
      ∧ metadata a = sample_results.
Proof.
  assert (find_all_mismatches sample_invoices [sample_po] = Ok sample_results)
    as H by (vm_compute; reflexivity).
  split; [exact H|].
  exact (handler_completes (λ s, s) (λ _, false) (λ _, true) (λ _, "")
           (λ _, "") sample_invoices [sample_po] "which invoices mismatch"
           None sample_results H (or_introl eq_refl) (or_introl eq_refl)).
Defined.

(** ** Swapping the two documents *)

Lemma item_issues_nil_sym (i p : LineItem) :
  item_issues i p = [] → item_issues p i = [].
Proof.
  rewrite !item_issues_nil. intros (Hq & Hu & Ht). split_and!; [done| |].
  - by rewrite abs_sub_comm.
  - by rewrite abs_sub_comm.
Qed.

Lemma no_mismatch_swap (l1 l2 : list LineItem) :
  NoDup (item_code <$> l1) →
  NoDup (item_code <$> l2) →
  mismatches (compare_line_items l1 l2) = [] →
  mismatches (compare_line_items l2 l1) = [].
Proof.
  intros Hnd1 Hnd2. rewrite !compare_line_items_mismatches.
  intros [Hinv Hpo]%app_eq_nil.
  rewrite (omap_all_None _ l2), (omap_all_None _ l1); [done| |].
  - intros i Hi. unfold po_entry. rewrite decide_True; [done|].
    pose proof (omap_all_None_inv _ _ Hinv i Hi) as Hnone.
    unfold invoice_entry in Hnone.
    destruct (po_items_lookup l2 !! item_code i) as [p|] eqn:E; [|done].
    apply po_items_lookup_Some in E as [Hp Hc].
    apply list_elem_of_fmap. by exists p.
  - intros p Hp.
    pose proof (omap_all_None_inv _ _ Hpo p Hp) as Hnone.
    unfold po_entry in Hnone. case_decide as Hc; [|done].
    apply list_elem_of_fmap in Hc as (i & Hci & Hi).
    rewrite (invoice_entry_found _ p i);
      [|rewrite Hci; by apply po_items_lookup_NoDup].
    rewrite decide_True; [done|]. apply item_issues_nil_sym.
    pose proof (omap_all_None_inv _ _ Hinv i Hi) as Hi'.
    unfold invoice_entry in Hi'.
    rewrite <- Hci, (po_items_lookup_NoDup l2 p Hnd2 Hp) in Hi'.
    by destruct (item_issues i p).
Qed.

(** X22. On documents whose item codes are pairwise distinct the line-item
    comparison is symmetric in what it accepts: the invoice items match the
    order items without any mismatch exactly when the order items, taken as
    the invoice, match the invoice items taken as the order. *)
Theorem no_mismatch_symmetric (invoice_items po_items : list LineItem) :
  NoDup (item_code <$> invoice_items) →
  NoDup (item_code <$> po_items) →
  mismatches (compare_line_items invoice_items po_items) = []
  ↔ mismatches (compare_line_items po_items invoice_items) = [].
Proof. intros H1 H2. split; by apply no_mismatch_swap. Qed.

Lemma no_mismatch_symmetric_witness :
  NoDup (item_code <$> default [] (Invoice.line_items sample_invoice_match))
  ∧ NoDup (item_code <$> default [] (PurchaseOrder.line_items sample_po))
  ∧ (mismatches (compare_line_items
                   (default [] (Invoice.line_items sample_invoice_match))
                   (default [] (PurchaseOrder.line_items sample_po))) = []
     ↔ mismatches (compare_line_items
                     (default [] (PurchaseOrder.line_items sample_po))
                     (default [] (Invoice.line_items sample_invoice_match)))
       = []).
Proof.
  assert (NoDup (item_code <$> default [] (Invoice.line_items sample_invoice_match)))
    as H1 by (apply (bool_decide_unpack _); vm_compute; exact I).
  assert (NoDup (item_code <$> default [] (PurchaseOrder.line_items sample_po)))
    as H2 by (apply (bool_decide_unpack _); vm_compute; exact I).
  split; [exact H1|]. split; [exact H2|].
  exact (no_mismatch_symmetric _ _ H1 H2).
Defined.

(** ** No purchase order loaded *)

Lemma with_status_all (st : Status) (cs : list Comparison) :
  Forall (λ c, status c = st) cs →
  with_status st cs = cs
  ∧ ∀ st', st' ≠ st → with_status st' cs = [].
Proof.
  induction 1 as [|c cs Hc _ [IH1 IH2]]; [done|]. split.
  - rewrite with_status_cons, IH1. unfold with_status.
    rewrite filter_cons, filter_nil. by rewrite decide_True.
  - intros st' Hne. rewrite with_status_cons, IH2 by done.
    unfold with_status. rewrite filter_cons, filter_nil.
    rewrite decide_False; [done|]. congruence.
Qed.

(** X23. With no purchase order loaded the aggregation returns for every
    invoice list and classifies every invoice as ERROR: the matched and the
    mismatched lists are empty, the errors are the results of all invoices
    in order, and the variance and the severity counters are 0. *)
Theorem no_purchase_orders (invoices : list Invoice.t) :
  ∃ r, find_all_mismatches invoices [] = Ok r
       ∧ matched r = [] ∧ mismatched r = []
       ∧ Forall2 (λ invoice c, compare_invoice_with_po ∅ invoice = Ok c)
           invoices (errors r)
       ∧ Forall (λ c, status c = ERROR) (errors r)
       ∧ total_errors (summary r) = length invoices
       ∧ total_amount_variance (summary r) = 0%float
       ∧ high_severity_issues (summary r) = 0
       ∧ medium_severity_issues (summary r) = 0.
Proof.
  assert (∀ invoice, resolve ∅ invoice = None) as Hres.
  { intros invoice. unfold resolve.
    destruct (truthy_reference _); [apply lookup_empty | done]. }
  destruct (proj2 (find_all_returns_iff invoices [])) as [r Hr].
  { apply Forall_forall. intros invoice _ (po & Hpo & _).
    change (po_lookup []) with (∅ : gmap string PurchaseOrder.t) in Hpo.
    by rewrite Hres in Hpo. }
  exists r. split; [done|].
  pose proof (find_all_closed _ _ _ Hr)
    as (cs & vs & Hcs & Hvs & _ & Hm & Hmm & He & _ & _ & Hne & Hh & Hmed
        & Hvar).
  change (po_lookup []) with (∅ : gmap string PurchaseOrder.t) in *.
  assert (Forall (λ c, status c = ERROR) cs) as Herr.
  { apply Forall_forall. intros c Hc.
    destruct (Forall2_elem_of_r _ _ _ _ Hcs Hc) as (invoice & _ & Hc').
    destruct (compared_inv _ _ _ Hc')
      as [(_ & ->)|(ref & po & ds & dt & da & _ & Hpo & _)]; [done|].
    by rewrite lookup_empty in Hpo. }
  destruct (with_status_all _ _ Herr) as [Hall Hnone].
  rewrite (Hnone MATCH) in Hm by done.
  rewrite (Hnone MISMATCH) in Hmm by done.
  rewrite Hall in He, Hne.
  rewrite counted_issues_bind, (Hnone MISMATCH) in Hh, Hmed by done.
  rewrite He. split_and!; try done.
  - rewrite Hne. symmetry. by eapply Forall2_length.
  - rewrite Hvar. apply foldl_add_zeros; [exact not_negative_zero|].
    eapply contributes_zero; [exact Hcs | exact Hvs |]. by apply Hnone.
Qed.
